(** * Aletheia2.0: the book-recommendation pipeline

    A shallow embedding of the two concrete recommendation modules of the
    repository,

      - [src/app2.py] (hosted-API backend) and
      - [src/remd.py] (local model server backend),

    followed by the properties of the pipeline: JSON extraction from the
    model's reply, the frequency-count fallback profile, title matching,
    ranking and truncation.

    Conventions of the embedding.
      - Python values that come out of [json.loads] are values of [json];
        dataclass fields that the code fills with such values are typed
        [json], as Python does not enforce the annotations.
      - A Python [str] is a [string]; a character that is not ASCII is the
        sequence of its UTF-8 bytes, which keeps [find], [rfind], slicing at
        an ASCII character, equality and the lexicographic order.
      - A Python [float] is [PNan], [PInf] or the rational it equals
        ([PFloat]).  A literal that [json.loads] reads gives the binary64
        number nearest to it, an infinity when it overflows.  The true
        division of the fallback profile keeps the exact quotient, whose
        rounding to binary64 is not modelled.
      - The resources of the interpreter are taken to be unbounded: no
        [RecursionError] on values nested too deeply for the call stack,
        no [MemoryError].  Properties that speak of the exceptions of
        [json.loads] are stated for whatever it raises.
      - Exceptions are values of [exn]; a computation that may raise returns
        a [result]; code that talks to the text-generation backend runs in
        [M], which also threads the list of prompts sent so far.
      - [print] calls in the exception handlers are not modelled. *)

From Stdlib Require Import ZArith QArith Ascii String DecimalString List Permutation Sorted Lia.
From stdpp Require Import base option list sorting strings gmap.

Set Warnings "-register-all".

Local Open Scope string_scope.
Local Open Scope list_scope.
Local Open Scope Z_scope.

(** ** Exceptions and results *)

Inductive exn : Type :=
  | JSONDecodeError
  | AttributeError
  | TypeError
  | ZeroDivisionError
  | ValueError (msg : string)
  | GenerationError (cause : string).

Inductive result (A : Type) : Type :=
  | Ok (a : A)
  | Raise (e : exn).
Arguments Ok {A} a.
Arguments Raise {A} e.

Definition rbind {A B} (r : result A) (k : A -> result B) : result B :=
  match r with
  | Ok a => k a
  | Raise e => Raise e
  end.

Notation "x <-r c ; k" := (rbind c (fun x => k))
  (at level 100, c at next level, right associativity).

(** [try: body except E: handler], where [catches e] tells whether the
    [except] clause matches the exception [e]. *)
Definition try_except {A} (body : result A) (catches : exn -> bool)
    (handler : exn -> result A) : result A :=
  match body with
  | Ok a => Ok a
  | Raise e => if catches e then handler e else Raise e
  end.

(** [except json.JSONDecodeError] *)
Definition is_JSONDecodeError (e : exn) : bool :=
  match e with JSONDecodeError => true | _ => false end.

(** [except Exception]: every exception of the model derives from it. *)
Definition is_Exception (e : exn) : bool := true.

(** ** Python strings *)

Definition dq : string := String (ascii_of_nat 34) EmptyString.
Definition nl : string := String (ascii_of_nat 10) EmptyString.

Fixpoint find_from (c : ascii) (s : string) (i : Z) : Z :=
  match s with
  | EmptyString => -1
  | String a s' => if Ascii.eqb a c then i else find_from c s' (i + 1)
  end.

(** [s.find(c)] for a one-character [c]: lowest index, or -1. *)
Definition str_find (s : string) (c : ascii) : Z := find_from c s 0.

Fixpoint rfind_from (c : ascii) (s : string) (i : Z) (last : Z) : Z :=
  match s with
  | EmptyString => last
  | String a s' => rfind_from c s' (i + 1) (if Ascii.eqb a c then i else last)
  end.

(** [s.rfind(c)] for a one-character [c]: highest index, or -1. *)
Definition str_rfind (s : string) (c : ascii) : Z := rfind_from c s 0 (-1).

Definition str_len (s : string) : Z := Z.of_nat (String.length s).

(** A slice bound as Python normalises it: a negative bound counts from the
    end, and the result is clipped to [0, len]. *)
Definition slice_bound (len i : Z) : Z :=
  if i <? 0 then Z.max 0 (i + len) else Z.min i len.

(** [s[start:stop]] *)
Definition str_slice (s : string) (start stop : Z) : string :=
  let a := slice_bound (str_len s) start in
  let b := slice_bound (str_len s) stop in
  substring (Z.to_nat a) (Z.to_nat (b - a)) s.

Fixpoint str_join (sep : string) (l : list string) : string :=
  match l with
  | [] => EmptyString
  | [x] => x
  | x :: r => x +:+ sep +:+ str_join sep r
  end.

(** [l[:n]] on a list, [n] an integer. *)
Definition list_slice_to {A} (l : list A) (n : Z) : list A :=
  take (Z.to_nat (slice_bound (Z.of_nat (length l)) n)) l.

(** ** JSON values as Python objects *)

Inductive pynum : Type :=
  | PInt (z : Z)
  | PFloat (q : Q)
  | PNan
  | PInf (negative : bool).

Inductive json : Type :=
  | JNull
  | JBool (b : bool)
  | JNum (n : pynum)
  | JStr (s : string)
  | JArr (l : list json)
  | JObj (d : list (string * json)).

(** A Python [dict] with [str] keys keeps insertion order; assigning to a
    key that is present replaces the value in place. *)
Fixpoint dict_set {V} (k : string) (v : V) (d : list (string * V)) : list (string * V) :=
  match d with
  | [] => [(k, v)]
  | (k', v') :: r => if String.eqb k' k then (k', v) :: r else (k', v') :: dict_set k v r
  end.

Fixpoint dict_get {V} (k : string) (d : list (string * V)) : option V :=
  match d with
  | [] => None
  | (k', v) :: r => if String.eqb k' k then Some v else dict_get k r
  end.

(** [x.get(key, default)]: only a [dict] has the method. *)
Definition py_get (x : json) (key : string) (dflt : json) : result json :=
  match x with
  | JObj d => Ok (default dflt (dict_get key d))
  | _ => Raise AttributeError
  end.

(** *** Python comparison of JSON-derived values *)

(** [bool] is a subclass of [int]: [True == 1]. *)
Definition as_num (x : json) : option pynum :=
  match x with
  | JBool b => Some (PInt (if b then 1 else 0))
  | JNum n => Some n
  | _ => None
  end.

Definition num_q (n : pynum) : option Q :=
  match n with
  | PInt z => Some (inject_Z z)
  | PFloat q => Some q
  | _ => None
  end.

Definition Qltb (a b : Q) : bool := negb (Qle_bool b a).

(** [a < b] on numbers; every comparison with NaN is false. *)
Definition num_ltb (a b : pynum) : bool :=
  match a, b with
  | PNan, _ | _, PNan => false
  | PInf na, PInf nb => na && negb nb
  | PInf na, _ => na
  | _, PInf nb => negb nb
  | _, _ =>
      match num_q a, num_q b with
      | Some x, Some y => Qltb x y
      | _, _ => false
      end
  end.

(** [a == b] on numbers. *)
Definition num_eqb (a b : pynum) : bool :=
  match a, b with
  | PNan, _ | _, PNan => false
  | PInf na, PInf nb => Bool.eqb na nb
  | PInf _, _ | _, PInf _ => false
  | _, _ =>
      match num_q a, num_q b with
      | Some x, Some y => Qeq_bool x y
      | _, _ => false
      end
  end.

Definition is_nan (x : json) : bool :=
  match x with JNum PNan => true | _ => false end.

(** [a == b].  Containers compare their items with [x is y or x == y]; the
    only values for which identity matters are the NaNs, and every NaN that
    [json.loads] returns is the one object [json.decoder.NaN]. *)
Fixpoint py_eq (a b : json) : bool :=
  match a, b with
  | JNull, JNull => true
  | JStr s, JStr t => String.eqb s t
  | JArr la, JArr lb =>
      (fix items (la lb : list json) : bool :=
         match la, lb with
         | [], [] => true
         | x :: la', y :: lb' => ((is_nan x && is_nan y) || py_eq x y) && items la' lb'
         | _, _ => false
         end) la lb
  | JObj da, JObj db =>
      Nat.eqb (length da) (length db) &&
      (fix entries (da : list (string * json)) : bool :=
         match da with
         | [] => true
         | (k, x) :: da' =>
             match dict_get k db with
             | Some y => ((is_nan x && is_nan y) || py_eq x y) && entries da'
             | None => false
             end
         end) da
  | _, _ =>
      match as_num a, as_num b with
      | Some x, Some y => num_eqb x y
      | _, _ => false
      end
  end.

Definition py_item_eq (x y : json) : bool := (is_nan x && is_nan y) || py_eq x y.

(** [a < b]: numbers, strings and lists are ordered (lists
    lexicographically, at their first unequal items); anything else raises
    [TypeError]. *)
Fixpoint py_lt (a b : json) : result bool :=
  match a, b with
  | JStr s, JStr t => Ok (String.ltb s t)
  | JArr la, JArr lb =>
      (fix items (la lb : list json) : result bool :=
         match la, lb with
         | x :: la', y :: lb' => if py_item_eq x y then items la' lb' else py_lt x y
         | [], _ :: _ => Ok true
         | _, [] => Ok false
         end) la lb
  | _, _ =>
      match as_num a, as_num b with
      | Some x, Some y => Ok (num_ltb x y)
      | _, _ => Raise TypeError
      end
  end.

(** [iter(x)] run to exhaustion: a list yields its items, a dict its keys, a
    string its characters; other JSON values are not iterable. *)
Definition py_iter (x : json) : result (list json) :=
  match x with
  | JArr l => Ok l
  | JObj d => Ok (map (fun kv => JStr (fst kv)) d)
  | JStr s => Ok (map (fun c => JStr (String c EmptyString)) (list_ascii_of_string s))
  | _ => Raise TypeError
  end.

(** [hash(x)] succeeds except on lists and dicts; this is what a dict lookup
    with key [x] needs. *)
Definition py_hashable (x : json) : bool :=
  match x with
  | JArr _ | JObj _ => false
  | _ => true
  end.

(** ** [json.loads]

    The decoder of CPython's [json] module on a [str], with its defaults
    ([strict=True], the constants [NaN], [Infinity] and [-Infinity]
    accepted).  The scanners return [None] where the decoder raises
    [json.JSONDecodeError], and a result that is an exception where the
    decoder raises another one: [int] refuses an integer literal of more
    than 4300 digits with a [ValueError] as soon as the literal has been
    scanned.  A float literal gives the binary64 number nearest to it.
    One limit of the interpreter is not modelled, the recursion limit:
    on brackets nested too deeply for it the decoder raises
    [RecursionError], at a depth that depends on the interpreter's version
    and on the call stack. *)

Definition chr (n : nat) : ascii := ascii_of_nat n.
Definition ord (c : ascii) : Z := Z.of_nat (nat_of_ascii c).
Definition is_chr (c : ascii) (n : nat) : bool := Ascii.eqb c (chr n).

(** The whitespace the decoder skips: space, tab, line feed, carriage return. *)
Definition is_ws (c : ascii) : bool :=
  is_chr c 32 || is_chr c 9 || is_chr c 10 || is_chr c 13.

Fixpoint skip_ws (s : string) : string :=
  match s with
  | String c r => if is_ws c then skip_ws r else s
  | EmptyString => s
  end.

Fixpoint strip_prefix (p s : string) : option string :=
  match p, s with
  | EmptyString, _ => Some s
  | String a p', String b s' => if Ascii.eqb a b then strip_prefix p' s' else None
  | _, EmptyString => None
  end.

Definition digit_val (c : ascii) : option Z :=
  let n := ord c in
  if (48 <=? n) && (n <=? 57) then Some (n - 48) else None.

Definition hex_val (c : ascii) : option Z :=
  let n := ord c in
  if (48 <=? n) && (n <=? 57) then Some (n - 48)
  else if (97 <=? n) && (n <=? 102) then Some (n - 87)
  else if (65 <=? n) && (n <=? 70) then Some (n - 55)
  else None.

(** The longest run of decimal digits at the head of [s]. *)
Fixpoint take_digits (s : string) : list Z * string :=
  match s with
  | String c r =>
      match digit_val c with
      | Some d => let '(ds, rest) := take_digits r in (d :: ds, rest)
      | None => ([], s)
      end
  | EmptyString => ([], s)
  end.

Definition digits_val (ds : list Z) : Z := foldl (fun acc d => 10 * acc + d) 0 ds.

(** [(\.[0-9]+)?] *)
Definition scan_frac (s : string) : option (list Z) * string :=
  match s with
  | String c r =>
      if is_chr c 46 then
        match take_digits r with
        | ([], _) => (None, s)
        | (ds, rest) => (Some ds, rest)
        end
      else (None, s)
  | EmptyString => (None, s)
  end.

(** [([eE][-+]?[0-9]+)?] *)
Definition scan_exp (s : string) : option Z * string :=
  match s with
  | String c r =>
      if is_chr c 101 || is_chr c 69 then
        let '(neg, r') :=
          match r with
          | String sg r1 =>
              if is_chr sg 45 then (true, r1)
              else if is_chr sg 43 then (false, r1) else (false, r)
          | EmptyString => (false, r)
          end in
        match take_digits r' with
        | ([], _) => (None, s)
        | (ds, rest) => (Some (if neg then - digits_val ds else digits_val ds), rest)
        end
      else (None, s)
  | EmptyString => (None, s)
  end.

(** The value of [mant * 10^e] as a reduced fraction. *)
Definition decimal_Q (mant e : Z) : Q :=
  if 0 <=? e then Qred (inject_Z (mant * 10 ^ e))
  else Qred (Qmake mant (Z.to_pos (10 ^ (- e)))).

(** [n / d] rounded to the nearest integer, a tie to the even one. *)
Definition round_half_even (n d : Z) : Z :=
  let q := n / d in
  let r := n mod d in
  if 2 * r <? d then q
  else if d <? 2 * r then q + 1
  else if Z.even q then q else q + 1.

(** [float(text)] for a literal of value [q]: the binary64 number nearest
    to [q], a tie to the one with an even significand; 53 significant
    bits, least exponent -1074, and an infinity from 2^1024 on. *)
Definition binary64 (q : Q) : pynum :=
  let n := Z.abs (Qnum q) in
  let d := Zpos (Qden q) in
  if n =? 0 then PFloat 0
  else
    let e0 := Z.log2 n - Z.log2 d - 52 in
    let below := n * 2 ^ Z.max 0 (- e0) <? 2 ^ 52 * d * 2 ^ Z.max 0 e0 in
    let e := Z.max (if below then e0 - 1 else e0) (-1074) in
    let m := round_half_even (n * 2 ^ Z.max 0 (- e)) (d * 2 ^ Z.max 0 e) in
    if m =? 0 then PFloat 0
    else if 1024 <=? Z.log2 m + e then PInf (Qnum q <? 0)
    else
      let sm := if Qnum q <? 0 then - m else m in
      PFloat (if 0 <=? e then inject_Z (sm * 2 ^ e)
              else Qred (Qmake sm (Z.to_pos (2 ^ (- e))))).

(** [str(n)] *)
Definition str_of_nat (n : nat) : string := NilEmpty.string_of_uint (Nat.to_uint n).

(** [sys.int_info.default_max_str_digits] *)
Definition max_str_digits : Z := 4300.

(** [int(text)] for a literal of the digits [ids]. *)
Definition int_of_digits (neg : bool) (ids : list Z) : result pynum :=
  if max_str_digits <? Z.of_nat (length ids) then
    Raise (ValueError
             ("Exceeds the limit (4300 digits) for integer string conversion: value has "
              +:+ str_of_nat (length ids)
              +:+ " digits; use sys.set_int_max_str_digits() to increase the limit"))
  else Ok (PInt (if neg then - digits_val ids else digits_val ids)).

(** [NUMBER_RE]: an optional minus sign, then a single 0 or a run of digits
    that starts with 1 to 9, then the optional fraction and exponent; an
    [int] when there is neither fraction nor exponent, a [float] otherwise.
    The literal is scanned to its end before it is converted. *)
Definition scan_number (s : string) : option (result pynum * string) :=
  let '(neg, s1) :=
    match s with
    | String c r => if is_chr c 45 then (true, r) else (false, s)
    | EmptyString => (false, s)
    end in
  let int_part :=
    match s1 with
    | String c r =>
        if is_chr c 48 then Some ([0], r)
        else match take_digits s1 with
             | ([], _) => None
             | (ds, rest) => Some (ds, rest)
             end
    | EmptyString => None
    end in
  match int_part with
  | None => None
  | Some (ids, s2) =>
      let '(frac, s3) := scan_frac s2 in
      let '(ex, s4) := scan_exp s3 in
      let sign (z : Z) := if neg then - z else z in
      match frac, ex with
      | None, None => Some (int_of_digits neg ids, s4)
      | _, _ =>
          let fds := default [] frac in
          let e := default 0 ex in
          Some (Ok (binary64 (decimal_Q (sign (digits_val (ids ++ fds)))
                                        (e - Z.of_nat (length fds)))), s4)
      end
  end.

(** The UTF-8 bytes of a code point (a lone surrogate is encoded like any
    other three-byte code point). *)
Definition utf8 (u : Z) : string :=
  let b (z : Z) := chr (Z.to_nat z) in
  if u <? 128 then String (b u) EmptyString
  else if u <? 2048 then
    String (b (192 + u / 64)) (String (b (128 + u mod 64)) EmptyString)
  else if u <? 65536 then
    String (b (224 + u / 4096))
      (String (b (128 + (u / 64) mod 64)) (String (b (128 + u mod 64)) EmptyString))
  else
    String (b (240 + u / 262144))
      (String (b (128 + (u / 4096) mod 64))
         (String (b (128 + (u / 64) mod 64)) (String (b (128 + u mod 64)) EmptyString))).

Definition hex4 (a b c d : ascii) : option Z :=
  match hex_val a, hex_val b, hex_val c, hex_val d with
  | Some x, Some y, Some z, Some w => Some (((x * 16 + y) * 16 + z) * 16 + w)
  | _, _, _, _ => None
  end.

(** The character a backslash escape other than [\u] stands for. *)
Definition simple_escape (c : ascii) : option ascii :=
  if is_chr c 34 then Some (chr 34)
  else if is_chr c 92 then Some (chr 92)
  else if is_chr c 47 then Some (chr 47)
  else if is_chr c 98 then Some (chr 8)
  else if is_chr c 102 then Some (chr 12)
  else if is_chr c 110 then Some (chr 10)
  else if is_chr c 114 then Some (chr 13)
  else if is_chr c 116 then Some (chr 9)
  else None.

(** A second [\uXXXX] escape at the head of [s] that is a low surrogate. *)
Definition low_surrogate_escape (s : string) : option (Z * string) :=
  match s with
  | String b (String u (String h1 (String h2 (String h3 (String h4 r))))) =>
      if is_chr b 92 && is_chr u 117 then
        match hex4 h1 h2 h3 h4 with
        | Some lo => if (56320 <=? lo) && (lo <=? 57343) then Some (lo, r) else None
        | None => None
        end
      else None
  | _ => None
  end.

(** [scanstring] after the opening quote: the decoded string and the text
    after the closing quote. *)
Fixpoint scan_string (s : string) : option (string * string) :=
  match s with
  | EmptyString => None
  | String c r =>
      if is_chr c 34 then Some (EmptyString, r)
      else if is_chr c 92 then
        match r with
        | EmptyString => None
        | String e r1 =>
            if is_chr e 117 then
              match r1 with
              | String h1 (String h2 (String h3 (String h4 r2))) =>
                  match hex4 h1 h2 h3 h4 with
                  | None => None
                  | Some hi =>
                      if (55296 <=? hi) && (hi <=? 56319) then
                        match r2 with
                        | String b (String u (String g1 (String g2 (String g3 (String g4 r3))))) =>
                            match low_surrogate_escape r2 with
                            | Some (lo, _) =>
                                match scan_string r3 with
                                | Some (t, rest) =>
                                    Some (utf8 (65536 + (hi - 55296) * 1024 + (lo - 56320)) +:+ t, rest)
                                | None => None
                                end
                            | None =>
                                match scan_string r2 with
                                | Some (t, rest) => Some (utf8 hi +:+ t, rest)
                                | None => None
                                end
                            end
                        | _ =>
                            match scan_string r2 with
                            | Some (t, rest) => Some (utf8 hi +:+ t, rest)
                            | None => None
                            end
                        end
                      else
                        match scan_string r2 with
                        | Some (t, rest) => Some (utf8 hi +:+ t, rest)
                        | None => None
                        end
                  end
              | _ => None
              end
            else
              match simple_escape e with
              | Some ch =>
                  match scan_string r1 with
                  | Some (t, rest) => Some (String ch t, rest)
                  | None => None
                  end
              | None => None
              end
        end
      else if ord c <? 32 then None
      else
        match scan_string r with
        | Some (t, rest) => Some (String c t, rest)
        | None => None
        end
  end.

(** [scan_once] with [JSONArray] and [JSONObject]; [fuel] bounds the number
    of nested calls.  An exception other than [json.JSONDecodeError] ends
    the scan where it is raised. *)
Fixpoint parse_value (fuel : nat) (s : string) : option (result json * string) :=
  match fuel with
  | O => None
  | S f =>
      match s with
      | EmptyString => None
      | String c r =>
          if is_chr c 34 then
            match scan_string r with
            | Some (t, rest) => Some (Ok (JStr t), rest)
            | None => None
            end
          else if is_chr c 123 then
            match skip_ws r with
            | String c1 r1 =>
                if is_chr c1 125 then Some (Ok (JObj []), r1)
                else if is_chr c1 34 then parse_members f r1 []
                else None
            | EmptyString => None
            end
          else if is_chr c 91 then
            match skip_ws r with
            | String c1 r1 =>
                if is_chr c1 93 then Some (Ok (JArr []), r1)
                else parse_items f (String c1 r1) []
            | EmptyString => None
            end
          else
            match strip_prefix "null" s, strip_prefix "true" s, strip_prefix "false" s with
            | Some rest, _, _ => Some (Ok JNull, rest)
            | _, Some rest, _ => Some (Ok (JBool true), rest)
            | _, _, Some rest => Some (Ok (JBool false), rest)
            | _, _, _ =>
                match scan_number s with
                | Some (n, rest) => Some (x <-r n; Ok (JNum x), rest)
                | None =>
                    match strip_prefix "NaN" s, strip_prefix "Infinity" s,
                          strip_prefix "-Infinity" s with
                    | Some rest, _, _ => Some (Ok (JNum PNan), rest)
                    | _, Some rest, _ => Some (Ok (JNum (PInf false)), rest)
                    | _, _, Some rest => Some (Ok (JNum (PInf true)), rest)
                    | _, _, _ => None
                    end
                end
            end
      end
  end

(** The items of an array from the start of an item; [acc] holds the items
    read so far, last first. *)
with parse_items (fuel : nat) (s : string) (acc : list json)
    : option (result json * string) :=
  match fuel with
  | O => None
  | S f =>
      match parse_value f s with
      | Some (Ok v, rest) =>
          match skip_ws rest with
          | String c r =>
              if is_chr c 93 then Some (Ok (JArr (rev (v :: acc))), r)
              else if is_chr c 44 then parse_items f (skip_ws r) (v :: acc)
              else None
          | EmptyString => None
          end
      | Some (Raise e, rest) => Some (Raise e, rest)
      | None => None
      end
  end

(** The members of an object from just after the opening quote of a key;
    [acc] is the dict built so far. *)
with parse_members (fuel : nat) (s : string) (acc : list (string * json))
    : option (result json * string) :=
  match fuel with
  | O => None
  | S f =>
      match scan_string s with
      | Some (key, rest) =>
          match skip_ws rest with
          | String c r =>
              if is_chr c 58 then
                match parse_value f (skip_ws r) with
                | Some (Ok v, rest1) =>
                    let acc' := dict_set key v acc in
                    match skip_ws rest1 with
                    | String c1 r1 =>
                        if is_chr c1 125 then Some (Ok (JObj acc'), r1)
                        else if is_chr c1 44 then
                          match skip_ws r1 with
                          | String c2 r2 =>
                              if is_chr c2 34 then parse_members f r2 acc' else None
                          | EmptyString => None
                          end
                        else None
                    | EmptyString => None
                    end
                | Some (Raise e, rest1) => Some (Raise e, rest1)
                | None => None
                end
              else None
          | EmptyString => None
          end
      | None => None
      end
  end.

(** [json.loads(s)]: leading whitespace, one value, trailing whitespace and
    nothing else.  A chain of nested calls alternates between a value and
    the items or members it contains and every value takes at least one
    character, so twice the length of the text is fuel enough (lemma
    [json_loads_fuel] below). *)
Definition json_loads (s : string) : result json :=
  match parse_value (2 * String.length s + 2) (skip_ws s) with
  | Some (Ok v, rest) =>
      match skip_ws rest with
      | EmptyString => Ok v
      | _ => Raise JSONDecodeError
      end
  | Some (Raise e, _) => Raise e
  | None => Raise JSONDecodeError
  end.

(** ** Sorting

    [sorted(xs, key=key, reverse=True)] and [xs.sort(key=key, reverse=True)]:
    CPython reverses the list, sorts it stably in ascending order using
    only [<] on the keys, and reverses the result, so that equal keys keep
    their input order.  The ascending sort is modelled by left-to-right
    insertion, each element placed before the first one it is less than;
    on keys that [<] orders totally every stable sort returns this list.
    Where [<] is not an order of the keys (a NaN among numbers) the list
    CPython returns depends on the comparisons its algorithm happens to
    make: the properties below that speak of the order are stated for keys
    that [<] orders, and the one example with a NaN has two elements, on
    which CPython makes the one comparison the insertion makes. *)

Section Sorting.
Context {A K : Type} (key : A -> K).

Section Total.
Variable ltb : K -> K -> bool.

Fixpoint insort (x : A) (l : list A) : list A :=
  match l with
  | [] => [x]
  | y :: r => if ltb (key x) (key y) then x :: y :: r else y :: insort x r
  end.

Definition sort_asc (l : list A) : list A :=
  foldl (fun acc x => insort x acc) [] l.

Definition sorted_rev (l : list A) : list A := rev (sort_asc (rev l)).
End Total.

Section Partial.
(** The comparison may raise, and the sort then raises. *)
Variable lt : K -> K -> result bool.

Fixpoint insort_r (x : A) (l : list A) : result (list A) :=
  match l with
  | [] => Ok [x]
  | y :: r =>
      b <-r lt (key x) (key y);
      if b then Ok (x :: y :: r)
      else (r' <-r insort_r x r; Ok (y :: r'))
  end.

Definition sort_asc_r (l : list A) : result (list A) :=
  foldl (fun acc x => (a <-r acc; insort_r x a)) (Ok []) l.

Definition sorted_rev_r (l : list A) : result (list A) :=
  l' <-r sort_asc_r (rev l); Ok (rev l').
End Partial.
End Sorting.

(** ** [collections.Counter] over strings *)

Definition Counter : Type := list (string * Z).

(** [counter[k] += 1]; a missing key counts as 0 and is appended. *)
Fixpoint counter_incr (k : string) (c : Counter) : Counter :=
  match c with
  | [] => [(k, 1)]
  | (k', n) :: r =>
      if String.eqb k' k then (k', n + 1) :: r else (k', n) :: counter_incr k r
  end.

(** [counter.update(iterable)], and the loop [for k in ks: counter[k] += 1]. *)
Definition counter_update (c : Counter) (ks : list string) : Counter :=
  foldl (fun c k => counter_incr k c) c ks.

(** [sum(counter.values())] *)
Definition counter_total (c : Counter) : Z :=
  foldr (fun kv acc => snd kv + acc) 0 c.

(** [counter.most_common(n)], which is
    [sorted(counter.items(), key=itemgetter(1), reverse=True)[:n]]. *)
Definition most_common (n : nat) (c : Counter) : list (string * Z) :=
  take n (sorted_rev snd Z.ltb c).

(** [a / b] on two [int]s: true division, a [float]. *)
Definition py_truediv (a b : Z) : result pynum :=
  if b =? 0 then Raise ZeroDivisionError
  else Ok (PFloat (Qred (inject_Z a / inject_Z b))).

(** [x or y] on an [int]. *)
Definition int_or (x y : Z) : Z := if x =? 0 then y else x.

(** ** Data model (the three dataclasses, the same in both files) *)

Record Book : Type := mkBook {
  title : string;
  author : string;
  genres : list string;
  themes : list string;
  year : option Z;
  description : option string
}.

(** [Book(title, author, genres, themes, year, description)] with
    [__post_init__]: a [None] list becomes the empty list. *)
Definition Book_init (t a : string) (g th : option (list string))
    (y : option Z) (d : option string) : Book :=
  mkBook t a (default [] g) (default [] th) y d.

Record TasteProfile : Type := mkTasteProfile {
  favorite_genres : json;
  favorite_authors : json;
  common_themes : json;
  era_preferences : json;
  reading_level : json;
  diversity_score : json;
  summary : json
}.

Record BookScore : Type := mkBookScore {
  book : Book;
  overall_score : json;
  genre_match : json;
  theme_match : json;
  author_similarity : json;
  novelty_score : json;
  reasoning : json;
  recommendation : json
}.

(** ** Computations that call the text-generation backend

    The state is the list of prompts sent so far, oldest first; the backend
    answers a prompt, given the earlier ones, with a text or an exception. *)

Definition backend : Type := list string -> string -> result string.

Definition M (A : Type) : Type := list string -> result A * list string.

Definition ret {A} (a : A) : M A := fun log => (Ok a, log).

Definition lift {A} (r : result A) : M A := fun log => (r, log).

Definition bind {A B} (m : M A) (k : A -> M B) : M B :=
  fun log =>
    match m log with
    | (Ok a, log') => k a log'
    | (Raise e, log') => (Raise e, log')
    end.

Notation "x <- c ;; k" := (bind c (fun x => k))
  (at level 100, c at next level, right associativity).

(** One request to the backend. *)
Definition call (be : backend) (prompt : string) : M string :=
  fun log => (be log prompt, log ++ [prompt]).

(** ** Code shared by the two files, textually the same in both *)

(** The profile returned when [read_books] is empty. *)
Definition empty_profile : TasteProfile :=
  mkTasteProfile (JObj []) (JObj []) (JObj []) (JObj [])
    (JStr "unknown") (JNum (PFloat 0)) (JStr "No books read yet.").

(** [TasteProfile(favorite_genres=data.get("favorite_genres", {}), ...)] *)
Definition profile_of_data (data : json) : result TasteProfile :=
  fg <-r py_get data "favorite_genres" (JObj []);
  fa <-r py_get data "favorite_authors" (JObj []);
  ct <-r py_get data "common_themes" (JObj []);
  ep <-r py_get data "era_preferences" (JObj []);
  rl <-r py_get data "reading_level" (JStr "mixed");
  ds <-r py_get data "diversity_score" (JNum (PFloat (1 # 2)));
  sm <-r py_get data "summary" (JStr EmptyString);
  Ok (mkTasteProfile fg fa ct ep rl ds sm).

(** The three counters after the loop over [read_books]. *)
Definition count_books (read_books : list Book) : Counter * Counter * Counter :=
  foldl (fun '(gc, ac, tc) b =>
           (counter_update gc (genres b),
            counter_incr (author b) ac,
            counter_update tc (themes b)))
        ([], [], []) read_books.

(** [{g: c/total_genres for g, c in genre_counter.most_common(5)}] *)
Definition genre_weights (total_genres : Z) (l : list (string * Z))
    : result (list (string * json)) :=
  foldl (fun acc gc =>
           d <-r acc;
           w <-r py_truediv (snd gc) total_genres;
           Ok (dict_set (fst gc) (JNum w) d))
        (Ok []) l.

(** [dict(counter.most_common(5))], the counts being [int]s. *)
Definition counts_dict (l : list (string * Z)) : json :=
  JObj (foldl (fun d kv => dict_set (fst kv) (JNum (PInt (snd kv))) d) [] l).

(** [list(d.keys())] *)
Definition dict_keys {V} (d : list (string * V)) : list string := map fst d.

(** [list(x.keys())] on a value that need not be a [dict]: only a [dict]
    has the method. *)
Definition py_keys (x : json) : result (list string) :=
  match x with
  | JObj d => Ok (dict_keys d)
  | _ => Raise AttributeError
  end.

(** [book_lookup = {b.title: b for b in unread_books}]: a later book with
    the same title replaces the earlier one. *)
Definition book_lookup_of (unread_books : list Book) : gmap string Book :=
  foldl (fun m b => <[title b := b]> m) ∅ unread_books.

(** [book_lookup.get(x)]: an unhashable key raises, a key that is not a
    string equals no title. *)
Definition lookup_get (book_lookup : gmap string Book) (x : json) : result (option Book) :=
  match x with
  | JStr t => Ok (book_lookup !! t)
  | _ => if py_hashable x then Ok None else Raise TypeError
  end.

(** The body of the loop over [scores_data]: one more [BookScore] when the
    title is in [book_lookup] (a dataclass instance is always truthy). *)
Definition score_step (book_lookup : gmap string Book) (book_scores : list BookScore)
    (score_data : json) : result (list BookScore) :=
  ttl <-r py_get score_data "title" (JStr EmptyString);
  found <-r lookup_get book_lookup ttl;
  match found with
  | Some b =>
      os <-r py_get score_data "overall_score" (JNum (PInt 0));
      gm <-r py_get score_data "genre_match" (JNum (PInt 0));
      tm <-r py_get score_data "theme_match" (JNum (PInt 0));
      au <-r py_get score_data "author_similarity" (JNum (PInt 0));
      nv <-r py_get score_data "novelty_score" (JNum (PInt 0));
      rs <-r py_get score_data "reasoning" (JStr EmptyString);
      rc <-r py_get score_data "recommendation" (JStr "maybe");
      Ok (book_scores ++ [mkBookScore b os gm tm au nv rs rc])
  | None => Ok book_scores
  end.

(** [for score_data in scores_data: ...] *)
Definition collect_scores (book_lookup : gmap string Book) (scores_data : json)
    : result (list BookScore) :=
  items <-r py_iter scores_data;
  foldl (fun acc sd => (bs <-r acc; score_step book_lookup bs sd)) (Ok []) items.

(** Sorting by [key=lambda x: x.overall_score, reverse=True]. *)
Definition sort_scores (book_scores : list BookScore) : result (list BookScore) :=
  sorted_rev_r overall_score py_lt book_scores.

(** An argument that has a default value is either omitted or passed;
    [top_n] may be passed as [None]. *)
Inductive arg (A : Type) : Type :=
  | Omitted
  | Passed (a : A).
Arguments Omitted {A}.
Arguments Passed {A} a.

Definition arg_value {A} (dflt : A) (a : arg A) : A :=
  match a with Omitted => dflt | Passed x => x end.

(** The two shapes a reply is searched for, and their brackets. *)
Inductive shape : Type := ObjectShape | ArrayShape.

Definition opening (sh : shape) : ascii :=
  match sh with ObjectShape => "{"%char | ArrayShape => "["%char end.

Definition closing (sh : shape) : ascii :=
  match sh with ObjectShape => "}"%char | ArrayShape => "]"%char end.

(** ** [src/app2.py] *)

Module App2.
Section Analyzer.
(** [self.client.messages.create(...)] followed by
    [response.content[0].text]: the reply text, or the exception. *)
Variable messages_create : backend.
(** The two f-string prompts, with the books and the profile rendered by
    [json.dumps]; their wording plays no part in what follows. *)
Variable taste_prompt : list Book -> string.
Variable scoring_prompt : TasteProfile -> list Book -> string.

(** What [score_unread_books] evaluates for its prompt before it renders
    it: [list(taste_profile.favorite_authors.keys())] and
    [list(taste_profile.common_themes.keys())]. *)
Definition profile_names (taste_profile : TasteProfile)
    : result (list string * list string) :=
  authors <-r py_keys (favorite_authors taste_profile);
  themes <-r py_keys (common_themes taste_profile);
  Ok (authors, themes).

(** The statements between [try:] and the use of the parsed value, in
    [analyze_reading_taste] (braces) and [score_unread_books] (square
    brackets). *)
Definition extract_json (sh : shape) (content : string) : result json :=
  let start := str_find content (opening sh) in
  let end_ := str_rfind content (closing sh) + 1 in
  if negb (start =? -1) && (end_ >? start) then
    json_loads (str_slice content start end_)
  else
    json_loads content.

Definition _create_basic_profile (read_books : list Book) : result TasteProfile :=
  let '(genre_counter, author_counter, theme_counter) := count_books read_books in
  let total_genres := int_or (counter_total genre_counter) 1 in
  favorite_genres <-r genre_weights total_genres (most_common 5 genre_counter);
  ds <-r match read_books with
         | [] => Ok (PInt 0)
         | _ => py_truediv (Z.of_nat (length genre_counter)) (Z.of_nat (length read_books))
         end;
  Ok (mkTasteProfile
        (JObj favorite_genres)
        (counts_dict (most_common 5 author_counter))
        (counts_dict (most_common 5 theme_counter))
        (JObj [])
        (JStr "mixed")
        (JNum ds)
        (JStr ("Enjoys " +:+ str_join ", " (take 3 (dict_keys favorite_genres))
               +:+ " with favorite authors including "
               +:+ str_join ", " (take 2 (dict_keys author_counter))))).

Definition analyze_reading_taste (read_books : list Book) : M TasteProfile :=
  match read_books with
  | [] => ret empty_profile
  | _ =>
      content <- call messages_create (taste_prompt read_books);;
      lift (try_except
              (data <-r extract_json ObjectShape content;
               profile_of_data data)
              is_JSONDecodeError
              (fun _ => _create_basic_profile read_books))
  end.

Definition score_unread_books (taste_profile : TasteProfile) (unread_books : list Book)
    : M (list BookScore) :=
  match unread_books with
  | [] => ret []
  | _ =>
      names <- lift (profile_names taste_profile);;
      content <- call messages_create (scoring_prompt taste_profile unread_books);;
      lift (try_except
              (scores_data <-r extract_json ArrayShape content;
               book_scores <-r collect_scores (book_lookup_of unread_books) scores_data;
               sort_scores book_scores)
              is_JSONDecodeError
              (fun _ => Ok []))
  end.

(** [top_n: int = 5], and [None] for all. *)
Definition get_recommendations (read_books unread_books : list Book)
    (top_n : arg (option Z)) : M (TasteProfile * list BookScore) :=
  let top_n := arg_value (Some 5) top_n in
  taste_profile <- analyze_reading_taste read_books;;
  scored_books <- score_unread_books taste_profile unread_books;;
  ret (taste_profile,
       match top_n with
       | Some n => list_slice_to scored_books n
       | None => scored_books
       end).
End Analyzer.
End App2.

(** ** [src/remd.py] *)

Module Remd.
Section Analyzer.
(** [self._chat(prompt)], that is [ollama.chat(...)["message"]["content"]]. *)
Variable _chat : backend.
Variable taste_prompt : list Book -> string.
Variable scoring_prompt : TasteProfile -> list Book -> string.

(** The body of the [try] in both methods: the slice is taken whatever
    [find] and [rfind] return. *)
Definition extract_json (sh : shape) (content : string) : result json :=
  let start := str_find content (opening sh) in
  let end_ := str_rfind content (closing sh) + 1 in
  json_loads (str_slice content start end_).

Definition _create_basic_profile (read_books : list Book) : result TasteProfile :=
  let '(genre_counter, author_counter, theme_counter) := count_books read_books in
  let total_genres := int_or (counter_total genre_counter) 1 in
  favorite_genres <-r genre_weights total_genres (most_common 5 genre_counter);
  ds <-r py_truediv (Z.of_nat (length genre_counter)) (Z.of_nat (length read_books));
  Ok (mkTasteProfile
        (JObj favorite_genres)
        (counts_dict (most_common 5 author_counter))
        (counts_dict (most_common 5 theme_counter))
        (JObj [])
        (JStr "mixed")
        (JNum ds)
        (JStr ("Enjoys " +:+ str_join ", " (take 3 (dict_keys favorite_genres))))).

(** The [except Exception] clause returns from the method; the profile is
    built from [data] after the [try] statement. *)
Definition analyze_reading_taste (read_books : list Book) : M TasteProfile :=
  match read_books with
  | [] => ret empty_profile
  | _ =>
      content <- call _chat (taste_prompt read_books);;
      lift match extract_json ObjectShape content with
           | Raise e =>
               if is_Exception e then _create_basic_profile read_books else Raise e
           | Ok data => profile_of_data data
           end
  end.

Definition score_unread_books (taste_profile : TasteProfile) (unread_books : list Book)
    : M (list BookScore) :=
  match unread_books with
  | [] => ret []
  | _ =>
      content <- call _chat (scoring_prompt taste_profile unread_books);;
      lift match extract_json ArrayShape content with
           | Raise e => if is_Exception e then Ok [] else Raise e
           | Ok scores_data =>
               book_scores <-r collect_scores (book_lookup_of unread_books) scores_data;
               sort_scores book_scores
           end
  end.

(** [scored_books[:top_n]]: a [None] bound keeps the whole list. *)
Definition get_recommendations (read_books unread_books : list Book)
    (top_n : arg (option Z)) : M (TasteProfile * list BookScore) :=
  let top_n := arg_value (Some 5) top_n in
  taste_profile <- analyze_reading_taste read_books;;
  scored_books <- score_unread_books taste_profile unread_books;;
  ret (taste_profile,
       match top_n with
       | Some n => list_slice_to scored_books n
       | None => scored_books
       end).
End Analyzer.
End Remd.

(** ** Vocabulary of the properties *)

(** The overall score as a real number, when it is an [int], a finite
    [float] or a [bool]. *)
Definition real_of (x : json) : option Q :=
  match as_num x with
  | Some n => num_q n
  | None => None
  end.

Definition has_real_score (s : BookScore) : Prop := is_Some (real_of (overall_score s)).

Definition score_q (s : BookScore) : Q := default 0%Q (real_of (overall_score s)).

(** Descending by overall score. *)
Definition descending (l : list BookScore) : Prop :=
  StronglySorted (fun a b => (score_q b <= score_q a)%Q) l.

(** Entries whose overall score equals [v] come in [out] in the order they
    have in [l]. *)
Definition ties_in_order (l out : list BookScore) : Prop :=
  forall v : Q,
    List.filter (fun s => Qeq_bool (score_q s) v) out =
    List.filter (fun s => Qeq_bool (score_q s) v) l.

(** *** Sample data *)

Definition quoted (s : string) : string := dq +:+ s +:+ dq.

Definition book_1984 : Book :=
  Book_init "1984" "George Orwell" (Some ["Dystopian"; "Political Fiction"])
    (Some ["Totalitarianism"; "Surveillance"]) (Some 1949) None.

Definition book_brave : Book :=
  Book_init "Brave New World" "Aldous Huxley" (Some ["Dystopian"])
    (Some ["Technology"; "Control"]) (Some 1932) None.

Definition book_handmaid : Book :=
  Book_init "The Handmaid's Tale" "Margaret Atwood" (Some ["Dystopian"])
    (Some ["Oppression"; "Gender"]) (Some 1985) None.

Definition plain_book (t : string) : Book := Book_init t "Anon" None None None None.

(** A backend that is unreachable, one that always answers [text], and
    prompts whose wording is immaterial. *)
Definition backend_down : backend := fun _ _ => Raise (GenerationError "connection refused").
Definition backend_says (text : string) : backend := fun _ _ => Ok text.
Definition some_taste_prompt : list Book -> string := fun _ => "analyze".
Definition some_scoring_prompt : TasteProfile -> list Book -> string := fun _ _ => "score".

(** One element of a scoring reply, with a title and an overall score. *)
Definition reply_entry (t sc : string) : string :=
  "{" +:+ quoted "title" +:+ ": " +:+ quoted t +:+ ", "
      +:+ quoted "overall_score" +:+ ": " +:+ sc +:+ "}".

Definition entry_score (b : Book) (sc : Z) : BookScore :=
  mkBookScore b (JNum (PInt sc)) (JNum (PInt 0)) (JNum (PInt 0)) (JNum (PInt 0))
    (JNum (PInt 0)) (JStr EmptyString) (JStr "maybe").

(** The titles recommended, in order, when the call returns. *)
Definition scored_titles (l : list BookScore) : list string :=
  map (fun s => title (book s)) l.

Definition recommended_titles {S} (r : result (TasteProfile * list BookScore) * S)
    : option (list string) :=
  match fst r with
  | Ok (_, l) => Some (scored_titles l)
  | Raise _ => None
  end.

Definition returned_titles {S} (r : result (list BookScore) * S) : option (list string) :=
  match fst r with
  | Ok l => Some (scored_titles l)
  | Raise _ => None
  end.

(** Six unread books and a reply that scores all of them. *)
Definition six_books : list Book :=
  map plain_book ["A"; "B"; "C"; "D"; "E"; "F"].

Definition six_reply : string :=
  "[" +:+ str_join ", "
            [reply_entry "A" "10"; reply_entry "B" "20"; reply_entry "C" "30";
             reply_entry "D" "40"; reply_entry "E" "50"; reply_entry "F" "60"]
      +:+ "]".

(** Five unread books and a reply that scores all of them. *)
Definition five_books : list Book :=
  map plain_book ["A"; "B"; "C"; "D"; "E"].

Definition five_reply : string :=
  "Scores: [" +:+ str_join ", "
            [reply_entry "A" "40"; reply_entry "B" "95"; reply_entry "C" "70";
             reply_entry "D" "88.5"; reply_entry "E" "12"]
      +:+ "]".

(** The order [<] induces on real-valued keys. *)
Definition key_ltb (a b : json) : bool :=
  Qltb (default 0%Q (real_of a)) (default 0%Q (real_of b)).

(** A reply that scores A, B and C with 40, 95 and 70. *)
Definition abc_books : list Book := map plain_book ["A"; "B"; "C"].

Definition abc_reply : string :=
  "[" +:+ str_join ", "
            [reply_entry "A" "40"; reply_entry "B" "95"; reply_entry "C" "70"]
      +:+ "]".

(** *** Title matching, as the specification words it *)

(** The book a title stands for: the last one of [unread_books] with
    exactly this title, a later book shadowing an earlier one. *)
Definition find_book (unread_books : list Book) (t : string) : option Book :=
  List.find (fun b => String.eqb (title b) t) (rev unread_books).

(** A field of a response element, with the default for an absent key. *)
Definition entry_field (e : json) (k : string) (dflt : json) : json :=
  match e with
  | JObj d => default dflt (dict_get k d)
  | _ => dflt
  end.

Definition entry_title (e : json) : json := entry_field e "title" (JStr EmptyString).

(** The input book a response element is matched to, if any. *)
Definition matched_book (unread_books : list Book) (e : json) : option Book :=
  match entry_title e with
  | JStr t => find_book unread_books t
  | _ => None
  end.

(** The score record made from a matched element. *)
Definition score_of_entry (b : Book) (e : json) : BookScore :=
  mkBookScore b
    (entry_field e "overall_score" (JNum (PInt 0)))
    (entry_field e "genre_match" (JNum (PInt 0)))
    (entry_field e "theme_match" (JNum (PInt 0)))
    (entry_field e "author_similarity" (JNum (PInt 0)))
    (entry_field e "novelty_score" (JNum (PInt 0)))
    (entry_field e "reasoning" (JStr EmptyString))
    (entry_field e "recommendation" (JStr "maybe")).

(** One record per matched element, in the order of the response;
    unmatched elements leave nothing. *)
Definition matched_scores (unread_books : list Book) (items : list json)
    : list BookScore :=
  omap (fun e => b ← matched_book unread_books e; Some (score_of_entry b e)) items.

(** Whether a response element carries exactly the title [t]. *)
Definition has_title (t : string) (e : json) : bool :=
  match entry_title e with
  | JStr t' => String.eqb t' t
  | _ => false
  end.

(** The parsed elements of [abc_reply]. *)
Definition parsed_entry (t : string) (sc : Z) : json :=
  JObj [("title", JStr t); ("overall_score", JNum (PInt sc))].

Definition abc_items : list json :=
  [parsed_entry "A" 40; parsed_entry "B" 95; parsed_entry "C" 70].

(** A reply with an element for a book that is not among the unread ones,
    and a reply that scores the same book twice. *)
Definition stray_reply : string :=
  "[" +:+ str_join ", "
            [reply_entry "A" "40"; reply_entry "Zzz" "99"; reply_entry "B" "95"]
      +:+ "]".

Definition stray_items : list json :=
  [parsed_entry "A" 40; parsed_entry "Zzz" 99; parsed_entry "B" 95].

Definition twice_reply : string :=
  "[" +:+ str_join ", " [reply_entry "A" "40"; reply_entry "A" "95"] +:+ "]".

Definition twice_items : list json := [parsed_entry "A" 40; parsed_entry "A" 95].

(** *** The fallback profile, as the specification words it *)

(** How many times [x] occurs in [l]. *)
Definition occurrences (x : string) (l : list string) : Z :=
  Z.of_nat (count_occ String.string_dec l x).

(** The number of distinct strings in [l]. *)
Definition distinct (l : list string) : Z :=
  Z.of_nat (length (nodup String.string_dec l)).

(** Every genre occurrence, author and theme occurrence of the books read. *)
Definition all_genres (books : list Book) : list string := concat (map genres books).
Definition all_authors (books : list Book) : list string := map author books.
Definition all_themes (books : list Book) : list string := concat (map themes books).

(** [top] lists the [n] most frequent strings of [l] (all of them when
    there are fewer) with their numbers of occurrences, most frequent
    first: no string twice, and no string left out occurs more often than
    one that is listed. *)
Definition top_by_count (n : nat) (l : list string) (top : list (string * Z)) : Prop :=
  List.NoDup (map fst top) /\
  (forall k v, In (k, v) top -> In k l /\ v = occurrences k l) /\
  length top = Nat.min n (length (nodup String.string_dec l)) /\
  StronglySorted (fun a b => snd b <= snd a) top /\
  (forall k, In k l -> ~ In k (map fst top) ->
     forall kv, In kv top -> occurrences k l <= snd kv).

(** The mapping of the listed genres to [count / total] as floats. *)
Definition weighted_by (total : Z) (top : list (string * Z)) (d : list (string * json))
    : Prop :=
  Forall2 (fun kv gw =>
             fst gw = fst kv /\
             exists q, snd gw = JNum (PFloat q) /\
                       (q == inject_Z (snd kv) / inject_Z total)%Q)
          top d.

(** The mapping of the listed strings to their counts as ints. *)
Definition counted (top : list (string * Z)) : json :=
  JObj (map (fun kv => (fst kv, JNum (PInt (snd kv)))) top).

(** What a counter holds after counting the strings of [l]. *)
Definition counts (c : Counter) (l : list string) : Prop :=
  List.NoDup (map fst c) /\
  forall k, dict_get k c =
            if (count_occ String.string_dec l k =? 0)%nat then None
            else Some (occurrences k l).

(** The profile the specification describes for the fallback: the five
    most frequent genres weighted by their share of all genre occurrences,
    the five most frequent authors and themes with their counts, the
    number of distinct genres over the number of books, and the reading
    level "mixed". *)
Definition frequency_profile (read_books : list Book) (p : TasteProfile) : Prop :=
  exists top_g top_a top_t fg,
    top_by_count 5 (all_genres read_books) top_g /\
    top_by_count 5 (all_authors read_books) top_a /\
    top_by_count 5 (all_themes read_books) top_t /\
    favorite_genres p = JObj fg /\
    weighted_by (Z.of_nat (length (all_genres read_books))) top_g fg /\
    favorite_authors p = counted top_a /\
    common_themes p = counted top_t /\
    (exists q, diversity_score p = JNum (PFloat q) /\
       (q == inject_Z (distinct (all_genres read_books)) /
             inject_Z (Z.of_nat (length read_books)))%Q) /\
    reading_level p = JStr "mixed".

(** The three books of the example: genres Dystopian and Political
    Fiction, Dystopian, Dystopian. *)
Definition three_books : list Book := [book_1984; book_brave; book_handmaid].

(** The weight of a genre that occurs [c] times among [total] occurrences. *)
Definition weight_of (total c : Z) : json :=
  JNum (PFloat (Qred (inject_Z c / inject_Z total))).

(** *** Extraction, as the specification words it *)

(** The character [c] occurs in [s]. *)
Definition occurs (c : ascii) (s : string) : Prop := In c (list_ascii_of_string s).

(** [content] holds a bracket pair of shape [sh]: [pre] runs up to the
    first opening bracket, [post] starts after the last closing bracket,
    and [mid] is what lies between the two. *)
Definition bracketed (sh : shape) (content pre mid post : string) : Prop :=
  content = pre +:+ String (opening sh) (mid +:+ String (closing sh) post) /\
  ~ occurs (opening sh) pre /\
  ~ occurs (closing sh) post.

(** No opening bracket of the shape is followed by a closing one. *)
Definition no_bracket_pair (sh : shape) (content : string) : Prop :=
  forall pre mid post,
    content <> pre +:+ String (opening sh) (mid +:+ String (closing sh) post).

(** The two replies of the example. *)
Definition wrapped_reply : string :=
  "Here is the result:" +:+ nl +:+ "{" +:+ quoted "a" +:+ ":1}" +:+ nl +:+ "Thanks!".

Definition prose_reply : string := "not json at all".

(** Two replies outside the requested form: an element whose title is a
    list, and an element that is not an object. *)
Definition list_title_reply : string :=
  "[{" +:+ quoted "title" +:+ ": [" +:+ quoted "A" +:+ "]}]".

Definition bare_number_reply : string := "[5]".

(** ** Further code of the repository *)

(** The exceptions of [exn], and whatever a remote service raises. *)
Inductive exn_plus : Type :=
  | ServiceError (cause : string)
  | Std (e : exn).

Inductive outcome (A : Type) : Type :=
  | Returns (a : A)
  | Raises (e : exn_plus).
Arguments Returns {A} a.
Arguments Raises {A} e.

Definition std {A} (r : result A) : outcome A :=
  match r with
  | Ok a => Returns a
  | Raise e => Raises (Std e)
  end.

(** The truth value of an optional string: [None] and the empty string are
    false. *)
Definition str_truthy (x : option string) : bool :=
  match x with
  | Some (String _ _) => true
  | _ => false
  end.

(** [x or y] *)
Definition str_or (x y : option string) : option string :=
  if str_truthy x then x else y.

(** *** [BookTasteAnalyzer.__init__] of [src/app2.py]

    [environ_key] is [os.environ.get("ANTHROPIC_API_KEY")]; the analyzer
    that is built is identified with the key its client holds. *)
Definition BookTasteAnalyzer_init (api_key environ_key : option string) : outcome string :=
  let self_api_key := str_or api_key environ_key in
  if negb (str_truthy self_api_key) then
    Raises (Std (ValueError
                   "API key required. Set ANTHROPIC_API_KEY env var or pass api_key."))
  else
    Returns (default EmptyString self_api_key).

(** *** [src/formatInput.py] *)

Module FormatInput.

(** [OCRBookData]; [None] is [JNull]. *)
Record OCRBookData : Type := mkOCRBookData {
  title : json;
  author : json;
  genres : json;
  themes : json;
  year : json;
  description : json
}.

(** [OCRBookData()] *)
Definition OCRBookData_default : OCRBookData :=
  mkOCRBookData JNull JNull JNull JNull JNull JNull.

Section Formatter.
(** [self._chat(prompt)] and the f-string prompt around the OCR text. *)
Variable _chat : backend.
Variable ocr_prompt : string -> string.

(** The body of the [try] statement. *)
Definition find_json (content : string) : outcome json :=
  let start := str_find content "{"%char in
  let end_ := str_rfind content "}"%char + 1 in
  if (start =? -1) || (end_ =? 0) then
    Raises (Std (ValueError "No JSON found in response"))
  else
    std (json_loads (str_slice content start end_)).

(** [except Exception] catches whatever the body raises and returns the
    empty record; the record is built from [data] after the [try]. *)
Definition format_ocr_text (ocr_text : string) : M OCRBookData :=
  content <- call _chat (ocr_prompt ocr_text);;
  lift match find_json content with
       | Raises _ => Ok OCRBookData_default
       | Returns data =>
           t <-r py_get data "title" JNull;
           a <-r py_get data "author" JNull;
           g <-r py_get data "genres" (JArr []);
           th <-r py_get data "themes" (JArr []);
           y <-r py_get data "year" JNull;
           d <-r py_get data "description" JNull;
           Ok (mkOCRBookData t a g th y d)
       end.
End Formatter.
End FormatInput.

(** *** [update_user_profile] of [src/test_auth.py] *)

Module TestAuth.

(** One [update] sent to the [users] table: the row id and the new values. *)
Definition db_write : Type := (string * list (string * json))%type.

Definition allowed_fields : list string := ["full_name"; "avatar_url"; "bio"; "phone"].

(** [k in allowed_fields] *)
Definition is_allowed (k : string) : bool :=
  existsb (String.eqb k) allowed_fields.

(** [x.items()]: only a [dict] has the method. *)
Definition py_items (x : json) : result (list (string * json)) :=
  match x with
  | JObj d => Ok d
  | _ => Raise AttributeError
  end.

Section Database.
(** [datetime.utcnow().isoformat()] at the time of the call, and
    [supabase.table('users').update(d).eq('id', user_id).execute().data]. *)
Variable utcnow_isoformat : string.
Variable users_update : string -> list (string * json) -> outcome (list json).

(** [{k: v for k, v in profile_data.items() if k in allowed_fields}] and
    the assignment of ['updated_at']. *)
Definition update_data_of (items : list (string * json)) : list (string * json) :=
  dict_set "updated_at" (JStr utcnow_isoformat)
    (foldl (fun d kv => if is_allowed (fst kv) then dict_set (fst kv) (snd kv) d else d)
           [] items).

(** The handler logs and re-raises; the state is the list of writes sent
    to the table so far. *)
Definition update_user_profile (user_id : string) (profile_data : json)
    (writes : list db_write) : outcome json * list db_write :=
  match py_items profile_data with
  | Raise e => (Raises (Std e), writes)
  | Ok items =>
      let update_data := update_data_of items in
      match users_update user_id update_data with
      | Raises e => (Raises e, writes ++ [(user_id, update_data)])
      | Returns data =>
          (Returns match data with
                   | first :: _ => first
                   | [] => JNull
                   end,
           writes ++ [(user_id, update_data)])
      end
  end.
End Database.
End TestAuth.

(** *** Vocabulary of the scoring properties *)

Definition is_dict (x : json) : bool :=
  match x with JObj _ => true | _ => false end.

(** The two fields of the profile whose keys the scoring prompt of
    [app2.py] lists are mappings. *)
Definition has_dict_fields (p : TasteProfile) : bool :=
  is_dict (favorite_authors p) && is_dict (common_themes p).

(** An integer literal of 4301 digits, the exception [json.loads] raises
    on it, and the literal as the one item of an array. *)
Fixpoint nines (n : nat) : string :=
  match n with
  | O => EmptyString
  | S k => String "9"%char (nines k)
  end.

Definition long_integer : string := nines 4301.

Definition long_integer_error : exn :=
  ValueError
    ("Exceeds the limit (4300 digits) for integer string conversion: "
     +:+ "value has 4301 digits; use sys.set_int_max_str_digits() to increase the limit").

Definition long_integer_array : string := "[" +:+ long_integer +:+ "]".


Definition authors_list_reply : string :=
  "{" +:+ quoted "favorite_authors" +:+ ": []}".


(** [x <= y] as Python evaluates it on two numbers (false with a NaN) or
    on two strings. *)
Definition score_le (x y : json) : bool :=
  match x, y with
  | JStr s, JStr t => negb (String.ltb t s)
  | _, _ =>
      match as_num x, as_num y with
      | Some a, Some b => num_ltb a b || num_eqb a b
      | _, _ => false
      end
  end.

(** The overall score is a number other than NaN: an [int], a [float]
    (an infinity included) or a [bool]. *)
Definition numeric (x : json) : Prop :=
  exists n, as_num x = Some n /\ n <> PNan.

Definition numeric_score (s : BookScore) : Prop := numeric (overall_score s).

Definition textual (x : json) : Prop := exists t, x = JStr t.

Definition string_score (s : BookScore) : Prop := textual (overall_score s).

(** Overall scores that [<] orders: all of them numbers other than NaN, or
    all of them strings. *)
Definition sortable (bs : list BookScore) : Prop :=
  Forall numeric_score bs \/ Forall string_score bs.

(** Every record's overall score is [>=] that of every later record. *)
Definition descending_scores (l : list BookScore) : Prop :=
  StronglySorted (fun a b => score_le (overall_score b) (overall_score a) = true) l.

Definition same_score (a b : BookScore) : bool :=
  score_le (overall_score a) (overall_score b) &&
  score_le (overall_score b) (overall_score a).

(** The records that have the overall score of a record of [l] come in
    [out] in the order they have in [l]. *)
Definition ties_keep_order (l out : list BookScore) : Prop :=
  forall s0, In s0 l ->
    List.filter (same_score s0) out = List.filter (same_score s0) l.

(** A record with the overall score [x], the other fields having the
    defaults of the code. *)
Definition scored_as (b : Book) (x : json) : BookScore :=
  mkBookScore b x (JNum (PInt 0)) (JNum (PInt 0)) (JNum (PInt 0))
    (JNum (PInt 0)) (JStr EmptyString) (JStr "maybe").

(** A reply that scores A with 1 and B with NaN, a literal [json.loads]
    accepts, and the records made of it. *)
Definition ab_books : list Book := map plain_book ["A"; "B"].

Definition nan_reply : string :=
  "[" +:+ str_join ", " [reply_entry "A" "1"; reply_entry "B" "NaN"] +:+ "]".

Definition nan_scores : list BookScore :=
  [scored_as (plain_book "A") (JNum (PInt 1)); scored_as (plain_book "B") (JNum PNan)].

(** A reply that scores A twice, once with a string and once with a
    number. *)
Definition mixed_reply : string :=
  "[" +:+ str_join ", " [reply_entry "A" (quoted "high"); reply_entry "A" "95"] +:+ "]".

Definition mixed_items : list json :=
  [JObj [("title", JStr "A"); ("overall_score", JStr "high")];
   JObj [("title", JStr "A"); ("overall_score", JNum (PInt 95))]].

(** Keys under which [<] on numbers other than NaN, and on strings, is a
    strict weak order of all values: minus infinity, the reals and plus
    infinity in this order; and the string itself. *)
Definition ext_key (x : json) : Z * Q :=
  match as_num x with
  | Some (PInf true) => (-1, 0%Q)
  | Some (PInf false) => (1, 0%Q)
  | Some n => (0, default 0%Q (num_q n))
  | None => (0, 0%Q)
  end.

Definition ext_ltb (x y : json) : bool :=
  (fst (ext_key x) <? fst (ext_key y)) ||
  ((fst (ext_key x) =? fst (ext_key y)) && Qltb (snd (ext_key x)) (snd (ext_key y))).

Definition str_key (x : json) : string :=
  match x with JStr s => s | _ => EmptyString end.

Definition str_ltb (x y : json) : bool := String.ltb (str_key x) (str_key y).

(** *** Vocabulary of the further properties *)

(** The value has the shape the brackets announce. *)
Definition has_shape (sh : shape) (v : json) : Prop :=
  match sh, v with
  | ObjectShape, JObj _ => True
  | ArrayShape, JArr _ => True
  | _, _ => False
  end.

(** The profile made of the fields of an object, with the defaults of the
    code for absent keys. *)
Definition profile_of_fields (d : list (string * json)) : TasteProfile :=
  mkTasteProfile
    (default (JObj []) (dict_get "favorite_genres" d))
    (default (JObj []) (dict_get "favorite_authors" d))
    (default (JObj []) (dict_get "common_themes" d))
    (default (JObj []) (dict_get "era_preferences" d))
    (default (JStr "mixed") (dict_get "reading_level" d))
    (default (JNum (PFloat (1 # 2))) (dict_get "diversity_score" d))
    (default (JStr EmptyString) (dict_get "summary" d)).

(** The prompts [get_recommendations] sends when both stages run. *)
Definition profile_prompts (tp : list Book -> string) (read_books : list Book)
    : list string :=
  match read_books with [] => [] | _ => [tp read_books] end.

Definition scoring_prompts (sp : TasteProfile -> list Book -> string)
    (p : TasteProfile) (unread_books : list Book) : list string :=
  match unread_books with [] => [] | _ => [sp p unread_books] end.

(** In [app2.py] the scoring prompt is sent only when it can be built. *)
Definition App2_scoring_prompts (sp : TasteProfile -> list Book -> string)
    (p : TasteProfile) (unread_books : list Book) : list string :=
  if has_dict_fields p then scoring_prompts sp p unread_books else [].

(** The fallback profile of [three_books], evaluated. *)
Definition three_books_profile : TasteProfile :=
  Eval vm_compute in
    match App2._create_basic_profile three_books with
    | Ok p => p
    | Raise _ => empty_profile
    end.

(** A response element the scoring loop gets past: an object whose
    title is hashable. *)
Definition element_passes (e : json) : Prop :=
  exists d, e = JObj d /\ py_hashable (entry_title e) = true.

(** What follows the extraction in [score_unread_books]: the loop, then
    the sort. *)
Definition rank (unread_books : list Book) (data : json) : result (list BookScore) :=
  book_scores <-r collect_scores (book_lookup_of unread_books) data;
  sort_scores book_scores.

(** The record made of the fields of an object, with the defaults
    [format_ocr_text] passes to [get]. *)
Definition ocr_of_fields (d : list (string * json)) : FormatInput.OCRBookData :=
  FormatInput.mkOCRBookData
    (default JNull (dict_get "title" d))
    (default JNull (dict_get "author" d))
    (default (JArr []) (dict_get "genres" d))
    (default (JArr []) (dict_get "themes" d))
    (default JNull (dict_get "year" d))
    (default JNull (dict_get "description" d)).

(** * Properties *)

(** ** Empty inputs *)

(** C7. With no read book the profile builder of either file returns the
    sentinel profile (four empty mappings, reading level "unknown",
    diversity score 0.0, summary "No books read yet.") and sends nothing to
    the backend: whatever the backend is, the list of prompts is unchanged. *)
Theorem C7_empty_read_books_sentinel :
  empty_profile =
    mkTasteProfile (JObj []) (JObj []) (JObj []) (JObj [])
      (JStr "unknown") (JNum (PFloat 0)) (JStr "No books read yet.") /\
  (forall (be : backend) (tp : list Book -> string) (log : list string),
      App2.analyze_reading_taste be tp [] log = (Ok empty_profile, log)) /\
  (forall (be : backend) (tp : list Book -> string) (log : list string),
      Remd.analyze_reading_taste be tp [] log = (Ok empty_profile, log)).
Proof. repeat split. Qed.

(** C8. With no unread book the scorer of either file returns the empty
    sequence at once and sends nothing to the backend. *)
Theorem C8_empty_unread_books_no_call :
  (forall (be : backend) (sp : TasteProfile -> list Book -> string)
          (profile : TasteProfile) (log : list string),
      App2.score_unread_books be sp profile [] log = (Ok [], log)) /\
  (forall (be : backend) (sp : TasteProfile -> list Book -> string)
          (profile : TasteProfile) (log : list string),
      Remd.score_unread_books be sp profile [] log = (Ok [], log)).
Proof. split; reflexivity. Qed.

(** ** Failures of the backend and of decoding *)

Lemma App2_analyze_nonempty be tp (read_books : list Book) log :
  read_books <> [] ->
  App2.analyze_reading_taste be tp read_books log =
    match be log (tp read_books) with
    | Ok content =>
        (try_except (data <-r App2.extract_json ObjectShape content; profile_of_data data)
           is_JSONDecodeError (fun _ => App2._create_basic_profile read_books),
         log ++ [tp read_books])
    | Raise e => (Raise e, log ++ [tp read_books])
    end.
Proof.
  intros Hne. destruct read_books as [|b r]; [congruence|].
  unfold App2.analyze_reading_taste, bind, call, lift.
  destruct (be log (tp (b :: r))); reflexivity.
Qed.

Lemma Remd_analyze_nonempty be tp (read_books : list Book) log :
  read_books <> [] ->
  Remd.analyze_reading_taste be tp read_books log =
    match be log (tp read_books) with
    | Ok content =>
        (match Remd.extract_json ObjectShape content with
         | Raise e => Remd._create_basic_profile read_books
         | Ok data => profile_of_data data
         end, log ++ [tp read_books])
    | Raise e => (Raise e, log ++ [tp read_books])
    end.
Proof.
  intros Hne. destruct read_books as [|b r]; [congruence|].
  unfold Remd.analyze_reading_taste, bind, call, lift.
  destruct (be log (tp (b :: r))); reflexivity.
Qed.

Lemma profile_names_ok (p : TasteProfile) :
  has_dict_fields p = true -> exists names, App2.profile_names p = Ok names.
Proof.
  unfold has_dict_fields, App2.profile_names.
  destruct (favorite_authors p); try discriminate.
  destruct (common_themes p); try discriminate. eauto.
Qed.

Lemma profile_names_raises (p : TasteProfile) :
  has_dict_fields p = false -> App2.profile_names p = Raise AttributeError.
Proof.
  unfold has_dict_fields, App2.profile_names.
  destruct (favorite_authors p); try reflexivity.
  destruct (common_themes p); try reflexivity. discriminate.
Qed.

Lemma App2_score_nonempty be sp profile (unread_books : list Book) log :
  unread_books <> [] ->
  has_dict_fields profile = true ->
  App2.score_unread_books be sp profile unread_books log =
    match be log (sp profile unread_books) with
    | Ok content =>
        (try_except
           (scores_data <-r App2.extract_json ArrayShape content;
            book_scores <-r collect_scores (book_lookup_of unread_books) scores_data;
            sort_scores book_scores)
           is_JSONDecodeError (fun _ => Ok []),
         log ++ [sp profile unread_books])
    | Raise e => (Raise e, log ++ [sp profile unread_books])
    end.
Proof.
  intros Hne Hd. destruct unread_books as [|b r]; [congruence|].
  destruct (profile_names_ok profile Hd) as [names Hn].
  unfold App2.score_unread_books, bind, call, lift. rewrite Hn.
  destruct (be log (sp profile (b :: r))); reflexivity.
Qed.

(** Without the two mappings the prompt cannot be built: [app2.py] raises
    before any request. *)
Lemma App2_score_no_request be sp profile (unread_books : list Book) log :
  unread_books <> [] ->
  has_dict_fields profile = false ->
  App2.score_unread_books be sp profile unread_books log = (Raise AttributeError, log).
Proof.
  intros Hne Hd. destruct unread_books as [|b r]; [congruence|].
  unfold App2.score_unread_books, bind, call, lift.
  now rewrite (profile_names_raises profile Hd).
Qed.

Lemma Remd_score_nonempty be sp profile (unread_books : list Book) log :
  unread_books <> [] ->
  Remd.score_unread_books be sp profile unread_books log =
    match be log (sp profile unread_books) with
    | Ok content =>
        (match Remd.extract_json ArrayShape content with
         | Raise e => Ok []
         | Ok scores_data =>
             book_scores <-r collect_scores (book_lookup_of unread_books) scores_data;
             sort_scores book_scores
         end, log ++ [sp profile unread_books])
    | Raise e => (Raise e, log ++ [sp profile unread_books])
    end.
Proof.
  intros Hne. destruct unread_books as [|b r]; [congruence|].
  unfold Remd.score_unread_books, bind, call, lift.
  destruct (be log (sp profile (b :: r))); reflexivity.
Qed.

Lemma py_truediv_ok (a b : Z) :
  b <> 0 -> py_truediv a b = Ok (PFloat (Qred (inject_Z a / inject_Z b))).
Proof.
  intros Hb. unfold py_truediv. destruct (Z.eqb_spec b 0); [contradiction|reflexivity].
Qed.

Lemma genre_weights_acc total (l : list (string * Z)) (d : list (string * json)) :
  total <> 0 ->
  foldl (fun acc gc =>
           d <-r acc;
           w <-r py_truediv (snd gc) total;
           Ok (dict_set (fst gc) (JNum w) d)) (Ok d) l =
  Ok (foldl (fun d gc => dict_set (fst gc) (weight_of total (snd gc)) d) d l).
Proof.
  intros Ht. revert d. induction l as [|[g c] l IH]; intros d; [reflexivity|].
  cbn [foldl rbind fst snd]. rewrite (py_truediv_ok c total Ht).
  cbn [rbind]. apply IH.
Qed.

Lemma genre_weights_ok total (l : list (string * Z)) :
  total <> 0 ->
  genre_weights total l =
  Ok (foldl (fun d gc => dict_set (fst gc) (weight_of total (snd gc)) d) [] l).
Proof. apply genre_weights_acc. Qed.

Lemma counter_incr_nonneg k (c : Counter) :
  Forall (fun kv => 0 < snd kv) c -> Forall (fun kv => 0 < snd kv) (counter_incr k c).
Proof.
  induction c as [|[k' n] c IH]; simpl; intros H.
  - repeat constructor.
  - inversion H; subst. simpl in *. destruct (String.eqb k' k).
    + constructor; [simpl; lia|assumption].
    + constructor; [assumption|auto].
Qed.

Lemma counter_update_pos (ks : list string) (c : Counter) :
  Forall (fun kv => 0 < snd kv) c -> Forall (fun kv => 0 < snd kv) (counter_update c ks).
Proof.
  revert c. induction ks as [|k ks IH]; intros c H; simpl; [assumption|].
  apply IH, counter_incr_nonneg, H.
Qed.

Lemma counter_total_nonneg (c : Counter) :
  Forall (fun kv => 0 < snd kv) c -> 0 <= counter_total c.
Proof.
  induction 1 as [|[k n] c Hn _ IH]; simpl in *; lia.
Qed.

Lemma count_books_genres_pos (books : list Book) acc :
  Forall (fun kv => 0 < snd kv) (fst (fst acc)) ->
  Forall (fun kv => 0 < snd kv)
    (fst (fst (foldl (fun '(gc, ac, tc) b =>
                        (counter_update gc (genres b),
                         counter_incr (author b) ac,
                         counter_update tc (themes b))) acc books))).
Proof.
  revert acc. induction books as [|b books IH]; intros [[gc ac] tc] H; simpl in *.
  - assumption.
  - apply IH. simpl. apply counter_update_pos, H.
Qed.

Lemma total_genres_nonzero (books : list Book) :
  int_or (counter_total (fst (fst (count_books books)))) 1 <> 0.
Proof.
  unfold int_or. destruct (Z.eqb_spec (counter_total (fst (fst (count_books books)))) 0); lia.
Qed.

Lemma App2_basic_profile_ok (read_books : list Book) :
  exists p, App2._create_basic_profile read_books = Ok p.
Proof.
  unfold App2._create_basic_profile.
  pose proof (total_genres_nonzero read_books) as Ht.
  destruct (count_books read_books) as [[gc ac] tc]. simpl in Ht.
  rewrite (genre_weights_ok _ _ Ht). cbn [rbind].
  destruct read_books as [|b r]; [eexists; reflexivity|].
  rewrite py_truediv_ok by (simpl; lia).
  eexists; reflexivity.
Qed.

Lemma Remd_basic_profile_ok (read_books : list Book) :
  read_books <> [] ->
  exists p, Remd._create_basic_profile read_books = Ok p.
Proof.
  intros Hne. unfold Remd._create_basic_profile.
  pose proof (total_genres_nonzero read_books) as Ht.
  destruct (count_books read_books) as [[gc ac] tc]. simpl in Ht.
  rewrite (genre_weights_ok _ _ Ht). cbn [rbind].
  destruct read_books as [|b r]; [congruence|].
  rewrite py_truediv_ok by (simpl; lia).
  eexists; reflexivity.
Qed.

(** C2, as the specification has it, fails: with one read book and a
    backend that raises, either profile builder raises the backend's error
    instead of returning the fallback profile. *)
Lemma C2_backend_error_is_raised :
  App2.analyze_reading_taste backend_down some_taste_prompt [book_1984] [] =
    (Raise (GenerationError "connection refused"), ["analyze"]) /\
  fst (App2.analyze_reading_taste backend_down some_taste_prompt [book_1984] []) <>
    App2._create_basic_profile [book_1984] /\
  Remd.analyze_reading_taste backend_down some_taste_prompt [book_1984] [] =
    (Raise (GenerationError "connection refused"), ["analyze"]) /\
  fst (Remd.analyze_reading_taste backend_down some_taste_prompt [book_1984] []) <>
    Remd._create_basic_profile [book_1984].
Proof.
  repeat split; try reflexivity; vm_compute; discriminate.
Qed.

(** C2, amended.  For non-empty [read_books] the request to the backend is
    made outside the [try] statement: an error it raises reaches the caller
    of the profile builder, after that one request.  A reply whose JSON
    decoding fails (ParseFailure), on the other hand, makes the builder
    return the frequency-count fallback profile, which exists. *)
Theorem C2_generation_error_propagates :
  forall (be : backend) (tp : list Book -> string) (read_books : list Book)
         (log : list string),
    read_books <> [] ->
    (forall e, be log (tp read_books) = Raise e ->
       App2.analyze_reading_taste be tp read_books log = (Raise e, log ++ [tp read_books]) /\
       Remd.analyze_reading_taste be tp read_books log = (Raise e, log ++ [tp read_books])) /\
    (forall content, be log (tp read_books) = Ok content ->
       (App2.extract_json ObjectShape content = Raise JSONDecodeError ->
        exists p, App2._create_basic_profile read_books = Ok p /\
          App2.analyze_reading_taste be tp read_books log = (Ok p, log ++ [tp read_books])) /\
       (Remd.extract_json ObjectShape content = Raise JSONDecodeError ->
        exists p, Remd._create_basic_profile read_books = Ok p /\
          Remd.analyze_reading_taste be tp read_books log = (Ok p, log ++ [tp read_books]))).
Proof.
  intros be tp read_books log Hne. split.
  - intros e He. rewrite App2_analyze_nonempty, Remd_analyze_nonempty by assumption.
    rewrite He. split; reflexivity.
  - intros content Hc. split; intros Hx.
    + destruct (App2_basic_profile_ok read_books) as [p Hp]. exists p. split; [exact Hp|].
      rewrite App2_analyze_nonempty by assumption. rewrite Hc, Hx. simpl. now rewrite Hp.
    + destruct (Remd_basic_profile_ok read_books Hne) as [p Hp]. exists p. split; [exact Hp|].
      rewrite Remd_analyze_nonempty by assumption. rewrite Hc, Hx. now rewrite Hp.
Qed.

Lemma C2_generation_error_propagates_witness :
  [book_1984] <> [] /\
  backend_down [] (some_taste_prompt [book_1984]) =
    Raise (GenerationError "connection refused") /\
  App2.analyze_reading_taste backend_down some_taste_prompt [book_1984] [] =
    (Raise (GenerationError "connection refused"), [] ++ [some_taste_prompt [book_1984]]) /\
  Remd.analyze_reading_taste backend_down some_taste_prompt [book_1984] [] =
    (Raise (GenerationError "connection refused"), [] ++ [some_taste_prompt [book_1984]]) /\
  backend_says "not json at all" [] (some_taste_prompt [book_1984]) = Ok "not json at all" /\
  App2.extract_json ObjectShape "not json at all" = Raise JSONDecodeError /\
  (exists p, App2._create_basic_profile [book_1984] = Ok p /\
     App2.analyze_reading_taste (backend_says "not json at all") some_taste_prompt
         [book_1984] [] = (Ok p, [] ++ [some_taste_prompt [book_1984]])).
Proof.
  split; [discriminate|]. split; [reflexivity|].
  destruct (C2_generation_error_propagates backend_down some_taste_prompt [book_1984] [])
    as [Hraise _]; [discriminate|].
  destruct (Hraise (GenerationError "connection refused") eq_refl) as [Ha Hr].
  split; [exact Ha|]. split; [exact Hr|].
  split; [reflexivity|]. split; [reflexivity|].
  destruct (C2_generation_error_propagates (backend_says "not json at all")
              some_taste_prompt [book_1984] []) as [_ Hparse]; [discriminate|].
  destruct (Hparse "not json at all" eq_refl) as [Ha2 _].
  exact (Ha2 eq_refl).
Defined.




(** ** Truncation of the recommendations *)

(** C9, as the specification has it, fails for an omitted [top_n]: the
    parameter then takes its default 5, and of six scored books only the
    first five are returned. *)
Lemma C9_omitted_top_n_keeps_five :
  returned_titles
    (App2.score_unread_books (backend_says six_reply) some_scoring_prompt
       empty_profile six_books []) = Some ["F"; "E"; "D"; "C"; "B"; "A"] /\
  recommended_titles
    (App2.get_recommendations (backend_says six_reply) some_taste_prompt
       some_scoring_prompt [] six_books Omitted []) = Some ["F"; "E"; "D"; "C"; "B"] /\
  recommended_titles
    (Remd.get_recommendations (backend_says six_reply) some_taste_prompt
       some_scoring_prompt [] six_books Omitted []) = Some ["F"; "E"; "D"; "C"; "B"].
Proof. vm_compute. repeat split. Qed.

Lemma list_slice_to_nonneg {A} (l : list A) (n : Z) :
  0 <= n -> list_slice_to l n = take (Z.to_nat n) l.
Proof.
  intros Hn. unfold list_slice_to, slice_bound.
  destruct (Z.ltb_spec n 0); [lia|].
  destruct (Z.le_gt_cases n (Z.of_nat (length l))).
  - now rewrite Z.min_l by lia.
  - rewrite Z.min_r by lia. rewrite Nat2Z.id.
    rewrite !take_ge by lia. reflexivity.
Qed.

Lemma App2_get_recommendations_unfold be tp sp read_books unread_books top_n log :
  App2.get_recommendations be tp sp read_books unread_books top_n log =
  match App2.analyze_reading_taste be tp read_books log with
  | (Ok p, log1) =>
      match App2.score_unread_books be sp p unread_books log1 with
      | (Ok scored, log2) =>
          (Ok (p, match arg_value (Some 5) top_n with
                  | Some n => list_slice_to scored n
                  | None => scored
                  end), log2)
      | (Raise e, log2) => (Raise e, log2)
      end
  | (Raise e, log1) => (Raise e, log1)
  end.
Proof.
  unfold App2.get_recommendations, bind, ret.
  destruct (App2.analyze_reading_taste be tp read_books log) as [[p|e] log1]; [|reflexivity].
  destruct (App2.score_unread_books be sp p unread_books log1) as [[sc|e] log2]; reflexivity.
Qed.

Lemma Remd_get_recommendations_unfold be tp sp read_books unread_books top_n log :
  Remd.get_recommendations be tp sp read_books unread_books top_n log =
  match Remd.analyze_reading_taste be tp read_books log with
  | (Ok p, log1) =>
      match Remd.score_unread_books be sp p unread_books log1 with
      | (Ok scored, log2) =>
          (Ok (p, match arg_value (Some 5) top_n with
                  | Some n => list_slice_to scored n
                  | None => scored
                  end), log2)
      | (Raise e, log2) => (Raise e, log2)
      end
  | (Raise e, log1) => (Raise e, log1)
  end.
Proof.
  unfold Remd.get_recommendations, bind, ret.
  destruct (Remd.analyze_reading_taste be tp read_books log) as [[p|e] log1]; [|reflexivity].
  destruct (Remd.score_unread_books be sp p unread_books log1) as [[sc|e] log2]; reflexivity.
Qed.

(** C9, amended.  [get_recommendations] builds the profile, then scores the
    unread books against it, and returns the profile with the scored
    sequence cut to its first [top_n] elements for [top_n >= 0], whole when
    [top_n] is passed as [None], and cut to its first 5 elements when
    [top_n] is omitted (its default is 5).  With [top_n = 2] and five scored
    books the two with the highest overall score are returned; with [None],
    and by default, all five. *)
Theorem C9_recommendations_truncated :
  (forall be tp sp read_books unread_books log p log1 scored log2,
     App2.analyze_reading_taste be tp read_books log = (Ok p, log1) ->
     App2.score_unread_books be sp p unread_books log1 = (Ok scored, log2) ->
     App2.get_recommendations be tp sp read_books unread_books Omitted log =
       (Ok (p, take 5 scored), log2) /\
     App2.get_recommendations be tp sp read_books unread_books (Passed None) log =
       (Ok (p, scored), log2) /\
     (forall n, 0 <= n ->
        App2.get_recommendations be tp sp read_books unread_books (Passed (Some n)) log =
          (Ok (p, take (Z.to_nat n) scored), log2))) /\
  (forall be tp sp read_books unread_books log p log1 scored log2,
     Remd.analyze_reading_taste be tp read_books log = (Ok p, log1) ->
     Remd.score_unread_books be sp p unread_books log1 = (Ok scored, log2) ->
     Remd.get_recommendations be tp sp read_books unread_books Omitted log =
       (Ok (p, take 5 scored), log2) /\
     Remd.get_recommendations be tp sp read_books unread_books (Passed None) log =
       (Ok (p, scored), log2) /\
     (forall n, 0 <= n ->
        Remd.get_recommendations be tp sp read_books unread_books (Passed (Some n)) log =
          (Ok (p, take (Z.to_nat n) scored), log2))) /\
  recommended_titles
    (App2.get_recommendations (backend_says five_reply) some_taste_prompt
       some_scoring_prompt [] five_books (Passed (Some 2)) []) = Some ["B"; "D"] /\
  recommended_titles
    (App2.get_recommendations (backend_says five_reply) some_taste_prompt
       some_scoring_prompt [] five_books (Passed None) []) =
    Some ["B"; "D"; "C"; "A"; "E"] /\
  recommended_titles
    (App2.get_recommendations (backend_says five_reply) some_taste_prompt
       some_scoring_prompt [] five_books Omitted []) =
    Some ["B"; "D"; "C"; "A"; "E"] /\
  recommended_titles
    (Remd.get_recommendations (backend_says five_reply) some_taste_prompt
       some_scoring_prompt [] five_books (Passed (Some 2)) []) = Some ["B"; "D"] /\
  recommended_titles
    (Remd.get_recommendations (backend_says five_reply) some_taste_prompt
       some_scoring_prompt [] five_books (Passed None) []) =
    Some ["B"; "D"; "C"; "A"; "E"].
Proof.
  split; [|split].
  - intros * Ha Hs. split; [|split]; [| |intros n Hn];
      rewrite App2_get_recommendations_unfold, Ha, Hs; cbn [arg_value];
      rewrite ?list_slice_to_nonneg by lia; reflexivity.
  - intros * Ha Hs. split; [|split]; [| |intros n Hn];
      rewrite Remd_get_recommendations_unfold, Ha, Hs; cbn [arg_value];
      rewrite ?list_slice_to_nonneg by lia; reflexivity.
  - vm_compute. repeat split.
Qed.

Lemma C9_recommendations_truncated_witness :
  exists scored,
    App2.analyze_reading_taste (backend_says five_reply) some_taste_prompt [] [] =
      (Ok empty_profile, []) /\
    App2.score_unread_books (backend_says five_reply) some_scoring_prompt
        empty_profile five_books [] = (Ok scored, ["score"]) /\
    0 <= 2 /\
    App2.get_recommendations (backend_says five_reply) some_taste_prompt
        some_scoring_prompt [] five_books (Passed (Some 2)) [] =
      (Ok (empty_profile, take (Z.to_nat 2) scored), ["score"]).
Proof.
  eexists. split; [reflexivity|]. split; [vm_compute; reflexivity|].
  split; [discriminate|].
  refine (proj2 (proj2 (proj1 C9_recommendations_truncated
            (backend_says five_reply) some_taste_prompt some_scoring_prompt
            [] five_books [] empty_profile [] _ ["score"] eq_refl _)) 2 _).
  - vm_compute. reflexivity.
  - discriminate.
Defined.

(** A negative [top_n] is a slice bound counted from the end: the last
    [- top_n] scored books are left out. *)
Remark negative_top_n_drops_last {A} (l : list A) (n : Z) :
  n < 0 -> list_slice_to l n = take (length l - Z.to_nat (- n)) l.
Proof.
  intros Hn. unfold list_slice_to, slice_bound.
  destruct (Z.ltb_spec n 0); [|lia]. f_equal. lia.
Qed.

(** ** The stable descending sort *)

Section SortingFacts.
Context {A K : Type} (key : A -> K) (ltb : K -> K -> bool).

Hypothesis ltb_irrefl : forall a, ltb a a = false.
Hypothesis ltb_trans : forall a b c, ltb a b = true -> ltb b c = true -> ltb a c = true.
Hypothesis ltb_negtrans :
  forall a b c, ltb a b = false -> ltb b c = false -> ltb a c = false.

(** [a] is not after [b]. *)
Let le (a b : A) : Prop := ltb (key b) (key a) = false.

(** The key of [z] is neither less nor greater than [v]. *)
Let tied (v : K) (z : A) : bool := negb (ltb (key z) v) && negb (ltb v (key z)).

Lemma ltb_asym a b : ltb a b = true -> ltb b a = false.
Proof.
  intros Hab. destruct (ltb b a) eqn:Hba; [|reflexivity].
  pose proof (ltb_trans _ _ _ Hab Hba) as Haa. rewrite ltb_irrefl in Haa. discriminate.
Qed.

Lemma foldl_insort (l acc : list A) :
  foldl (fun acc x => insort key ltb x acc) acc l =
  foldr (insort key ltb) acc (rev l).
Proof.
  revert acc. induction l as [|x l IH]; intros acc; simpl; [reflexivity|].
  rewrite IH, fold_right_app. reflexivity.
Qed.

Lemma sorted_rev_foldr (l : list A) :
  sorted_rev key ltb l = rev (foldr (insort key ltb) [] l).
Proof.
  unfold sorted_rev, sort_asc. now rewrite foldl_insort, rev_involutive.
Qed.

Lemma insort_perm (x : A) (l : list A) : Permutation (insort key ltb x l) (x :: l).
Proof.
  induction l as [|y r IH]; simpl; [reflexivity|].
  destruct (ltb (key x) (key y)); [reflexivity|].
  rewrite IH. apply perm_swap.
Qed.

Lemma isort_perm (l : list A) : Permutation (foldr (insort key ltb) [] l) l.
Proof.
  induction l as [|x l IH]; simpl; [reflexivity|].
  rewrite insort_perm. now constructor.
Qed.

Lemma sorted_rev_perm (l : list A) : Permutation (sorted_rev key ltb l) l.
Proof.
  rewrite sorted_rev_foldr, <- Permutation_rev. apply isort_perm.
Qed.

Lemma insort_sorted (x : A) (l : list A) :
  StronglySorted le l -> StronglySorted le (insort key ltb x l).
Proof.
  induction 1 as [|y r Hr IH Hy]; simpl.
  - constructor; constructor.
  - destruct (ltb (key x) (key y)) eqn:Hxy.
    + constructor; [constructor; assumption|].
      constructor; [apply ltb_asym, Hxy|].
      eapply List.Forall_impl; [|exact Hy]. intros z Hz. unfold le in *.
      destruct (ltb (key z) (key x)) eqn:Hzx; [|reflexivity].
      rewrite (ltb_trans _ _ _ Hzx Hxy) in Hz. discriminate.
    + constructor; [exact IH|].
      eapply Permutation_Forall; [symmetry; apply insort_perm|].
      constructor; [exact Hxy|exact Hy].
Qed.

Lemma isort_sorted (l : list A) : StronglySorted le (foldr (insort key ltb) [] l).
Proof.
  induction l as [|x l IH]; simpl; [constructor|]. apply insort_sorted, IH.
Qed.

Lemma StronglySorted_rev_flip (R : A -> A -> Prop) (l : list A) :
  StronglySorted R l -> StronglySorted (fun a b => R b a) (rev l).
Proof.
  induction 1 as [|x l Hl IH Hx]; simpl; [constructor|].
  apply StronglySorted_app_2; [|exact IH|repeat constructor].
  intros a b Ha Hb. apply list_elem_of_In in Ha. apply list_elem_of_In in Hb.
  destruct Hb as [<-|[]]. apply in_rev in Ha.
  rewrite List.Forall_forall in Hx. now apply Hx.
Qed.

Lemma sorted_rev_descending (l : list A) :
  StronglySorted (fun a b => ltb (key a) (key b) = false) (sorted_rev key ltb l).
Proof.
  rewrite sorted_rev_foldr.
  apply (StronglySorted_rev_flip le), isort_sorted.
Qed.

Lemma tied_not_lt v x z :
  tied v x = true -> ltb (key x) (key z) = true -> tied v z = false.
Proof.
  unfold tied. intros Hx Hxz.
  apply andb_prop in Hx as [H1 H2].
  apply negb_true_iff in H1. apply negb_true_iff in H2.
  destruct (ltb v (key z)) eqn:Hvz; [now rewrite andb_false_r|].
  rewrite (ltb_negtrans _ _ _ H1 Hvz) in Hxz. discriminate.
Qed.

Lemma filter_tied_insort v (x : A) (l : list A) :
  StronglySorted le l ->
  List.filter (tied v) (insort key ltb x l) =
  if tied v x then List.filter (tied v) l ++ [x] else List.filter (tied v) l.
Proof.
  induction 1 as [|y r Hr IH Hy]; simpl.
  - destruct (tied v x); reflexivity.
  - destruct (ltb (key x) (key y)) eqn:Hxy; simpl.
    + destruct (tied v x) eqn:Hx; [|reflexivity].
      rewrite (tied_not_lt v x y Hx Hxy).
      assert (List.filter (tied v) r = []) as ->; [|reflexivity].
      pose proof (proj1 (List.Forall_forall _ _) Hy) as Hy'.
      clear IH Hr Hy. rename Hy' into Hy. induction r as [|z r IHr]; simpl; [reflexivity|].
      assert (ltb (key x) (key z) = true) as Hxz.
      { destruct (ltb (key x) (key z)) eqn:E; [reflexivity|].
        assert (le y z) as Hz by (apply Hy; now left). unfold le in Hz.
        rewrite (ltb_negtrans _ _ _ E Hz) in Hxy. discriminate. }
      rewrite (tied_not_lt v x z Hx Hxz). apply IHr.
      intros w Hw. apply Hy. now right.
    + rewrite IH. destruct (tied v y), (tied v x); reflexivity.
Qed.

Lemma filter_tied_sorted_rev v (l : list A) :
  List.filter (tied v) (sorted_rev key ltb l) = List.filter (tied v) l.
Proof.
  rewrite sorted_rev_foldr.
  induction l as [|x l IH]; simpl; [reflexivity|].
  rewrite List.filter_rev, filter_tied_insort by apply isort_sorted.
  rewrite List.filter_rev in IH.
  destruct (tied v x); [|exact IH].
  rewrite rev_app_distr. simpl. now rewrite IH.
Qed.

(** The sort with a comparison that may raise agrees with the total one on
    elements whose comparisons all succeed. *)
Variable lt : K -> K -> result bool.
Variable good : A -> Prop.
Hypothesis lt_good :
  forall x y, good x -> good y -> lt (key x) (key y) = Ok (ltb (key x) (key y)).

Lemma insort_r_good (x : A) (l : list A) :
  good x -> Forall good l -> insort_r key lt x l = Ok (insort key ltb x l).
Proof.
  intros Hx. induction 1 as [|y r Hy Hr IH]; simpl; [reflexivity|].
  rewrite (lt_good _ _ Hx Hy). simpl.
  destruct (ltb (key x) (key y)); [reflexivity|]. now rewrite IH.
Qed.

Lemma sort_asc_r_good (l acc : list A) :
  Forall good l -> Forall good acc ->
  foldl (fun acc x => (a <-r acc; insort_r key lt x a)) (Ok acc) l =
  Ok (foldl (fun acc x => insort key ltb x acc) acc l).
Proof.
  intros Hl. revert acc. induction Hl as [|x l Hx Hl IH]; intros acc Hacc; simpl.
  - reflexivity.
  - rewrite (insort_r_good x acc Hx Hacc). apply IH.
    eapply Permutation_Forall; [symmetry; apply insort_perm|]. now constructor.
Qed.

Lemma sorted_rev_r_good (l : list A) :
  Forall good l -> sorted_rev_r key lt l = Ok (sorted_rev key ltb l).
Proof.
  intros Hl. unfold sorted_rev_r, sort_asc_r, sorted_rev, sort_asc.
  rewrite sort_asc_r_good; [reflexivity| |constructor].
  now apply List.Forall_rev.
Qed.
End SortingFacts.

Section SortingPartial.
Context {A K : Type} (key : A -> K) (lt : K -> K -> result bool).

Lemma insort_r_perm (x : A) (l l' : list A) :
  insort_r key lt x l = Ok l' -> Permutation l' (x :: l).
Proof.
  revert l'. induction l as [|y r IH]; simpl; intros l' H.
  - now inversion H.
  - destruct (lt (key x) (key y)) as [[|]|e]; simpl in H; try discriminate.
    + now inversion H.
    + destruct (insort_r key lt x r) as [r'|e]; simpl in H; [|discriminate].
      inversion H; subst. rewrite (IH r' eq_refl). apply perm_swap.
Qed.

Lemma sort_asc_r_perm (l acc : list A) (racc : result (list A)) (out : list A) :
  racc = Ok acc ->
  foldl (fun acc x => (a <-r acc; insort_r key lt x a)) racc l = Ok out ->
  Permutation out (rev l ++ acc).
Proof.
  revert acc racc. induction l as [|x l IH]; intros acc racc -> H; simpl in *.
  - now inversion H.
  - destruct (insort_r key lt x acc) as [acc'|e] eqn:E.
    + rewrite (IH acc' _ eq_refl H), (insort_r_perm _ _ _ E), <- app_assoc.
      simpl. reflexivity.
    + exfalso. clear -H. induction l as [|y l IHl]; simpl in H; [discriminate|].
      now apply IHl.
Qed.

Lemma sorted_rev_r_perm (l out : list A) :
  sorted_rev_r key lt l = Ok out -> Permutation out l.
Proof.
  unfold sorted_rev_r, sort_asc_r. intros H.
  destruct (foldl _ _ _) as [l'|e] eqn:E; simpl in H; [|discriminate].
  inversion H; subst.
  rewrite <- Permutation_rev, (sort_asc_r_perm _ [] _ _ eq_refl E).
  now rewrite app_nil_r, rev_involutive.
Qed.
End SortingPartial.

(** *** Real-valued overall scores *)

Lemma Qltb_true (a b : Q) : Qltb a b = true <-> (a < b)%Q.
Proof.
  unfold Qltb. rewrite negb_true_iff. split.
  - intros H. apply Qnot_le_lt. intros Hle. apply Qle_bool_iff in Hle. congruence.
  - intros H. destruct (Qle_bool b a) eqn:E; [|reflexivity].
    apply Qle_bool_iff in E. now apply Qlt_not_le in H.
Qed.

Lemma Qltb_false (a b : Q) : Qltb a b = false <-> (b <= a)%Q.
Proof.
  unfold Qltb. rewrite negb_false_iff. apply Qle_bool_iff.
Qed.

Lemma key_ltb_irrefl a : key_ltb a a = false.
Proof. apply Qltb_false, Qle_refl. Qed.

Lemma key_ltb_trans a b c :
  key_ltb a b = true -> key_ltb b c = true -> key_ltb a c = true.
Proof.
  unfold key_ltb. rewrite !Qltb_true. apply Qlt_trans.
Qed.

Lemma key_ltb_negtrans a b c :
  key_ltb a b = false -> key_ltb b c = false -> key_ltb a c = false.
Proof.
  unfold key_ltb. rewrite !Qltb_false. intros H1 H2. eapply Qle_trans; eassumption.
Qed.

Lemma num_ltb_real (x y : pynum) (p q : Q) :
  num_q x = Some p -> num_q y = Some q -> num_ltb x y = Qltb p q.
Proof.
  destruct x, y; simpl; intros Hx Hy; inversion Hx; inversion Hy; reflexivity.
Qed.

Lemma py_lt_real (a b : json) :
  is_Some (real_of a) -> is_Some (real_of b) -> py_lt a b = Ok (key_ltb a b).
Proof.
  unfold key_ltb, real_of. intros [p Hp] [q Hq].
  destruct a as [|ba|na|sa|la|da]; cbn [as_num] in Hp; try discriminate;
    destruct b as [|bb|nb|sb|lb|db]; cbn [as_num] in Hq; try discriminate;
    cbn [py_lt as_num]; rewrite Hp, Hq; cbn [default]; f_equal;
    now apply num_ltb_real.
Qed.

Lemma sort_scores_real (bs : list BookScore) :
  Forall has_real_score bs ->
  sort_scores bs = Ok (sorted_rev overall_score key_ltb bs).
Proof.
  intros H. unfold sort_scores.
  apply (sorted_rev_r_good overall_score key_ltb py_lt has_real_score); [|exact H].
  intros x y Hx Hy. now apply py_lt_real.
Qed.

Lemma tied_is_Qeq (q : Q) (s : BookScore) :
  negb (key_ltb (overall_score s) (JNum (PFloat q))) &&
  negb (key_ltb (JNum (PFloat q)) (overall_score s)) =
  Qeq_bool (score_q s) q.
Proof.
  unfold key_ltb, score_q. simpl. set (x := default 0%Q (real_of (overall_score s))).
  destruct (Qeq_bool x q) eqn:E.
  - apply Qeq_bool_iff in E. apply andb_true_intro. split; apply negb_true_iff.
    + apply Qltb_false. rewrite E. apply Qle_refl.
    + apply Qltb_false. rewrite E. apply Qle_refl.
  - apply andb_false_iff.
    destruct (Qltb x q) eqn:E1; [left; reflexivity|].
    destruct (Qltb q x) eqn:E2; [right; reflexivity|]. exfalso.
    apply Qltb_false in E1, E2.
    assert (Qeq_bool x q = true) as E3
      by (apply Qeq_bool_iff; now apply Qle_antisym).
    congruence.
Qed.

(** On real-valued scores the sort returns, and what it returns is the
    stable descending arrangement of its argument. *)
Lemma sort_scores_spec (bs : list BookScore) :
  Forall has_real_score bs ->
  exists out, sort_scores bs = Ok out /\
    Permutation out bs /\ descending out /\ ties_in_order bs out.
Proof.
  intros H. exists (sorted_rev overall_score key_ltb bs).
  split; [now apply sort_scores_real|]. split; [apply sorted_rev_perm|]. split.
  - unfold descending.
    pose proof (sorted_rev_descending overall_score key_ltb
                  key_ltb_irrefl key_ltb_trans bs) as Hs.
    induction Hs as [|x l Hl IH Hx]; constructor; [exact IH|].
    eapply List.Forall_impl; [|exact Hx].
    intros y Hy. now apply Qltb_false in Hy.
  - intros v.
    pose proof (filter_tied_sorted_rev overall_score key_ltb
                  key_ltb_irrefl key_ltb_trans key_ltb_negtrans
                  (JNum (PFloat v)) bs) as Hf.
    rewrite (List.filter_ext _ _ (tied_is_Qeq v)) in Hf.
    rewrite (List.filter_ext _ (fun s => Qeq_bool (score_q s) v) (tied_is_Qeq v)) in Hf.
    exact Hf.
Qed.

Lemma sort_scores_descending (bs out : list BookScore) :
  sort_scores bs = Ok out -> Forall has_real_score out -> descending out.
Proof.
  intros Hs Hreal.
  pose proof (sorted_rev_r_perm _ _ _ _ Hs) as Hp.
  assert (Forall has_real_score bs) as Hbs
    by (eapply Permutation_Forall; [exact Hp|exact Hreal]).
  destruct (sort_scores_spec bs Hbs) as (out' & Ho & _ & Hd & _).
  congruence.
Qed.

(** *** Overall scores that [<] orders *)

Lemma ext_ltb_true (x y : json) :
  ext_ltb x y = true <->
  fst (ext_key x) < fst (ext_key y) \/
  (fst (ext_key x) = fst (ext_key y) /\ (snd (ext_key x) < snd (ext_key y))%Q).
Proof.
  unfold ext_ltb.
  rewrite orb_true_iff, andb_true_iff, Z.ltb_lt, Z.eqb_eq, Qltb_true. reflexivity.
Qed.

Lemma ext_ltb_false (x y : json) :
  ext_ltb x y = false <->
  fst (ext_key y) < fst (ext_key x) \/
  (fst (ext_key x) = fst (ext_key y) /\ (snd (ext_key y) <= snd (ext_key x))%Q).
Proof.
  unfold ext_ltb.
  rewrite orb_false_iff, andb_false_iff, Z.ltb_ge, Z.eqb_neq, Qltb_false.
  split.
  - intros [H1 [H2|H2]]; [left; lia|].
    destruct (Z.eq_dec (fst (ext_key x)) (fst (ext_key y))); [right; auto|left; lia].
  - intros [H|[H1 H2]].
    + split; [lia|left; lia].
    + split; [lia|right; exact H2].
Qed.

Lemma ext_ltb_irrefl a : ext_ltb a a = false.
Proof. apply ext_ltb_false. right. split; [reflexivity|apply Qle_refl]. Qed.

Lemma ext_ltb_trans a b c :
  ext_ltb a b = true -> ext_ltb b c = true -> ext_ltb a c = true.
Proof.
  rewrite !ext_ltb_true. intros [H1|[H1 H1']] [H2|[H2 H2']].
  - left; lia.
  - left; lia.
  - left; lia.
  - right. split; [congruence|]. eapply Qlt_trans; eassumption.
Qed.

Lemma ext_ltb_negtrans a b c :
  ext_ltb a b = false -> ext_ltb b c = false -> ext_ltb a c = false.
Proof.
  rewrite !ext_ltb_false. intros [H1|[H1 H1']] [H2|[H2 H2']].
  - left; lia.
  - left; lia.
  - left; lia.
  - right. split; [congruence|]. eapply Qle_trans; eassumption.
Qed.

Lemma py_lt_numeric (a b : json) :
  numeric a -> numeric b -> py_lt a b = Ok (ext_ltb a b).
Proof.
  intros (x & Hx & Nx) (y & Hy & Ny).
  assert (num_ltb x y = ext_ltb a b) as E.
  { unfold ext_ltb, ext_key. rewrite Hx, Hy.
    destruct x as [zx|qx| |[|]]; try congruence;
      destruct y as [zy|qy| |[|]]; try congruence; reflexivity. }
  destruct a as [|ba|na|sa|la|da]; cbn [as_num] in Hx; try discriminate;
    destruct b as [|bb|nb|sb|lb|db]; cbn [as_num] in Hy; try discriminate;
    cbn [py_lt as_num]; injection Hx as <-; injection Hy as <-; now rewrite E.
Qed.

Lemma Qle_bool_false (a b : Q) : Qle_bool a b = false <-> (b < a)%Q.
Proof.
  split.
  - intros H. apply Qnot_le_lt. intros Hle. apply Qle_bool_iff in Hle. congruence.
  - intros H. destruct (Qle_bool a b) eqn:E; [|reflexivity].
    apply Qle_bool_iff in E. now apply Qlt_not_le in H.
Qed.

Lemma Q_le_as_lt_or_eq (p q : Q) : Qltb p q || Qeq_bool p q = negb (Qltb q p).
Proof.
  unfold Qltb. rewrite negb_involutive.
  destruct (Qle_bool p q) eqn:E.
  - apply Qle_bool_iff in E.
    destruct (Qle_bool q p) eqn:E'; simpl.
    + apply Qle_bool_iff in E'. apply Qeq_bool_iff. now apply Qle_antisym.
    + reflexivity.
  - apply Qle_bool_false in E.
    assert (Qle_bool q p = true) as -> by (apply Qle_bool_iff; now apply Qlt_le_weak).
    simpl. destruct (Qeq_bool p q) eqn:E'; [|reflexivity].
    apply Qeq_bool_iff in E'. rewrite E' in E. now apply Qlt_irrefl in E.
Qed.

Lemma score_le_numeric (a b : json) :
  numeric a -> numeric b -> score_le a b = negb (ext_ltb b a).
Proof.
  intros (x & Hx & Nx) (y & Hy & Ny).
  assert (num_ltb x y || num_eqb x y = negb (ext_ltb b a)) as E.
  { unfold ext_ltb, ext_key. rewrite Hx, Hy.
    destruct x as [zx|qx| |[|]]; try congruence;
      destruct y as [zy|qy| |[|]]; try congruence;
      try reflexivity; cbn; apply Q_le_as_lt_or_eq. }
  destruct a as [|ba|na|sa|la|da]; cbn [as_num] in Hx; try discriminate;
    destruct b as [|bb|nb|sb|lb|db]; cbn [as_num] in Hy; try discriminate;
    cbn [score_le as_num]; injection Hx as <-; injection Hy as <-; exact E.
Qed.

(** The order of strings. *)
Lemma ascii_compare_refl (a : ascii) : Ascii.compare a a = Eq.
Proof. unfold Ascii.compare. apply N.compare_refl. Qed.

Lemma ascii_compare_lt_trans (a b c : ascii) :
  Ascii.compare a b = Lt -> Ascii.compare b c = Lt -> Ascii.compare a c = Lt.
Proof.
  unfold Ascii.compare. rewrite !N.compare_lt_iff. apply N.lt_trans.
Qed.

Lemma string_compare_refl (s : string) : String.compare s s = Eq.
Proof.
  induction s as [|c s IH]; simpl; [reflexivity|]. now rewrite ascii_compare_refl.
Qed.

Lemma string_compare_lt_trans (a b c : string) :
  String.compare a b = Lt -> String.compare b c = Lt -> String.compare a c = Lt.
Proof.
  revert b c. induction a as [|x a IH]; intros [|y b] [|z c]; simpl; try discriminate;
    try reflexivity.
  destruct (Ascii.compare x y) eqn:Exy; try discriminate;
    destruct (Ascii.compare y z) eqn:Eyz; try discriminate; intros Hab Hbc.
  - apply Ascii.compare_eq_iff in Exy, Eyz. subst.
    rewrite ascii_compare_refl. now apply (IH b c).
  - apply Ascii.compare_eq_iff in Exy. subst. now rewrite Eyz.
  - apply Ascii.compare_eq_iff in Eyz. subst. now rewrite Exy.
  - now rewrite (ascii_compare_lt_trans _ _ _ Exy Eyz).
Qed.

Lemma str_ltb_irrefl a : str_ltb a a = false.
Proof. unfold str_ltb, String.ltb. now rewrite string_compare_refl. Qed.

Lemma str_ltb_trans a b c :
  str_ltb a b = true -> str_ltb b c = true -> str_ltb a c = true.
Proof.
  unfold str_ltb, String.ltb.
  destruct (String.compare (str_key a) (str_key b)) eqn:E1; try discriminate.
  destruct (String.compare (str_key b) (str_key c)) eqn:E2; try discriminate.
  now rewrite (string_compare_lt_trans _ _ _ E1 E2).
Qed.

Lemma str_ltb_negtrans a b c :
  str_ltb a b = false -> str_ltb b c = false -> str_ltb a c = false.
Proof.
  unfold str_ltb, String.ltb.
  destruct (String.compare (str_key a) (str_key b)) eqn:E1; try discriminate; intros _.
  - apply String.compare_eq_iff in E1. now rewrite E1.
  - destruct (String.compare (str_key b) (str_key c)) eqn:E2; try discriminate; intros _.
    + apply String.compare_eq_iff in E2. rewrite <- E2. now rewrite E1.
    + destruct (String.compare (str_key a) (str_key c)) eqn:E3; try reflexivity.
      rewrite String.compare_antisym in E1, E2.
      destruct (String.compare (str_key b) (str_key a)) eqn:F1; try discriminate.
      destruct (String.compare (str_key c) (str_key b)) eqn:F2; try discriminate.
      pose proof (string_compare_lt_trans _ _ _ F2 F1) as F3.
      rewrite String.compare_antisym, F3 in E3. discriminate.
Qed.

Lemma py_lt_textual (a b : json) :
  textual a -> textual b -> py_lt a b = Ok (str_ltb a b).
Proof. intros [s ->] [t ->]. reflexivity. Qed.

Lemma score_le_textual (a b : json) :
  textual a -> textual b -> score_le a b = negb (str_ltb b a).
Proof. intros [s ->] [t ->]. reflexivity. Qed.

Lemma StronglySorted_impl_on {A} (P : A -> Prop) (R R' : A -> A -> Prop) (l : list A) :
  (forall a b, P a -> P b -> R a b -> R' a b) ->
  Forall P l -> StronglySorted R l -> StronglySorted R' l.
Proof.
  intros HR HP Hs. induction Hs as [|x l Hl IH Hx]; [constructor|].
  inversion HP as [|? ? Px Pl]; subst. constructor; [now apply IH|].
  rewrite List.Forall_forall in *. intros y Hy. apply HR; auto.
Qed.

Section OrderedScores.
Variable ltb : json -> json -> bool.
Variable good : json -> Prop.
Hypothesis ltb_irrefl : forall a, ltb a a = false.
Hypothesis ltb_trans : forall a b c, ltb a b = true -> ltb b c = true -> ltb a c = true.
Hypothesis ltb_negtrans :
  forall a b c, ltb a b = false -> ltb b c = false -> ltb a c = false.
Hypothesis lt_good : forall a b, good a -> good b -> py_lt a b = Ok (ltb a b).
Hypothesis le_good : forall a b, good a -> good b -> score_le a b = negb (ltb b a).

Lemma sort_scores_ordered (bs : list BookScore) :
  Forall (fun s => good (overall_score s)) bs ->
  sort_scores bs = Ok (sorted_rev overall_score ltb bs) /\
  descending_scores (sorted_rev overall_score ltb bs) /\
  ties_keep_order bs (sorted_rev overall_score ltb bs).
Proof.
  intros Hg.
  pose proof (sorted_rev_perm overall_score ltb bs) as Hp.
  assert (Hgo : Forall (fun s => good (overall_score s)) (sorted_rev overall_score ltb bs))
    by (eapply Permutation_Forall; [symmetry; exact Hp|exact Hg]).
  split; [|split].
  - unfold sort_scores.
    apply (sorted_rev_r_good overall_score ltb py_lt (fun s => good (overall_score s)));
      [|exact Hg].
    intros x y Hx Hy. now apply lt_good.
  - unfold descending_scores.
    apply (StronglySorted_impl_on (fun s => good (overall_score s))
             (fun a b => ltb (overall_score a) (overall_score b) = false));
      [|exact Hgo|apply (sorted_rev_descending overall_score ltb ltb_irrefl ltb_trans)].
    intros a b Ha Hb Hab. rewrite (le_good _ _ Hb Ha), Hab. reflexivity.
  - intros s0 Hs0.
    assert (Hg0 : good (overall_score s0))
      by (rewrite List.Forall_forall in Hg; now apply Hg).
    pose proof (filter_tied_sorted_rev overall_score ltb ltb_irrefl ltb_trans ltb_negtrans
                  (overall_score s0) bs) as Hf.
    assert (Hext : forall l, Forall (fun s => good (overall_score s)) l ->
              List.filter (same_score s0) l =
              List.filter (fun z => negb (ltb (overall_score z) (overall_score s0)) &&
                                    negb (ltb (overall_score s0) (overall_score z))) l).
    { intros l Hl. apply List.filter_ext_in. intros z Hz.
      rewrite List.Forall_forall in Hl. specialize (Hl z Hz).
      unfold same_score. now rewrite (le_good _ _ Hg0 Hl), (le_good _ _ Hl Hg0). }
    rewrite (Hext _ Hgo), (Hext _ Hg). exact Hf.
Qed.
End OrderedScores.

(** On overall scores that [<] orders the sort returns, and what it
    returns is the stable descending arrangement of its argument. *)
Lemma sort_scores_sortable (bs : list BookScore) :
  sortable bs ->
  exists out, sort_scores bs = Ok out /\
    Permutation out bs /\ descending_scores out /\ ties_keep_order bs out.
Proof.
  intros [H|H].
  - destruct (sort_scores_ordered ext_ltb numeric ext_ltb_irrefl ext_ltb_trans
                ext_ltb_negtrans py_lt_numeric score_le_numeric bs H) as (Hs & Hd & Ht).
    eexists. split; [exact Hs|]. split; [apply sorted_rev_perm|]. now split.
  - destruct (sort_scores_ordered str_ltb textual str_ltb_irrefl str_ltb_trans
                str_ltb_negtrans py_lt_textual score_le_textual bs H) as (Hs & Hd & Ht).
    eexists. split; [exact Hs|]. split; [apply sorted_rev_perm|]. now split.
Qed.

Lemma sortable_perm (l l' : list BookScore) :
  Permutation l l' -> sortable l -> sortable l'.
Proof.
  intros Hp [H|H]; [left|right]; eapply Permutation_Forall; eassumption.
Qed.

Lemma sort_scores_sorted (bs out : list BookScore) :
  sort_scores bs = Ok out -> sortable out ->
  descending_scores out /\ ties_keep_order bs out.
Proof.
  intros Hs Ho.
  pose proof (sorted_rev_r_perm _ _ _ _ Hs) as Hp.
  destruct (sort_scores_sortable bs (sortable_perm _ _ Hp Ho)) as (out' & Hs' & _ & Hd & Ht).
  assert (out' = out) as -> by congruence. now split.
Qed.

(** ** Matching response elements to books *)

Lemma find_app {A} (f : A -> bool) (l1 l2 : list A) :
  List.find f (l1 ++ l2) =
  match List.find f l1 with Some x => Some x | None => List.find f l2 end.
Proof.
  induction l1 as [|x l1 IH]; simpl; [reflexivity|]. destruct (f x); [reflexivity|exact IH].
Qed.

Lemma book_lookup_acc (unread_books : list Book) (m : gmap string Book) (t : string) :
  foldl (fun m b => <[title b := b]> m) m unread_books !! t =
  match find_book unread_books t with
  | Some b => Some b
  | None => m !! t
  end.
Proof.
  unfold find_book. revert m.
  induction unread_books as [|x l IH]; intros m; simpl; [reflexivity|].
  rewrite IH, find_app. destruct (List.find _ (rev l)); [reflexivity|].
  simpl. destruct (String.eqb_spec (title x) t) as [<-|Hne].
  - apply lookup_insert_eq.
  - now apply lookup_insert_ne.
Qed.

Lemma book_lookup_of_find (unread_books : list Book) (t : string) :
  book_lookup_of unread_books !! t = find_book unread_books t.
Proof.
  unfold book_lookup_of. rewrite book_lookup_acc.
  destruct (find_book unread_books t); [reflexivity|apply lookup_empty].
Qed.

Lemma find_book_Some (unread_books : list Book) (t : string) (b : Book) :
  find_book unread_books t = Some b -> In b unread_books /\ title b = t.
Proof.
  unfold find_book. intros H. apply List.find_some in H as [Hin Heq].
  split; [now apply in_rev|now apply String.eqb_eq].
Qed.

Lemma find_book_None (unread_books : list Book) (t : string) :
  find_book unread_books t = None <-> forall b, In b unread_books -> title b <> t.
Proof.
  unfold find_book. split.
  - intros H b Hin. apply in_rev in Hin.
    pose proof (List.find_none _ _ H b Hin) as Hb. now apply String.eqb_neq.
  - intros H. destruct (List.find _ _) as [b|] eqn:E; [|reflexivity].
    apply List.find_some in E as [Hin Heq]. apply in_rev in Hin.
    apply String.eqb_eq in Heq. now destruct (H b Hin).
Qed.

Lemma score_step_ok (unread_books : list Book) (acc : list BookScore) (e : json) :
  (exists d, e = JObj d /\ py_hashable (entry_title e) = true) ->
  score_step (book_lookup_of unread_books) acc e =
  Ok (acc ++ match matched_book unread_books e with
             | Some b => [score_of_entry b e]
             | None => []
             end).
Proof.
  intros (d & -> & Hh). unfold score_step, matched_book, entry_title in *.
  cbn [py_get rbind entry_field] in *.
  destruct (default (JStr EmptyString) (dict_get "title" d)) as [|b|n|t|l|o] eqn:Et;
    cbn [lookup_get py_hashable rbind] in *; try discriminate;
    rewrite ?app_nil_r; try reflexivity.
  rewrite book_lookup_of_find. destruct (find_book unread_books t) as [bk|].
  - reflexivity.
  - now rewrite app_nil_r.
Qed.

(** ** The loop, the sort and the one request of the scorers *)

Lemma score_step_raises (unread_books : list Book) (acc : list BookScore) (e : json) :
  ~ element_passes e ->
  score_step (book_lookup_of unread_books) acc e = Raise AttributeError \/
  score_step (book_lookup_of unread_books) acc e = Raise TypeError.
Proof.
  intros Hn. destruct e as [|b|n|s|l|d]; try (left; reflexivity).
  right. unfold score_step. cbn [py_get rbind].
  assert (Hh : py_hashable (entry_title (JObj d)) = false).
  { destruct (py_hashable (entry_title (JObj d))) eqn:E; [|reflexivity].
    destruct Hn. now exists d. }
  unfold entry_title, entry_field in Hh.
  destruct (default (JStr EmptyString) (dict_get "title" d)); try discriminate; reflexivity.
Qed.

Lemma foldl_raise {A B} (f : list A -> B -> result (list A)) (e : exn) (l : list B) :
  foldl (fun acc x => (a <-r acc; f a x)) (Raise e) l = Raise e.
Proof. induction l as [|x l IH]; simpl; [reflexivity|exact IH]. Qed.

Lemma collect_scores_acc_any (unread_books : list Book) (items : list json)
    (acc : list BookScore) :
  (Forall element_passes items /\
   foldl (fun acc sd => (bs <-r acc; score_step (book_lookup_of unread_books) bs sd))
         (Ok acc) items = Ok (acc ++ matched_scores unread_books items)) \/
  (~ Forall element_passes items /\
   exists e, (e = AttributeError \/ e = TypeError) /\
     foldl (fun acc sd => (bs <-r acc; score_step (book_lookup_of unread_books) bs sd))
           (Ok acc) items = Raise e).
Proof.
  revert acc. induction items as [|x items IH]; intros acc.
  - left. split; [constructor|]. simpl. now rewrite app_nil_r.
  - assert (Hd : element_passes x \/ ~ element_passes x).
    { destruct x as [|b|n|s|l|d];
        try (right; intros (d' & E & _); discriminate).
      destruct (py_hashable (entry_title (JObj d))) eqn:E.
      - left. now exists d.
      - right. intros (d' & E' & Hh). congruence. }
    destruct Hd as [Hx|Hx].
    + cbn [foldl rbind]. rewrite (score_step_ok _ _ _ Hx).
      destruct (IH (acc ++ match matched_book unread_books x with
                           | Some b => [score_of_entry b x]
                           | None => []
                           end)) as [[Hall Heq]|[Hall (e & He & Heq)]].
      * left. split; [now constructor|]. rewrite Heq, <- app_assoc. do 2 f_equal.
        unfold matched_scores. simpl. destruct (matched_book unread_books x); reflexivity.
      * right. split; [intros H; inversion H; contradiction|]. now exists e.
    + right. split; [intros H; inversion H; contradiction|].
      cbn [foldl rbind].
      destruct (score_step_raises unread_books acc x Hx) as [-> | ->];
        rewrite foldl_raise; eauto.
Qed.

(** The loop over a decoded array: it ends normally exactly when every
    element passes, and then leaves the matched records. *)
Lemma collect_scores_array (unread_books : list Book) (items : list json) :
  (Forall element_passes items /\
   collect_scores (book_lookup_of unread_books) (JArr items) =
     Ok (matched_scores unread_books items)) \/
  (~ Forall element_passes items /\
   (collect_scores (book_lookup_of unread_books) (JArr items) = Raise AttributeError \/
    collect_scores (book_lookup_of unread_books) (JArr items) = Raise TypeError)).
Proof.
  unfold collect_scores. cbn [py_iter rbind].
  destruct (collect_scores_acc_any unread_books items [])
    as [[Hall Heq]|[Hall (e & [-> | ->] & Heq)]]; rewrite Heq; auto.
Qed.

(** On a decoded value that is not an array the loop leaves nothing or
    raises. *)
Lemma collect_scores_other (unread_books : list Book) (data : json) :
  (forall items, data <> JArr items) ->
  collect_scores (book_lookup_of unread_books) data = Ok [] \/
  collect_scores (book_lookup_of unread_books) data = Raise AttributeError \/
  collect_scores (book_lookup_of unread_books) data = Raise TypeError.
Proof.
  intros Hn. unfold collect_scores.
  destruct data as [|b|n|s|l|d]; cbn [py_iter rbind]; auto.
  - destruct s as [|c s]; [left; reflexivity|]. right; left.
    cbn [list_ascii_of_string map foldl rbind]. unfold score_step at 1.
    cbn [py_get rbind]. apply foldl_raise.
  - now destruct (Hn l).
  - destruct d as [|[k v] d]; [left; reflexivity|]. right; left.
    cbn [map foldl rbind]. unfold score_step at 1.
    cbn [py_get rbind]. apply foldl_raise.
Qed.

Lemma py_lt_raises : forall a b e, py_lt a b = Raise e -> e = TypeError.
Proof.
  fix IH 1. intros a b e.
  destruct a as [|x|n|s|la|da]; destruct b as [|y|m|t|lb|db]; cbn [py_lt as_num];
    try (intros [= <-]; reflexivity); try discriminate.
  revert lb. induction la as [|x la IHla]; intros [|y lb]; try discriminate.
  destruct (py_item_eq x y); [apply IHla|apply IH].
Qed.

Section SortingRaises.
Context {A K : Type} (key : A -> K) (lt : K -> K -> result bool) (P : exn -> Prop).
Hypothesis lt_raises : forall a b e, lt a b = Raise e -> P e.

Lemma insort_r_raises (x : A) (l : list A) (e : exn) :
  insort_r key lt x l = Raise e -> P e.
Proof.
  induction l as [|y r IH]; simpl; [discriminate|].
  destruct (lt (key x) (key y)) as [[|]|e'] eqn:E; simpl.
  - discriminate.
  - destruct (insort_r key lt x r) as [r'|e'']; simpl; [discriminate|].
    intros [= <-]. now apply IH.
  - intros [= <-]. eapply lt_raises, E.
Qed.

Lemma sort_asc_r_raises (l : list A) (racc : result (list A)) (e : exn) :
  (forall e', racc = Raise e' -> P e') ->
  foldl (fun acc x => (a <-r acc; insort_r key lt x a)) racc l = Raise e -> P e.
Proof.
  revert racc. induction l as [|x l IH]; intros racc Hr; simpl.
  - apply Hr.
  - apply IH. intros e'. destruct racc as [acc|e0]; simpl.
    + apply insort_r_raises.
    + apply Hr.
Qed.

Lemma sorted_rev_r_raises (l : list A) (e : exn) :
  sorted_rev_r key lt l = Raise e -> P e.
Proof.
  unfold sorted_rev_r, sort_asc_r.
  destruct (foldl _ _ _) as [l'|e'] eqn:E; simpl; [discriminate|].
  intros [= <-]. eapply sort_asc_r_raises; [|exact E]. discriminate.
Qed.
End SortingRaises.

Lemma sort_scores_raises (bs : list BookScore) (e : exn) :
  sort_scores bs = Raise e -> e = TypeError.
Proof.
  apply (sorted_rev_r_raises overall_score py_lt (fun e => e = TypeError)).
  apply py_lt_raises.
Qed.

Lemma sort_scores_perm (bs out : list BookScore) :
  sort_scores bs = Ok out -> Permutation out bs.
Proof. apply sorted_rev_r_perm. Qed.

Lemma sort_scores_nil : sort_scores [] = Ok [].
Proof. reflexivity. Qed.

Lemma rank_raises (unread_books : list Book) (data : json) (e : exn) :
  rank unread_books data = Raise e -> e = AttributeError \/ e = TypeError.
Proof.
  unfold rank.
  assert (Hc : forall e', collect_scores (book_lookup_of unread_books) data = Raise e' ->
                          e' = AttributeError \/ e' = TypeError).
  { intros e' He.
    assert (Hd : (exists items, data = JArr items) \/ forall items, data <> JArr items).
    { destruct data; try (right; discriminate). left. eauto. }
    destruct Hd as [[items ->]|Hd].
    - destruct (collect_scores_array unread_books items) as [[_ H]|[_ [H|H]]];
        rewrite H in He; inversion He; auto.
    - destruct (collect_scores_other unread_books data Hd) as [H|[H|H]];
        rewrite H in He; inversion He; auto. }
  destruct (collect_scores _ data) as [bs|e'] eqn:E; cbn [rbind].
  - intros H. right. now apply sort_scores_raises in H.
  - intros [= <-]. now apply Hc.
Qed.

(** The loop and the sort on a decoded array: they end normally with the
    sorted matched records when every element passes and the sort does not
    raise, and raise at the first element that does not pass. *)
Lemma rank_array (unread_books : list Book) (items : list json) :
  (Forall element_passes items /\
   rank unread_books (JArr items) = sort_scores (matched_scores unread_books items)) \/
  (~ Forall element_passes items /\
   (rank unread_books (JArr items) = Raise AttributeError \/
    rank unread_books (JArr items) = Raise TypeError)).
Proof.
  unfold rank.
  destruct (collect_scores_array unread_books items) as [[Hall H]|[Hall [H|H]]];
    rewrite H; cbn [rbind]; auto.
Qed.

Lemma rank_returns (unread_books : list Book) (data : json) (out : list BookScore) :
  rank unread_books data = Ok out ->
  out = [] \/
  exists items, data = JArr items /\ Forall element_passes items /\
    sort_scores (matched_scores unread_books items) = Ok out.
Proof.
  assert (Hd : (exists items, data = JArr items) \/ forall items, data <> JArr items).
  { destruct data; try (right; discriminate). left. eauto. }
  destruct Hd as [[items ->]|Hd].
  - destruct (rank_array unread_books items) as [[Hall H]|[_ [H|H]]];
      rewrite H; try discriminate.
    intros Hs. right. exists items. auto.
  - unfold rank.
    destruct (collect_scores_other unread_books data Hd) as [H|[H|H]];
      rewrite H; cbn [rbind]; try discriminate.
    rewrite sort_scores_nil. intros [= <-]. now left.
Qed.

(** The scorer of [app2.py] once its prompt is built: one request; the
    reply extracted, looped over and sorted; a decoding error answered
    with the empty list, any other exception raised. *)
Lemma App2_score_rank be sp profile (unread_books : list Book) log :
  unread_books <> [] ->
  has_dict_fields profile = true ->
  App2.score_unread_books be sp profile unread_books log =
    match be log (sp profile unread_books) with
    | Ok content =>
        (match App2.extract_json ArrayShape content with
         | Ok data => rank unread_books data
         | Raise e => if is_JSONDecodeError e then Ok [] else Raise e
         end, log ++ [sp profile unread_books])
    | Raise e => (Raise e, log ++ [sp profile unread_books])
    end.
Proof.
  intros Hne Hd. rewrite App2_score_nonempty by assumption.
  destruct (be log _) as [content|e]; [|reflexivity]. f_equal.
  destruct (App2.extract_json ArrayShape content) as [data|e] eqn:Ex; cbn [rbind try_except].
  - fold (rank unread_books data).
    destruct (rank unread_books data) as [out|e] eqn:Er; [reflexivity|].
    destruct (rank_raises _ _ _ Er) as [-> | ->]; reflexivity.
  - reflexivity.
Qed.

(** The scorer of [remd.py]: every exception of the extraction is answered
    with the empty list. *)
Lemma Remd_score_rank be sp profile (unread_books : list Book) log :
  unread_books <> [] ->
  Remd.score_unread_books be sp profile unread_books log =
    match be log (sp profile unread_books) with
    | Ok content =>
        (match Remd.extract_json ArrayShape content with
         | Ok data => rank unread_books data
         | Raise e => if is_Exception e then Ok [] else Raise e
         end, log ++ [sp profile unread_books])
    | Raise e => (Raise e, log ++ [sp profile unread_books])
    end.
Proof.
  intros Hne. now rewrite Remd_score_nonempty by exact Hne.
Qed.

Lemma matched_book_None (unread_books : list Book) (e : json) :
  matched_book unread_books e = None <->
  forall b, In b unread_books -> entry_title e <> JStr (title b).
Proof.
  unfold matched_book. destruct (entry_title e) as [|x|n|t|l|d];
    try (split; [intros _ b _; discriminate|reflexivity]).
  rewrite find_book_None. split; intros H b Hin.
  - intros [= ->]. now apply (H b Hin).
  - intros <-. now apply (H b Hin).
Qed.

Lemma matched_book_Some (unread_books : list Book) (e : json) (b : Book) :
  matched_book unread_books e = Some b ->
  In b unread_books /\ entry_title e = JStr (title b).
Proof.
  unfold matched_book. destruct (entry_title e) as [|x|n|t|l|d]; try discriminate.
  intros H. apply find_book_Some in H as [Hin <-]. now split.
Qed.

Lemma In_matched_scores (unread_books : list Book) (items : list json) (s : BookScore) :
  In s (matched_scores unread_books items) <->
  exists e b, In e items /\ matched_book unread_books e = Some b /\ s = score_of_entry b e.
Proof.
  unfold matched_scores. rewrite <- list_elem_of_In, list_elem_of_omap. split.
  - intros (e & He & Hs). apply list_elem_of_In in He.
    destruct (matched_book unread_books e) as [b|] eqn:E; [|discriminate].
    simpl in Hs. inversion Hs. eauto.
  - intros (e & b & He & Hb & ->). exists e. apply list_elem_of_In in He.
    split; [exact He|]. now rewrite Hb.
Qed.

Lemma matched_scores_length (unread_books : list Book) (items : list json) :
  (length (matched_scores unread_books items) <= length items)%nat.
Proof.
  induction items as [|e items IH]; [reflexivity|].
  change (matched_scores unread_books (e :: items))
    with (match matched_book unread_books e ≫= (fun b => Some (score_of_entry b e)) with
          | Some s => s :: matched_scores unread_books items
          | None => matched_scores unread_books items
          end).
  destruct (matched_book unread_books e); cbn [mbind option_bind length]; lia.
Qed.

Lemma matched_scores_books (unread_books : list Book) (items : list json) :
  Forall (fun s => In (book s) unread_books /\
                   find_book unread_books (title (book s)) = Some (book s))
         (matched_scores unread_books items).
Proof.
  apply List.Forall_forall. intros s Hs.
  apply In_matched_scores in Hs as (e & b & _ & Hm & ->).
  cbn [score_of_entry book].
  split; [apply (matched_book_Some _ _ _ Hm)|].
  unfold matched_book in Hm.
  destruct (entry_title e) as [|x|n|t|l|d]; try discriminate.
  destruct (find_book_Some _ _ _ Hm) as [_ <-]. exact Hm.
Qed.

Lemma matched_scores_no_books (items : list json) : matched_scores [] items = [].
Proof.
  induction items as [|e items IH]; [reflexivity|].
  change (matched_scores [] (e :: items))
    with (match matched_book [] e ≫= (fun b => Some (score_of_entry b e)) with
          | Some s => s :: matched_scores [] items
          | None => matched_scores [] items
          end).
  replace (matched_book [] e) with (@None Book); [exact IH|].
  unfold matched_book. now destruct (entry_title e).
Qed.

(** What one request, the extraction and the ranking return and raise,
    whichever exceptions the [except] clause catches. *)
Section OneRequest.
Context (catches : exn -> bool) (extract : shape -> string -> result json)
  (be : backend) (prompt : string) (unread_books : list Book) (log : list string).

Lemma request_returns (out : list BookScore) (log' : list string) :
  match be log prompt with
  | Ok content =>
      (match extract ArrayShape content with
       | Ok data => rank unread_books data
       | Raise e => if catches e then Ok [] else Raise e
       end, log ++ [prompt])
  | Raise e => (Raise e, log ++ [prompt])
  end = (Ok out, log') ->
  log' = log ++ [prompt] /\
  exists content, be log prompt = Ok content /\
    (out = [] \/
     exists items, extract ArrayShape content = Ok (JArr items) /\
       Forall element_passes items /\
       sort_scores (matched_scores unread_books items) = Ok out).
Proof.
  destruct (be log prompt) as [content|e]; [|discriminate].
  intros [= Hr <-]. split; [reflexivity|]. exists content. split; [reflexivity|].
  destruct (extract ArrayShape content) as [data|e].
  - destruct (rank_returns _ _ _ Hr) as [->|(items & -> & Hall & Hs)]; [now left|].
    right. exists items. auto.
  - destruct (catches e); [|discriminate]. inversion Hr. now left.
Qed.

Lemma request_raises (e : exn) (log' : list string) :
  match be log prompt with
  | Ok content =>
      (match extract ArrayShape content with
       | Ok data => rank unread_books data
       | Raise e => if catches e then Ok [] else Raise e
       end, log ++ [prompt])
  | Raise e => (Raise e, log ++ [prompt])
  end = (Raise e, log') ->
  log' = log ++ [prompt] /\
  (be log prompt = Raise e \/
   exists content, be log prompt = Ok content /\
     ((extract ArrayShape content = Raise e /\ catches e = false) \/
      (exists data, extract ArrayShape content = Ok data) /\
      (e = AttributeError \/ e = TypeError))).
Proof.
  destruct (be log prompt) as [content|e0].
  - intros [= Hr <-]. split; [reflexivity|]. right. exists content.
    split; [reflexivity|].
    destruct (extract ArrayShape content) as [data|e0].
    + right. split; [eauto|]. exact (rank_raises _ _ _ Hr).
    + left. destruct (catches e0) eqn:Hc; [discriminate|]. inversion Hr; subst. auto.
  - intros [= <- <-]. auto.
Qed.

Lemma request_array (content : string) (items : list json) :
  be log prompt = Ok content ->
  extract ArrayShape content = Ok (JArr items) ->
  match be log prompt with
  | Ok content =>
      (match extract ArrayShape content with
       | Ok data => rank unread_books data
       | Raise e => if catches e then Ok [] else Raise e
       end, log ++ [prompt])
  | Raise e => (Raise e, log ++ [prompt])
  end = (rank unread_books (JArr items), log ++ [prompt]).
Proof. intros -> ->. reflexivity. Qed.
End OneRequest.

(** What the scorer of either file returns. *)
Lemma App2_score_returns_any be sp profile (unread_books : list Book) log out log' :
  App2.score_unread_books be sp profile unread_books log = (Ok out, log') ->
  out = [] \/
  exists content items,
    be log (sp profile unread_books) = Ok content /\
    App2.extract_json ArrayShape content = Ok (JArr items) /\
    Forall element_passes items /\
    sort_scores (matched_scores unread_books items) = Ok out.
Proof.
  intros H. destruct unread_books as [|b r]; [inversion H; now left|].
  destruct (has_dict_fields profile) eqn:Hd.
  - rewrite App2_score_rank in H by (discriminate || assumption).
    apply request_returns in H as (_ & content & Hbe & [->|(items & Hx & Hall & Hs)]);
      [now left|].
    right. exists content, items. auto.
  - rewrite App2_score_no_request in H by (discriminate || assumption). discriminate.
Qed.

Lemma Remd_score_returns_any be sp profile (unread_books : list Book) log out log' :
  Remd.score_unread_books be sp profile unread_books log = (Ok out, log') ->
  out = [] \/
  exists content items,
    be log (sp profile unread_books) = Ok content /\
    Remd.extract_json ArrayShape content = Ok (JArr items) /\
    Forall element_passes items /\
    sort_scores (matched_scores unread_books items) = Ok out.
Proof.
  intros H. destruct unread_books as [|b r]; [inversion H; now left|].
  rewrite Remd_score_rank in H by discriminate.
  apply request_returns in H as (_ & content & Hbe & [->|(items & Hx & Hall & Hs)]);
    [now left|].
  right. exists content, items. auto.
Qed.

(** What the scorer of either file does with a reply that decodes to an
    array. *)
Lemma App2_score_array be sp profile (unread_books : list Book) log content items :
  unread_books <> [] ->
  has_dict_fields profile = true ->
  be log (sp profile unread_books) = Ok content ->
  App2.extract_json ArrayShape content = Ok (JArr items) ->
  App2.score_unread_books be sp profile unread_books log =
    (rank unread_books (JArr items), log ++ [sp profile unread_books]).
Proof.
  intros Hne Hd Hbe Hx. rewrite App2_score_rank by assumption.
  eapply request_array; eassumption.
Qed.

Lemma Remd_score_array be sp profile (unread_books : list Book) log content items :
  unread_books <> [] ->
  be log (sp profile unread_books) = Ok content ->
  Remd.extract_json ArrayShape content = Ok (JArr items) ->
  Remd.score_unread_books be sp profile unread_books log =
    (rank unread_books (JArr items), log ++ [sp profile unread_books]).
Proof.
  intros Hne Hbe Hx. rewrite Remd_score_rank by assumption.
  eapply request_array; eassumption.
Qed.

(** The records a scorer returns from a decoded array are the matched
    ones, rearranged. *)
Lemma App2_score_array_returns be sp profile (unread_books : list Book) log
    content items out log' :
  unread_books <> [] ->
  be log (sp profile unread_books) = Ok content ->
  App2.extract_json ArrayShape content = Ok (JArr items) ->
  App2.score_unread_books be sp profile unread_books log = (Ok out, log') ->
  Forall element_passes items /\
  sort_scores (matched_scores unread_books items) = Ok out.
Proof.
  intros Hne Hbe Hx H.
  destruct (has_dict_fields profile) eqn:Hd.
  - rewrite (App2_score_array be sp profile unread_books log content items) in H
      by assumption.
    inversion H as [[Hr Hl]].
    destruct (rank_array unread_books items) as [[Hall Hk]|[_ [Hk|Hk]]];
      rewrite Hk in Hr; try discriminate. auto.
  - rewrite App2_score_no_request in H by assumption. discriminate.
Qed.

Lemma Remd_score_array_returns be sp profile (unread_books : list Book) log
    content items out log' :
  unread_books <> [] ->
  be log (sp profile unread_books) = Ok content ->
  Remd.extract_json ArrayShape content = Ok (JArr items) ->
  Remd.score_unread_books be sp profile unread_books log = (Ok out, log') ->
  Forall element_passes items /\
  sort_scores (matched_scores unread_books items) = Ok out.
Proof.
  intros Hne Hbe Hx H.
  rewrite (Remd_score_array be sp profile unread_books log content items) in H
    by assumption.
  inversion H as [[Hr Hl]].
  destruct (rank_array unread_books items) as [[Hall Hk]|[_ [Hk|Hk]]];
    rewrite Hk in Hr; try discriminate. auto.
Qed.

(** A decoded array whose elements all pass and whose matched records
    have overall scores that [<] orders is ranked without an exception. *)
Lemma rank_sortable (unread_books : list Book) (items : list json) :
  Forall element_passes items ->
  sortable (matched_scores unread_books items) ->
  exists out,
    rank unread_books (JArr items) = Ok out /\
    Permutation out (matched_scores unread_books items) /\
    descending_scores out /\
    ties_keep_order (matched_scores unread_books items) out.
Proof.
  intros Hall Hs.
  destruct (sort_scores_sortable _ Hs) as (out & Ho & Hp & Hd & Ht).
  exists out. split; [|auto].
  destruct (rank_array unread_books items) as [[_ Hk]|[Hn _]]; [|contradiction].
  now rewrite Hk.
Qed.

(** An element that does not pass makes the ranking raise. *)
Lemma rank_element_raises (unread_books : list Book) (items : list json) :
  ~ Forall element_passes items ->
  rank unread_books (JArr items) = Raise AttributeError \/
  rank unread_books (JArr items) = Raise TypeError.
Proof.
  intros Hn. destruct (rank_array unread_books items) as [[Hall _]|[_ Hk]];
    [contradiction|exact Hk].
Qed.

(** ** Ranking *)

Lemma App2_score_returns be sp profile unread_books log out log' :
  App2.score_unread_books be sp profile unread_books log = (Ok out, log') ->
  out = [] \/ exists bs, sort_scores bs = Ok out.
Proof.
  intros H. apply App2_score_returns_any in H as [->|(c & items & _ & _ & _ & Hs)];
    [now left|right; eauto].
Qed.

Lemma Remd_score_returns be sp profile unread_books log out log' :
  Remd.score_unread_books be sp profile unread_books log = (Ok out, log') ->
  out = [] \/ exists bs, sort_scores bs = Ok out.
Proof.
  intros H. apply Remd_score_returns_any in H as [->|(c & items & _ & _ & _ & Hs)];
    [now left|right; eauto].
Qed.

(** A list either scorer returns from a reply that decodes to the array
    [items] is what the sort makes of the matched records. *)
Lemma score_array_sorted be sp profile (unread_books : list Book) log
    content items out log' :
  be log (sp profile unread_books) = Ok content ->
  (App2.extract_json ArrayShape content = Ok (JArr items) /\
   App2.score_unread_books be sp profile unread_books log = (Ok out, log')) \/
  (Remd.extract_json ArrayShape content = Ok (JArr items) /\
   Remd.score_unread_books be sp profile unread_books log = (Ok out, log')) ->
  sort_scores (matched_scores unread_books items) = Ok out.
Proof.
  intros Hbe H. destruct unread_books as [|b r].
  - rewrite matched_scores_no_books, sort_scores_nil.
    destruct H as [[_ H]|[_ H]]; inversion H; reflexivity.
  - destruct H as [[Hx H]|[Hx H]].
    + eapply App2_score_array_returns; try eassumption. discriminate.
    + eapply Remd_score_array_returns; try eassumption. discriminate.
Qed.

(** Either scorer returns on a reply that decodes to an array whose
    elements all pass and whose matched records have overall scores that
    [<] orders. *)
Lemma score_array_sortable be sp profile (unread_books : list Book) log content items :
  unread_books <> [] ->
  be log (sp profile unread_books) = Ok content ->
  Forall element_passes items ->
  sortable (matched_scores unread_books items) ->
  (has_dict_fields profile = true ->
   App2.extract_json ArrayShape content = Ok (JArr items) ->
   exists out,
     App2.score_unread_books be sp profile unread_books log =
       (Ok out, log ++ [sp profile unread_books]) /\
     Permutation out (matched_scores unread_books items) /\
     descending_scores out /\
     ties_keep_order (matched_scores unread_books items) out) /\
  (Remd.extract_json ArrayShape content = Ok (JArr items) ->
   exists out,
     Remd.score_unread_books be sp profile unread_books log =
       (Ok out, log ++ [sp profile unread_books]) /\
     Permutation out (matched_scores unread_books items) /\
     descending_scores out /\
     ties_keep_order (matched_scores unread_books items) out).
Proof.
  intros Hne Hbe Hall Hs.
  destruct (rank_sortable unread_books items Hall Hs) as (out & Hr & Hrest).
  split.
  - intros Hd Hx. exists out. split; [|exact Hrest].
    rewrite (App2_score_array be sp profile unread_books log content items)
      by assumption.
    now rewrite Hr.
  - intros Hx. exists out. split; [|exact Hrest].
    rewrite (Remd_score_array be sp profile unread_books log content items)
      by assumption.
    now rewrite Hr.
Qed.

(** Either scorer raises on a reply that decodes to an array with an
    element that does not pass. *)
Lemma score_array_raises be sp profile (unread_books : list Book) log content items :
  unread_books <> [] ->
  be log (sp profile unread_books) = Ok content ->
  ~ Forall element_passes items ->
  (has_dict_fields profile = true ->
   App2.extract_json ArrayShape content = Ok (JArr items) ->
   App2.score_unread_books be sp profile unread_books log =
     (Raise AttributeError, log ++ [sp profile unread_books]) \/
   App2.score_unread_books be sp profile unread_books log =
     (Raise TypeError, log ++ [sp profile unread_books])) /\
  (Remd.extract_json ArrayShape content = Ok (JArr items) ->
   Remd.score_unread_books be sp profile unread_books log =
     (Raise AttributeError, log ++ [sp profile unread_books]) \/
   Remd.score_unread_books be sp profile unread_books log =
     (Raise TypeError, log ++ [sp profile unread_books])).
Proof.
  intros Hne Hbe Hn. split.
  - intros Hd Hx.
    rewrite (App2_score_array be sp profile unread_books log content items)
      by assumption.
    destruct (rank_element_raises unread_books items Hn) as [-> | ->]; auto.
  - intros Hx.
    rewrite (Remd_score_array be sp profile unread_books log content items)
      by assumption.
    destruct (rank_element_raises unread_books items Hn) as [-> | ->]; auto.
Qed.

Lemma element_passes_object (d : list (string * json)) :
  py_hashable (entry_title (JObj d)) = true -> element_passes (JObj d).
Proof. intros H. now exists d. Qed.

(** C5, counterexample. A reply may score a book with NaN, which
    [json.loads] accepts: the scorer of either file then returns A (1)
    before B (NaN), a list that is not in descending order, and that no
    rearrangement would put in descending order, no comparison with NaN
    being true. *)
Lemma C5_nan_score_is_not_ordered :
  App2.score_unread_books (backend_says nan_reply) some_scoring_prompt
      empty_profile ab_books [] = (Ok nan_scores, ["score"]) /\
  Remd.score_unread_books (backend_says nan_reply) some_scoring_prompt
      empty_profile ab_books [] = (Ok nan_scores, ["score"]) /\
  ~ descending_scores nan_scores /\
  (forall out, Permutation out nan_scores -> ~ descending_scores out).
Proof.
  assert (Hall : forall out, Permutation out nan_scores -> ~ descending_scores out).
  { intros out Hp Hd. symmetry in Hp.
    apply Permutation_length_2_inv in Hp as [-> | ->];
      apply StronglySorted_inv in Hd as [_ Hd];
      apply Forall_inv in Hd; discriminate Hd. }
  split; [vm_compute; reflexivity|]. split; [vm_compute; reflexivity|].
  split; [apply Hall; reflexivity|exact Hall].
Qed.

(** C5. A list the scorer of either file returns is in descending order
    of overall score whenever [<] orders its overall scores, that is when
    they are all numbers other than NaN (infinities included) or all
    strings.  A list returned from a reply that decodes to an array is a
    rearrangement of the records matched from it, and under the same
    condition records of equal overall score keep the order they have in
    the response.  The scorer does return such a list when every element
    of the array is an object with a hashable title and the overall scores
    of the matched records are ordered by [<] (in [app2.py], the profile
    moreover having mappings for its authors and themes).  Scores 40, 95,
    70 for A, B, C give B, C, A. *)
Theorem C5_scores_descending_stable :
  (forall be sp profile unread_books log out log',
     App2.score_unread_books be sp profile unread_books log = (Ok out, log') \/
     Remd.score_unread_books be sp profile unread_books log = (Ok out, log') ->
     sortable out -> descending_scores out) /\
  (forall be sp profile unread_books log content items out log',
     be log (sp profile unread_books) = Ok content ->
     (App2.extract_json ArrayShape content = Ok (JArr items) /\
      App2.score_unread_books be sp profile unread_books log = (Ok out, log')) \/
     (Remd.extract_json ArrayShape content = Ok (JArr items) /\
      Remd.score_unread_books be sp profile unread_books log = (Ok out, log')) ->
     Permutation out (matched_scores unread_books items) /\
     (sortable out -> ties_keep_order (matched_scores unread_books items) out)) /\
  (forall be sp profile unread_books log content items,
     unread_books <> [] ->
     be log (sp profile unread_books) = Ok content ->
     Forall element_passes items ->
     sortable (matched_scores unread_books items) ->
     (has_dict_fields profile = true ->
      App2.extract_json ArrayShape content = Ok (JArr items) ->
      exists out,
        App2.score_unread_books be sp profile unread_books log =
          (Ok out, log ++ [sp profile unread_books]) /\
        Permutation out (matched_scores unread_books items) /\
        descending_scores out /\
        ties_keep_order (matched_scores unread_books items) out) /\
     (Remd.extract_json ArrayShape content = Ok (JArr items) ->
      exists out,
        Remd.score_unread_books be sp profile unread_books log =
          (Ok out, log ++ [sp profile unread_books]) /\
        Permutation out (matched_scores unread_books items) /\
        descending_scores out /\
        ties_keep_order (matched_scores unread_books items) out)) /\
  returned_titles
    (App2.score_unread_books (backend_says abc_reply) some_scoring_prompt
       empty_profile abc_books []) = Some ["B"; "C"; "A"] /\
  returned_titles
    (Remd.score_unread_books (backend_says abc_reply) some_scoring_prompt
       empty_profile abc_books []) = Some ["B"; "C"; "A"].
Proof.
  split; [|split; [|split; [|split]]].
  - intros * H Hs.
    assert (Hout : out = [] \/ exists bs, sort_scores bs = Ok out).
    { destruct H as [H|H];
        [eapply App2_score_returns|eapply Remd_score_returns]; exact H. }
    destruct Hout as [->|[bs Hbs]]; [constructor|].
    now apply (sort_scores_sorted bs out).
  - intros * Hbe H.
    pose proof (score_array_sorted be sp profile unread_books log content items
                  out log' Hbe H) as Hs.
    split; [now apply sort_scores_perm|].
    intros Ho. now apply sort_scores_sorted.
  - exact score_array_sortable.
  - vm_compute. reflexivity.
  - vm_compute. reflexivity.
Qed.

Lemma C5_scores_descending_stable_witness :
  abc_books <> [] /\
  backend_says abc_reply [] (some_scoring_prompt empty_profile abc_books) = Ok abc_reply /\
  Forall element_passes abc_items /\
  sortable (matched_scores abc_books abc_items) /\
  has_dict_fields empty_profile = true /\
  App2.extract_json ArrayShape abc_reply = Ok (JArr abc_items) /\
  exists out,
    App2.score_unread_books (backend_says abc_reply) some_scoring_prompt
        empty_profile abc_books [] =
      (Ok out, [] ++ [some_scoring_prompt empty_profile abc_books]) /\
    Permutation out (matched_scores abc_books abc_items) /\
    descending_scores out /\
    ties_keep_order (matched_scores abc_books abc_items) out.
Proof.
  assert (Hall : Forall element_passes abc_items)
    by (repeat constructor; apply element_passes_object; reflexivity).
  assert (Hs : sortable (matched_scores abc_books abc_items))
    by (left; repeat constructor; eexists; (split; [reflexivity|discriminate])).
  split; [discriminate|]. split; [reflexivity|]. split; [exact Hall|].
  split; [exact Hs|]. split; [reflexivity|].
  split; [vm_compute; reflexivity|].
  refine (proj1 (proj1 (proj2 (proj2 C5_scores_descending_stable))
            (backend_says abc_reply) some_scoring_prompt empty_profile abc_books []
            abc_reply abc_items _ eq_refl Hall Hs) eq_refl _).
  - discriminate.
  - vm_compute. reflexivity.
Defined.

(** ** Unmatched and repeated titles *)

(** C6, counterexample. An element whose title matches no unread book is
    not always dropped in silence: a title that is a list cannot be looked
    up and raises [TypeError], and an element that is not an object has no
    [get] and raises [AttributeError], in either file. *)
Lemma C6_unmatched_element_raises :
  App2.extract_json ArrayShape list_title_reply =
    Ok (JArr [JObj [("title", JArr [JStr "A"])]]) /\
  Remd.extract_json ArrayShape list_title_reply =
    Ok (JArr [JObj [("title", JArr [JStr "A"])]]) /\
  matched_book abc_books (JObj [("title", JArr [JStr "A"])]) = None /\
  App2.score_unread_books (backend_says list_title_reply) some_scoring_prompt
      empty_profile abc_books [] = (Raise TypeError, ["score"]) /\
  Remd.score_unread_books (backend_says list_title_reply) some_scoring_prompt
      empty_profile abc_books [] = (Raise TypeError, ["score"]) /\
  App2.extract_json ArrayShape bare_number_reply = Ok (JArr [JNum (PInt 5)]) /\
  Remd.extract_json ArrayShape bare_number_reply = Ok (JArr [JNum (PInt 5)]) /\
  matched_book abc_books (JNum (PInt 5)) = None /\
  App2.score_unread_books (backend_says bare_number_reply) some_scoring_prompt
      empty_profile abc_books [] = (Raise AttributeError, ["score"]) /\
  Remd.score_unread_books (backend_says bare_number_reply) some_scoring_prompt
      empty_profile abc_books [] = (Raise AttributeError, ["score"]).
Proof. repeat split; vm_compute; reflexivity. Qed.

(** C6. The lookup built from [unread_books] finds a book by exact equality
    of title strings (the last one, when several carry the title); a
    response element is matched exactly when its title is the title of an
    unread book; and a list the scorer of either file returns from a reply
    that decodes to an array holds the records of the matched elements
    and nothing for the others.  The scorer returns when every element is
    an object with a hashable title and [<] orders the overall scores of
    the matched records (in [app2.py], the profile moreover having mappings
    for its authors and themes); it raises [AttributeError] or [TypeError]
    when some element is not an object or has a title that is a list or an
    object.  A reply with an element titled "Zzz", among unread books A, B
    and C, yields scores for B and A only. *)
Theorem C6_unmatched_titles_dropped :
  (forall unread_books t,
     book_lookup_of unread_books !! t = find_book unread_books t) /\
  (forall unread_books e,
     matched_book unread_books e = None <->
     forall b, In b unread_books -> entry_title e <> JStr (title b)) /\
  (forall unread_books e b,
     matched_book unread_books e = Some b ->
     In b unread_books /\ entry_title e = JStr (title b)) /\
  (forall be sp profile unread_books log content items out log',
     be log (sp profile unread_books) = Ok content ->
     (App2.extract_json ArrayShape content = Ok (JArr items) /\
      App2.score_unread_books be sp profile unread_books log = (Ok out, log')) \/
     (Remd.extract_json ArrayShape content = Ok (JArr items) /\
      Remd.score_unread_books be sp profile unread_books log = (Ok out, log')) ->
     length out = length (matched_scores unread_books items) /\
     forall s, In s out <->
       exists e b, In e items /\ matched_book unread_books e = Some b /\
                   s = score_of_entry b e) /\
  (forall be sp profile unread_books log content items,
     unread_books <> [] ->
     be log (sp profile unread_books) = Ok content ->
     Forall element_passes items ->
     sortable (matched_scores unread_books items) ->
     (has_dict_fields profile = true ->
      App2.extract_json ArrayShape content = Ok (JArr items) ->
      exists out,
        App2.score_unread_books be sp profile unread_books log =
          (Ok out, log ++ [sp profile unread_books])) /\
     (Remd.extract_json ArrayShape content = Ok (JArr items) ->
      exists out,
        Remd.score_unread_books be sp profile unread_books log =
          (Ok out, log ++ [sp profile unread_books]))) /\
  (forall be sp profile unread_books log content items,
     unread_books <> [] ->
     be log (sp profile unread_books) = Ok content ->
     ~ Forall element_passes items ->
     (has_dict_fields profile = true ->
      App2.extract_json ArrayShape content = Ok (JArr items) ->
      App2.score_unread_books be sp profile unread_books log =
        (Raise AttributeError, log ++ [sp profile unread_books]) \/
      App2.score_unread_books be sp profile unread_books log =
        (Raise TypeError, log ++ [sp profile unread_books])) /\
     (Remd.extract_json ArrayShape content = Ok (JArr items) ->
      Remd.score_unread_books be sp profile unread_books log =
        (Raise AttributeError, log ++ [sp profile unread_books]) \/
      Remd.score_unread_books be sp profile unread_books log =
        (Raise TypeError, log ++ [sp profile unread_books]))) /\
  returned_titles
    (App2.score_unread_books (backend_says stray_reply) some_scoring_prompt
       empty_profile abc_books []) = Some ["B"; "A"] /\
  returned_titles
    (Remd.score_unread_books (backend_says stray_reply) some_scoring_prompt
       empty_profile abc_books []) = Some ["B"; "A"].
Proof.
  split; [exact book_lookup_of_find|].
  split; [exact matched_book_None|].
  split; [exact matched_book_Some|].
  split; [|split; [|split; [exact score_array_raises|split; vm_compute; reflexivity]]].
  - intros * Hbe H.
    pose proof (score_array_sorted be sp profile unread_books log content items
                  out log' Hbe H) as Hs.
    apply sort_scores_perm in Hs as Hp.
    split; [now apply Permutation_length|].
    intros s. rewrite <- In_matched_scores.
    split; apply Permutation_in; [exact Hp|symmetry; exact Hp].
  - intros * Hne Hbe Hall Hs.
    destruct (score_array_sortable be sp profile unread_books log content items
                Hne Hbe Hall Hs) as [Ha Hr].
    split.
    + intros Hd Hx. destruct (Ha Hd Hx) as (out & Ho & _). eauto.
    + intros Hx. destruct (Hr Hx) as (out & Ho & _). eauto.
Qed.

Lemma C6_unmatched_titles_dropped_witness :
  backend_says stray_reply [] (some_scoring_prompt empty_profile abc_books) =
    Ok stray_reply /\
  App2.extract_json ArrayShape stray_reply = Ok (JArr stray_items) /\
  matched_book abc_books (parsed_entry "Zzz" 99) = None /\
  exists out,
    App2.score_unread_books (backend_says stray_reply) some_scoring_prompt
        empty_profile abc_books [] = (Ok out, ["score"]) /\
    length out = length (matched_scores abc_books stray_items) /\
    forall s, In s out <->
      exists e b, In e stray_items /\ matched_book abc_books e = Some b /\
                  s = score_of_entry b e.
Proof.
  split; [reflexivity|].
  split; [vm_compute; reflexivity|]. split; [vm_compute; reflexivity|].
  eexists. split; [vm_compute; reflexivity|].
  refine (proj1 (proj2 (proj2 (proj2 C6_unmatched_titles_dropped)))
            (backend_says stray_reply) some_scoring_prompt empty_profile abc_books []
            stray_reply stray_items _ ["score"] eq_refl (or_introl (conj _ _))).
  - vm_compute. reflexivity.
  - vm_compute. reflexivity.
Defined.

Lemma filter_Permutation_list {A} (f : A -> bool) (l l' : list A) :
  Permutation l l' -> Permutation (List.filter f l) (List.filter f l').
Proof.
  induction 1 as [|x l l' _ IH|x y l|l l' l'' _ IH1 _ IH2]; simpl.
  - reflexivity.
  - destruct (f x); [now constructor|exact IH].
  - destruct (f x), (f y); try reflexivity. apply perm_swap.
  - now transitivity (List.filter f l').
Qed.

Lemma filter_title_matched (unread_books : list Book) (items : list json)
    (t : string) (b : Book) :
  find_book unread_books t = Some b ->
  List.filter (fun s => String.eqb (title (book s)) t) (matched_scores unread_books items) =
  map (score_of_entry b) (List.filter (has_title t) items).
Proof.
  intros Hb. unfold matched_scores.
  induction items as [|e items IH]; [reflexivity|].
  cbn [omap list_omap List.filter]. unfold has_title at 1, matched_book at 1.
  destruct (entry_title e) as [|x|n|t'|l|d]; cbn [mbind option_bind]; try exact IH.
  destruct (find_book unread_books t') as [b'|] eqn:Hb'; cbn [mbind option_bind List.filter].
  - apply find_book_Some in Hb' as Hb''. destruct Hb'' as [_ Ht'].
    cbn [book score_of_entry]. rewrite Ht'.
    destruct (String.eqb_spec t' t) as [->|Hne]; [|exact IH].
    rewrite IH. cbn [map]. congruence.
  - destruct (String.eqb_spec t' t) as [->|Hne]; [congruence|exact IH].
Qed.

(** C10, counterexample. Two elements of the reply carry the title of the
    unread book A, one with a string for its overall score and one with a
    number: the sort cannot compare the two records, and the scorer of
    either file raises [TypeError] instead of returning them. *)
Lemma C10_repeated_title_raises :
  App2.extract_json ArrayShape mixed_reply = Ok (JArr mixed_items) /\
  Remd.extract_json ArrayShape mixed_reply = Ok (JArr mixed_items) /\
  find_book [plain_book "A"] "A" = Some (plain_book "A") /\
  length (List.filter (has_title "A") mixed_items) = 2%nat /\
  App2.score_unread_books (backend_says mixed_reply) some_scoring_prompt
      empty_profile [plain_book "A"] [] = (Raise TypeError, ["score"]) /\
  Remd.score_unread_books (backend_says mixed_reply) some_scoring_prompt
      empty_profile [plain_book "A"] [] = (Raise TypeError, ["score"]).
Proof. repeat split; vm_compute; reflexivity. Qed.

(** C10. In a list the scorer of either file returns from a reply that
    decodes to an array, the records for the title [t] of an unread book
    are as many as the elements that carry this title, and each wraps the
    book the title stands for: repeated elements are all kept.  The scorer
    returns such a list when every element is an object with a hashable
    title and [<] orders the overall scores of the matched records (in
    [app2.py], the profile moreover having mappings for its authors and
    themes).  One unread book scored twice in the reply yields two
    records. *)
Theorem C10_repeated_titles_kept :
  (forall be sp profile unread_books log content items out log' t b,
     be log (sp profile unread_books) = Ok content ->
     find_book unread_books t = Some b ->
     (App2.extract_json ArrayShape content = Ok (JArr items) /\
      App2.score_unread_books be sp profile unread_books log = (Ok out, log')) \/
     (Remd.extract_json ArrayShape content = Ok (JArr items) /\
      Remd.score_unread_books be sp profile unread_books log = (Ok out, log')) ->
     length (List.filter (fun s => String.eqb (title (book s)) t) out) =
       length (List.filter (has_title t) items) /\
     Forall (fun s => book s = b)
       (List.filter (fun s => String.eqb (title (book s)) t) out)) /\
  (forall be sp profile unread_books log content items,
     unread_books <> [] ->
     be log (sp profile unread_books) = Ok content ->
     Forall element_passes items ->
     sortable (matched_scores unread_books items) ->
     (has_dict_fields profile = true ->
      App2.extract_json ArrayShape content = Ok (JArr items) ->
      exists out,
        App2.score_unread_books be sp profile unread_books log =
          (Ok out, log ++ [sp profile unread_books])) /\
     (Remd.extract_json ArrayShape content = Ok (JArr items) ->
      exists out,
        Remd.score_unread_books be sp profile unread_books log =
          (Ok out, log ++ [sp profile unread_books]))) /\
  App2.score_unread_books (backend_says twice_reply) some_scoring_prompt
      empty_profile [plain_book "A"] [] =
    (Ok [entry_score (plain_book "A") 95; entry_score (plain_book "A") 40], ["score"]) /\
  Remd.score_unread_books (backend_says twice_reply) some_scoring_prompt
      empty_profile [plain_book "A"] [] =
    (Ok [entry_score (plain_book "A") 95; entry_score (plain_book "A") 40], ["score"]).
Proof.
  split; [|split; [|split; vm_compute; reflexivity]].
  - intros * Hbe Hb H.
    pose proof (score_array_sorted be sp profile unread_books log content items
                  out log' Hbe H) as Hs.
    apply sort_scores_perm in Hs as Hp.
    pose proof (filter_Permutation_list
                  (fun s => String.eqb (title (book s)) t) _ _ Hp) as Hf.
    rewrite (filter_title_matched _ _ _ _ Hb) in Hf. split.
    + rewrite (Permutation_length Hf). apply length_map.
    + eapply Permutation_Forall; [symmetry; exact Hf|].
      apply List.Forall_forall. intros s Hin. apply in_map_iff in Hin as (e & <- & _).
      reflexivity.
  - intros * Hne Hbe Hall Hs.
    destruct (score_array_sortable be sp profile unread_books log content items
                Hne Hbe Hall Hs) as [Ha Hr].
    split.
    + intros Hd Hx. destruct (Ha Hd Hx) as (out & Ho & _). eauto.
    + intros Hx. destruct (Hr Hx) as (out & Ho & _). eauto.
Qed.

Lemma C10_repeated_titles_kept_witness :
  backend_says twice_reply [] (some_scoring_prompt empty_profile [plain_book "A"]) =
    Ok twice_reply /\
  find_book [plain_book "A"] "A" = Some (plain_book "A") /\
  App2.extract_json ArrayShape twice_reply = Ok (JArr twice_items) /\
  length (List.filter (has_title "A") twice_items) = 2%nat /\
  exists out,
    App2.score_unread_books (backend_says twice_reply) some_scoring_prompt
        empty_profile [plain_book "A"] [] = (Ok out, ["score"]) /\
    length (List.filter (fun s => String.eqb (title (book s)) "A") out) =
      length (List.filter (has_title "A") twice_items) /\
    Forall (fun s => book s = plain_book "A")
      (List.filter (fun s => String.eqb (title (book s)) "A") out).
Proof.
  split; [reflexivity|]. split; [reflexivity|].
  split; [vm_compute; reflexivity|]. split; [reflexivity|].
  eexists. split; [vm_compute; reflexivity|].
  refine (proj1 C10_repeated_titles_kept
            (backend_says twice_reply) some_scoring_prompt empty_profile
            [plain_book "A"] [] twice_reply twice_items _ ["score"] "A" (plain_book "A")
            eq_refl eq_refl (or_introl (conj _ _))).
  - vm_compute. reflexivity.
  - vm_compute. reflexivity.
Defined.

(** ** The frequency-count fallback profile *)

Lemma dict_get_In {V} (k : string) (v : V) (d : list (string * V)) :
  List.NoDup (map fst d) -> (In (k, v) d <-> dict_get k d = Some v).
Proof.
  induction d as [|[k' v'] d IH]; simpl; intros Hnd.
  - split; [intros []|discriminate].
  - inversion Hnd as [|? ? Hnotin Hnd']; subst.
    destruct (String.eqb_spec k' k) as [->|Hne].
    + split.
      * intros [[= ->]|Hin]; [reflexivity|].
        exfalso. apply Hnotin. apply in_map_iff. now exists (k, v).
      * intros [= ->]. now left.
    + rewrite <- (IH Hnd'). split.
      * intros [[= -> ->]|Hin]; [congruence|exact Hin].
      * intros Hin. now right.
Qed.

Lemma dict_get_None_keys {V} (k : string) (d : list (string * V)) :
  dict_get k d = None <-> ~ In k (map fst d).
Proof.
  induction d as [|[k' v'] d IH]; simpl.
  - split; [intros _ []|reflexivity].
  - destruct (String.eqb_spec k' k) as [->|Hne].
    + split; [discriminate|]. intros H. exfalso. apply H. now left.
    + rewrite IH. split.
      * intros H [Heq|Hin]; [congruence|contradiction].
      * intros H Hin. apply H. now right.
Qed.

Lemma counter_incr_keys (k : string) (c : Counter) :
  map fst (counter_incr k c) =
  match dict_get k c with Some _ => map fst c | None => map fst c ++ [k] end.
Proof.
  induction c as [|[k' n] c IH]; simpl; [reflexivity|].
  destruct (String.eqb_spec k' k) as [->|Hne]; simpl; [reflexivity|].
  rewrite IH. destruct (dict_get k c); reflexivity.
Qed.

Lemma counter_incr_get (k k' : string) (c : Counter) :
  dict_get k' (counter_incr k c) =
  if String.eqb k k' then Some (default 0 (dict_get k c) + 1) else dict_get k' c.
Proof.
  induction c as [|[k0 n] c IH]; simpl.
  - destruct (String.eqb_spec k k'); reflexivity.
  - destruct (String.eqb_spec k0 k) as [->|Hne]; simpl.
    + destruct (String.eqb_spec k k'); reflexivity.
    + rewrite IH. destruct (String.eqb_spec k0 k') as [->|Hne'].
      * destruct (String.eqb_spec k k'); [congruence|reflexivity].
      * reflexivity.
Qed.

Lemma counts_incr (k : string) (c : Counter) (l : list string) :
  counts c l -> counts (counter_incr k c) (l ++ [k]).
Proof.
  intros [Hnd Hget]. split.
  - rewrite counter_incr_keys. destruct (dict_get k c) eqn:E; [exact Hnd|].
    apply List.NoDup_app; [exact Hnd|repeat constructor; intros []|].
    intros x Hx [<-|[]]. now apply dict_get_None_keys in E.
  - intros k'. rewrite counter_incr_get, count_occ_app. simpl. unfold occurrences.
    rewrite count_occ_app. simpl.
    destruct (String.eqb_spec k k') as [->|Hne].
    + destruct (String.string_dec k' k'); [|congruence].
      rewrite Hget. destruct (count_occ String.string_dec l k') as [|m] eqn:Ec; simpl.
      * reflexivity.
      * replace (m + 1)%nat with (S m) by lia. simpl.
        f_equal. unfold occurrences. rewrite Ec. lia.
    + destruct (String.string_dec k k'); [congruence|].
      rewrite Nat.add_0_r. apply Hget.
Qed.

Lemma counts_update (ks : list string) (c : Counter) (l : list string) :
  counts c l -> counts (counter_update c ks) (l ++ ks).
Proof.
  revert c l. induction ks as [|k ks IH]; intros c l H; simpl.
  - now rewrite app_nil_r.
  - replace (l ++ k :: ks) with ((l ++ [k]) ++ ks) by now rewrite <- app_assoc.
    apply IH, counts_incr, H.
Qed.

Lemma counts_nil : counts [] [].
Proof. split; [constructor|reflexivity]. Qed.

Lemma counter_total_incr (k : string) (c : Counter) :
  counter_total (counter_incr k c) = counter_total c + 1.
Proof.
  induction c as [|[k' n] c IH]; simpl; [reflexivity|].
  destruct (String.eqb k' k); simpl; lia.
Qed.

Lemma counter_total_update (ks : list string) (c : Counter) :
  counter_total (counter_update c ks) = counter_total c + Z.of_nat (length ks).
Proof.
  revert c. induction ks as [|k ks IH]; intros c; simpl; [lia|].
  unfold counter_update in IH. rewrite IH, counter_total_incr. lia.
Qed.

Lemma counter_update_app (c : Counter) (l1 l2 : list string) :
  counter_update c (l1 ++ l2) = counter_update (counter_update c l1) l2.
Proof. apply foldl_app. Qed.

Lemma count_books_acc (books : list Book) (gc ac tc : Counter) :
  foldl (fun '(gc, ac, tc) b =>
           (counter_update gc (genres b),
            counter_incr (author b) ac,
            counter_update tc (themes b))) (gc, ac, tc) books =
  (counter_update gc (all_genres books),
   counter_update ac (all_authors books),
   counter_update tc (all_themes books)).
Proof.
  revert gc ac tc. induction books as [|b books IH]; intros gc ac tc; [reflexivity|].
  cbn [foldl]. rewrite IH. unfold all_genres, all_authors, all_themes.
  cbn [map concat]. now rewrite !counter_update_app.
Qed.

Lemma count_books_counters (books : list Book) :
  count_books books =
  (counter_update [] (all_genres books),
   counter_update [] (all_authors books),
   counter_update [] (all_themes books)).
Proof. apply count_books_acc. Qed.

Lemma counts_keys (c : Counter) (l : list string) (k : string) :
  counts c l -> (In k (map fst c) <-> In k l).
Proof.
  intros [Hnd Hget]. specialize (Hget k).
  destruct (count_occ String.string_dec l k) as [|m] eqn:Ec; simpl in Hget.
  - apply dict_get_None_keys in Hget.
    split; [contradiction|].
    intros Hin. apply (count_occ_In String.string_dec) in Hin. lia.
  - split; intros _.
    + apply (count_occ_In String.string_dec). lia.
    + destruct (in_dec String.string_dec k (map fst c)) as [Hin|Hnot]; [exact Hin|].
      apply dict_get_None_keys in Hnot. congruence.
Qed.

Lemma counts_length (c : Counter) (l : list string) :
  counts c l -> length c = length (nodup String.string_dec l).
Proof.
  intros H. rewrite <- (length_map fst c).
  apply Permutation_length, Permutation.NoDup_Permutation.
  - apply H.
  - apply List.NoDup_nodup.
  - intros k. rewrite nodup_In. now apply counts_keys.
Qed.

Lemma counts_In (c : Counter) (l : list string) (k : string) (v : Z) :
  counts c l -> In (k, v) c -> In k l /\ v = occurrences k l.
Proof.
  intros H Hin. split.
  - apply (counts_keys c l k H). apply in_map_iff. now exists (k, v).
  - destruct H as [Hnd Hget]. apply (dict_get_In k v c Hnd) in Hin.
    rewrite Hget in Hin. destruct (_ =? _)%nat; congruence.
Qed.

Lemma counts_entry (c : Counter) (l : list string) (k : string) :
  counts c l -> In k l -> In (k, occurrences k l) c.
Proof.
  intros [Hnd Hget] Hin. apply (dict_get_In _ _ _ Hnd). rewrite Hget.
  apply (count_occ_In String.string_dec) in Hin.
  destruct (Nat.eqb_spec (count_occ String.string_dec l k) 0); [lia|reflexivity].
Qed.

Lemma Zltb_irrefl (a : Z) : (a <? a) = false.
Proof. apply Z.ltb_irrefl. Qed.

Lemma Zltb_trans (a b c : Z) : (a <? b) = true -> (b <? c) = true -> (a <? c) = true.
Proof. rewrite !Z.ltb_lt. lia. Qed.

Lemma most_common_split (n : nat) (c : Counter) :
  Permutation (most_common n c ++ drop n (sorted_rev snd Z.ltb c)) c /\
  StronglySorted (fun a b => snd b <= snd a)
    (most_common n c ++ drop n (sorted_rev snd Z.ltb c)).
Proof.
  unfold most_common. rewrite take_drop. split; [apply sorted_rev_perm|].
  pose proof (sorted_rev_descending snd Z.ltb Zltb_irrefl Zltb_trans c) as Hs.
  induction Hs as [|x l Hl IH Hx]; constructor; [exact IH|].
  eapply List.Forall_impl; [|exact Hx]. intros y Hy. simpl in Hy.
  apply Z.ltb_ge in Hy. exact Hy.
Qed.

Lemma most_common_top (n : nat) (c : Counter) (l : list string) :
  counts c l -> top_by_count n l (most_common n c).
Proof.
  intros Hc. destruct (most_common_split n c) as [Hp Hs].
  set (top := most_common n c) in *. set (rest := drop n (sorted_rev snd Z.ltb c)) in *.
  assert (List.NoDup (map fst (top ++ rest))) as Hnd.
  { eapply Permutation_NoDup; [apply Permutation_map; symmetry; exact Hp|apply Hc]. }
  rewrite map_app in Hnd.
  split; [|split; [|split; [|split]]].
  - eapply List.NoDup_app_remove_r, Hnd.
  - intros k v Hin. apply (counts_In c l k v Hc).
    apply (Permutation_in _ Hp). apply in_or_app. left. exact Hin.
  - unfold top, most_common. rewrite length_take.
    rewrite (Permutation_length (sorted_rev_perm snd Z.ltb c)).
    now rewrite (counts_length c l Hc).
  - eapply StronglySorted_app_1_l, Hs.
  - intros k Hk Hnot kv Hkv.
    pose proof (counts_entry c l k Hc Hk) as Hin.
    apply (Permutation_in _ (Permutation_sym Hp)) in Hin.
    apply in_app_or in Hin as [Hin|Hin].
    + exfalso. apply Hnot. apply in_map_iff. now exists (k, occurrences k l).
    + apply (StronglySorted_app_1_elem_of _ _ _ kv (k, occurrences k l)) in Hs;
        [exact Hs| |]; now apply list_elem_of_In.
Qed.

Lemma dict_set_fresh {V} (k : string) (v : V) (d : list (string * V)) :
  ~ In k (map fst d) -> dict_set k v d = d ++ [(k, v)].
Proof.
  induction d as [|[k' v'] d IH]; simpl; intros H; [reflexivity|].
  destruct (String.eqb_spec k' k) as [->|Hne].
  - exfalso. apply H. now left.
  - rewrite IH; [reflexivity|]. intros Hin. apply H. now right.
Qed.

Lemma foldl_dict_set {V} (f : Z -> V) (l : list (string * Z)) (acc : list (string * V)) :
  List.NoDup (map fst l) ->
  (forall k, In k (map fst l) -> ~ In k (map fst acc)) ->
  foldl (fun d kv => dict_set (fst kv) (f (snd kv)) d) acc l =
  acc ++ map (fun kv => (fst kv, f (snd kv))) l.
Proof.
  revert acc. induction l as [|[k v] l IH]; intros acc Hnd Hfresh; simpl.
  - now rewrite app_nil_r.
  - inversion Hnd as [|? ? Hk Hnd']; subst.
    rewrite dict_set_fresh by (apply Hfresh; now left).
    rewrite IH; [now rewrite <- app_assoc|exact Hnd'|].
    intros k' Hk'. rewrite map_app, in_app_iff. simpl. intros [Hin|[<-|[]]].
    + apply (Hfresh k'); [now right|exact Hin].
    + contradiction.
Qed.

Lemma counts_dict_counted (l : list (string * Z)) :
  List.NoDup (map fst l) -> counts_dict l = counted l.
Proof.
  intros Hnd. unfold counts_dict, counted.
  rewrite (foldl_dict_set (fun v => JNum (PInt v)) l [] Hnd); [reflexivity|].
  intros k _ [].
Qed.

Lemma weighted_by_map (total : Z) (l : list (string * Z)) :
  weighted_by total l (map (fun kv => (fst kv, weight_of total (snd kv))) l).
Proof.
  unfold weighted_by. induction l as [|kv l IH]; simpl; constructor; [|exact IH].
  split; [reflexivity|]. eexists. split; [reflexivity|]. apply Qred_correct.
Qed.

Lemma all_genres_total (books : list Book) :
  all_genres books <> [] ->
  int_or (counter_total (counter_update [] (all_genres books))) 1 =
  Z.of_nat (length (all_genres books)).
Proof.
  intros Hne. rewrite counter_total_update. simpl. unfold int_or.
  destruct (all_genres books) as [|g r]; [congruence|].
  destruct (Z.eqb_spec (Z.of_nat (length (g :: r))) 0) as [E|_]; [simpl in E; lia|reflexivity].
Qed.

(** The fields both files compute, whatever summary goes with them. *)
Lemma frequency_profile_fields (read_books : list Book) (sm : json) :
  read_books <> [] ->
  let gc := counter_update [] (all_genres read_books) in
  let ac := counter_update [] (all_authors read_books) in
  let tc := counter_update [] (all_themes read_books) in
  frequency_profile read_books
    (mkTasteProfile
       (JObj (foldl (fun d gc0 => dict_set (fst gc0)
                       (weight_of (int_or (counter_total gc) 1) (snd gc0)) d)
                    [] (most_common 5 gc)))
       (counts_dict (most_common 5 ac))
       (counts_dict (most_common 5 tc))
       (JObj [])
       (JStr "mixed")
       (JNum (PFloat (Qred (inject_Z (Z.of_nat (length gc)) /
                            inject_Z (Z.of_nat (length read_books))))))
       sm).
Proof.
  intros Hne gc ac tc.
  assert (Hgc : counts gc (all_genres read_books)) by apply (counts_update _ [] []), counts_nil.
  assert (Hac : counts ac (all_authors read_books)) by apply (counts_update _ [] []), counts_nil.
  assert (Htc : counts tc (all_themes read_books)) by apply (counts_update _ [] []), counts_nil.
  pose proof (most_common_top 5 gc _ Hgc) as Tg.
  pose proof (most_common_top 5 ac _ Hac) as Ta.
  pose proof (most_common_top 5 tc _ Htc) as Tt.
  exists (most_common 5 gc), (most_common 5 ac), (most_common 5 tc).
  eexists. split; [exact Tg|]. split; [exact Ta|]. split; [exact Tt|].
  cbn [favorite_genres favorite_authors common_themes diversity_score reading_level].
  split; [reflexivity|]. split.
  - rewrite (foldl_dict_set _ _ [] (proj1 Tg)) by (intros k _ []). cbn [app].
    destruct (decide (all_genres read_books = [])) as [E|E].
    + subst gc. rewrite E. constructor.
    + unfold gc. rewrite (all_genres_total _ E). apply weighted_by_map.
  - split; [apply counts_dict_counted, Ta|].
    split; [apply counts_dict_counted, Tt|].
    split; [|reflexivity].
    eexists. split; [reflexivity|]. rewrite Qred_correct.
    unfold distinct. now rewrite (counts_length gc _ Hgc).
Qed.

(** C4. For non-empty [read_books] the fallback of either file returns a
    profile whose favorite genres are the five most frequent genres, each
    with its count divided by the total number of genre occurrences, whose
    favorite authors and common themes are the five most frequent with
    their counts, whose diversity score is the number of distinct genres
    divided by the number of books, and whose reading level is "mixed".
    For the three books with genres (Dystopian, Political Fiction),
    (Dystopian), (Dystopian): weights 3/4 and 1/4, diversity 2/3. *)
Theorem C4_basic_profile_frequency_counts :
  (forall read_books, read_books <> [] ->
     (exists p, App2._create_basic_profile read_books = Ok p /\
                frequency_profile read_books p) /\
     (exists p, Remd._create_basic_profile read_books = Ok p /\
                frequency_profile read_books p)) /\
  (exists p, App2._create_basic_profile three_books = Ok p /\
     favorite_genres p =
       JObj [("Dystopian", JNum (PFloat (3 # 4)));
             ("Political Fiction", JNum (PFloat (1 # 4)))] /\
     diversity_score p = JNum (PFloat (2 # 3)) /\
     reading_level p = JStr "mixed") /\
  (exists p, Remd._create_basic_profile three_books = Ok p /\
     favorite_genres p =
       JObj [("Dystopian", JNum (PFloat (3 # 4)));
             ("Political Fiction", JNum (PFloat (1 # 4)))] /\
     diversity_score p = JNum (PFloat (2 # 3)) /\
     reading_level p = JStr "mixed").
Proof.
  split; [|split; (eexists; split; [vm_compute; reflexivity|repeat split])].
  intros read_books Hne.
  pose proof (total_genres_nonzero read_books) as Ht.
  rewrite count_books_counters in Ht. cbn [fst] in Ht.
  split.
  - eexists. split.
    + unfold App2._create_basic_profile. rewrite count_books_counters.
      rewrite (genre_weights_ok _ _ Ht). cbn [rbind].
      destruct read_books as [|b r] eqn:Er; [congruence|]. rewrite <- Er.
      rewrite py_truediv_ok by (rewrite Er; simpl; lia). reflexivity.
    + apply frequency_profile_fields, Hne.
  - eexists. split.
    + unfold Remd._create_basic_profile. rewrite count_books_counters.
      rewrite (genre_weights_ok _ _ Ht). cbn [rbind].
      rewrite py_truediv_ok by (destruct read_books; [congruence|simpl; lia]).
      reflexivity.
    + apply frequency_profile_fields, Hne.
Qed.

Lemma C4_basic_profile_frequency_counts_witness :
  three_books <> [] /\
  exists p, App2._create_basic_profile three_books = Ok p /\
            frequency_profile three_books p.
Proof.
  split; [discriminate|].
  refine (proj1 (proj1 C4_basic_profile_frequency_counts three_books _)).
  discriminate.
Defined.

(** ** The fuel of the decoder

    Every scanner consumes at least one character of what it accepts, so
    the fuel [json_loads] starts with is never the reason for a failure:
    with any larger amount the outcome is the same. *)

Ltac break_hyp H :=
  repeat match type of H with
         | context [match ?x with _ => _ end] => destruct x eqn:?; try discriminate H
         end.

Ltac finish_len :=
  repeat match goal with
         | H : context [if ?b then _ else _] |- _ => destruct b; try discriminate H
         end;
  repeat match goal with
         | H : Some _ = Some _ |- _ => injection H as ? ?; subst
         end;
  simpl in *; try lia.

Lemma skip_ws_length (s : string) : (String.length (skip_ws s) <= String.length s)%nat.
Proof.
  induction s as [|c s IH]; simpl; [lia|]. destruct (is_ws c); simpl; lia.
Qed.

Lemma scan_string_shorter (n : nat) :
  forall s t rest, (String.length s <= n)%nat ->
    scan_string s = Some (t, rest) -> (String.length rest < String.length s)%nat.
Proof.
  induction n as [|n IH]; intros s t rest Hn H.
  - destruct s; [discriminate|simpl in Hn; lia].
  - destruct s as [|c r]; [discriminate|].
    cbn [scan_string] in H.
    break_hyp H.
    all: try (injection H as <- <-).
    all: subst; cbn [String.length] in *.
    all: repeat match goal with
         | E : scan_string ?x = Some (_, ?y) |- _ =>
             apply IH in E; [|cbn [String.length] in *; lia]
         end.
    all: cbn [String.length] in *; lia.
Qed.

Lemma take_digits_length (s : string) :
  (String.length (snd (take_digits s)) <= String.length s)%nat /\
  (fst (take_digits s) <> [] -> String.length (snd (take_digits s)) < String.length s)%nat.
Proof.
  induction s as [|c s [IH1 IH2]]; simpl; [split; [lia|congruence]|].
  destruct (digit_val c); simpl; [|split; [lia|congruence]].
  destruct (take_digits s) as [ds rest]; simpl in *. split; [lia|intros _; lia].
Qed.

Lemma scan_frac_length (s : string) :
  (String.length (snd (scan_frac s)) <= String.length s)%nat.
Proof.
  unfold scan_frac. destruct s as [|c r]; simpl; [lia|].
  destruct (is_chr c 46); simpl; [|lia].
  pose proof (take_digits_length r) as [H _].
  destruct (take_digits r) as [[|d ds] rest]; simpl in *; lia.
Qed.

Lemma scan_exp_length (s : string) :
  (String.length (snd (scan_exp s)) <= String.length s)%nat.
Proof.
  unfold scan_exp. destruct s as [|c r]; simpl; [lia|].
  destruct (is_chr c 101 || is_chr c 69); simpl; [|lia].
  destruct r as [|sg r1]; simpl; [lia|].
  destruct (is_chr sg 45); [|destruct (is_chr sg 43)].
  - pose proof (take_digits_length r1) as [H _].
    destruct (take_digits r1) as [[|d ds] rest]; simpl in *; lia.
  - pose proof (take_digits_length r1) as [H _].
    destruct (take_digits r1) as [[|d ds] rest]; simpl in *; lia.
  - pose proof (take_digits_length (String sg r1)) as [H _].
    destruct (take_digits (String sg r1)) as [[|d ds] rest]; simpl in *; lia.
Qed.

Lemma scan_number_shorter (s : string) (n : result pynum) (rest : string) :
  scan_number s = Some (n, rest) -> (String.length rest < String.length s)%nat.
Proof.
  unfold scan_number. intros H.
  assert (forall s1 ids s2,
            match s1 with
            | String c r =>
                if is_chr c 48 then Some ([0], r)
                else match take_digits s1 with
                     | ([], _) => None
                     | (ds, rest) => Some (ds, rest)
                     end
            | EmptyString => None
            end = Some (ids, s2) -> (String.length s2 < String.length s1)%nat) as Hint.
  { intros s1 ids s2 E. destruct s1 as [|c r]; [discriminate|].
    destruct (is_chr c 48); [injection E as <- <-; simpl; lia|].
    pose proof (take_digits_length (String c r)) as [_ Hd].
    destruct (take_digits (String c r)) as [[|d ds] rest']; [discriminate|].
    injection E as <- <-. apply Hd. discriminate. }
  destruct (match s with
            | String c r => if is_chr c 45 then (true, r) else (false, s)
            | EmptyString => (false, s)
            end) as [neg s1] eqn:Es.
  assert (String.length s1 <= String.length s)%nat as Hs1.
  { destruct s as [|c r]; [injection Es as <- <-; lia|].
    destruct (is_chr c 45); injection Es as <- <-; simpl; lia. }
  match type of H with
  | match ?x with _ => _ end = _ => destruct x as [[ids s2]|] eqn:Ei; [|discriminate]
  end.
  apply Hint in Ei.
  pose proof (scan_frac_length s2) as Hf. destruct (scan_frac s2) as [frac s3].
  pose proof (scan_exp_length s3) as He. destruct (scan_exp s3) as [ex s4].
  simpl in *.
  destruct frac, ex; injection H as <- <-; lia.
Qed.

Lemma strip_prefix_length (p s rest : string) :
  strip_prefix p s = Some rest ->
  String.length s = (String.length p + String.length rest)%nat.
Proof.
  revert s. induction p as [|a p IH]; intros s H; simpl in *.
  - now injection H as ->.
  - destruct s as [|b s]; [discriminate|].
    destruct (Ascii.eqb a b); [|discriminate]. simpl. now rewrite (IH s H).
Qed.

Ltac skip_ws_bounds :=
  repeat match goal with
         | H : context [String.length (skip_ws ?x)] |- _ =>
             lazymatch goal with
             | _ : (String.length (skip_ws x) <= String.length x)%nat |- _ => fail
             | _ => pose proof (skip_ws_length x)
             end
         end.

Ltac len_facts IHv IHi IHm :=
  repeat match goal with
         | H : skip_ws ?x = _ |- _ =>
             apply (f_equal String.length) in H; pose proof (skip_ws_length x)
         | H : scan_string ?x = Some (_, _) |- _ =>
             apply (scan_string_shorter (String.length x)) in H; [|lia]
         | H : scan_number ?x = Some (_, _) |- _ => apply scan_number_shorter in H
         | H : strip_prefix _ _ = Some _ |- _ => apply strip_prefix_length in H
         | H : parse_value _ _ = Some _ |- _ => apply IHv in H; destruct H as [H _]
         | H : parse_items _ _ _ = Some _ |- _ => apply IHi in H; destruct H as [H _]
         | H : parse_members _ _ _ = Some _ |- _ => apply IHm in H; destruct H as [H _]
         end;
  skip_ws_bounds;
  cbn [String.length fst snd] in *; lia.

Ltac mono_facts IHv IHi IHm f' :=
  repeat match goal with
         | H : parse_value _ _ = Some _ |- _ =>
             apply IHv in H; destruct H as [_ H]; specialize (H f' ltac:(lia))
         | H : parse_items _ _ _ = Some _ |- _ =>
             apply IHi in H; destruct H as [_ H]; specialize (H f' ltac:(lia))
         | H : parse_members _ _ _ = Some _ |- _ =>
             apply IHm in H; destruct H as [_ H]; specialize (H f' ltac:(lia))
         end.

Ltac rewrite_scrutinees :=
  repeat match goal with
         | E : ?x = _ |- context [match ?x with _ => _ end] => rewrite E
         | E : ?x = _ |- context [if ?x then _ else _] => rewrite E
         end.

Lemma parse_fuel_up (f : nat) :
  (forall s r, parse_value f s = Some r ->
     (String.length (snd r) < String.length s)%nat /\
     forall f', (f <= f')%nat -> parse_value f' s = Some r) /\
  (forall s acc r, parse_items f s acc = Some r ->
     (String.length (snd r) < String.length s)%nat /\
     forall f', (f <= f')%nat -> parse_items f' s acc = Some r) /\
  (forall s acc r, parse_members f s acc = Some r ->
     (String.length (snd r) < String.length s)%nat /\
     forall f', (f <= f')%nat -> parse_members f' s acc = Some r).
Proof.
  induction f as [|f (IHv & IHi & IHm)]; [repeat split; discriminate|].
  split; [|split].
  - intros s r H. cbn [parse_value] in H. break_hyp H.
    all: try (injection H as <-).
    all: split; [len_facts IHv IHi IHm|].
    all: intros [|f'] Hf; [lia|]; mono_facts IHv IHi IHm f'.
    all: cbn [parse_value]; rewrite_scrutinees; try reflexivity; try assumption.
  - intros s acc r H. cbn [parse_items] in H. break_hyp H.
    all: try (injection H as <-).
    all: split; [len_facts IHv IHi IHm|].
    all: intros [|f'] Hf; [lia|]; mono_facts IHv IHi IHm f'.
    all: cbn [parse_items]; rewrite_scrutinees; try reflexivity; try assumption.
  - intros s acc r H. cbn [parse_members] in H. break_hyp H.
    all: try (injection H as <-).
    all: split; [len_facts IHv IHi IHm|].
    all: intros [|f'] Hf; [lia|]; mono_facts IHv IHi IHm f'.
    all: cbn [parse_members]; rewrite_scrutinees; try reflexivity; try assumption.
Qed.

Ltac mark H := match type of H with ?T => change (id T) in H end.

Ltac gather_lengths :=
  repeat match goal with
         | H : skip_ws ?x = _ |- _ =>
             pose proof (skip_ws_length x);
             pose proof (f_equal String.length H); mark H
         | H : scan_string ?x = Some (_, _) |- _ =>
             pose proof (scan_string_shorter _ _ _ _ (le_n _) H); mark H
         | H : scan_number ?x = Some (_, _) |- _ =>
             pose proof (scan_number_shorter _ _ _ H); mark H
         | H : strip_prefix _ _ = Some _ |- _ =>
             pose proof (strip_prefix_length _ _ _ H); mark H
         | H : parse_value ?f _ = Some _ |- _ =>
             pose proof (proj1 (proj1 (parse_fuel_up f) _ _ H)); mark H
         | H : parse_items ?f _ _ = Some _ |- _ =>
             pose proof (proj1 (proj1 (proj2 (parse_fuel_up f)) _ _ _ H)); mark H
         | H : parse_members ?f _ _ = Some _ |- _ =>
             pose proof (proj1 (proj2 (proj2 (parse_fuel_up f)) _ _ _ H)); mark H
         end;
  unfold id in *; skip_ws_bounds; cbn [String.length fst snd] in *.

Ltac lower IHv IHi IHm f :=
  repeat match goal with
         | H : parse_value ?g _ = Some _ |- _ =>
             lazymatch g with f => fail | _ => apply (fun H => IHv _ _ H f) in H; [|cbn [String.length]; lia] end
         | H : parse_items ?g _ _ = Some _ |- _ =>
             lazymatch g with f => fail | _ => apply (fun H => IHi _ _ _ H f) in H; [|cbn [String.length]; lia] end
         | H : parse_members ?g _ _ = Some _ |- _ =>
             lazymatch g with f => fail | _ => apply (fun H => IHm _ _ _ H f) in H; [|cbn [String.length]; lia] end
         end.

Lemma parse_fuel_down (f' : nat) :
  (forall s r, parse_value f' s = Some r ->
     forall f, (2 * String.length s + 1 <= f)%nat -> parse_value f s = Some r) /\
  (forall s acc r, parse_items f' s acc = Some r ->
     forall f, (2 * String.length s + 2 <= f)%nat -> parse_items f s acc = Some r) /\
  (forall s acc r, parse_members f' s acc = Some r ->
     forall f, (2 * String.length s + 2 <= f)%nat -> parse_members f s acc = Some r).
Proof.
  induction f' as [|f' (IHv & IHi & IHm)]; [repeat split; discriminate|].
  split; [|split].
  - intros s r H [|f] Hf; [lia|]. cbn [parse_value] in H. break_hyp H.
    all: try (injection H as <-).
    all: gather_lengths; lower IHv IHi IHm f.
    all: cbn [parse_value]; rewrite_scrutinees; try reflexivity; try assumption.
  - intros s acc r H [|f] Hf; [lia|]. cbn [parse_items] in H. break_hyp H.
    all: try (injection H as <-).
    all: gather_lengths; lower IHv IHi IHm f.
    all: cbn [parse_items]; rewrite_scrutinees; try reflexivity; try assumption.
  - intros s acc r H [|f] Hf; [lia|]. cbn [parse_members] in H. break_hyp H.
    all: try (injection H as <-).
    all: gather_lengths; lower IHv IHi IHm f.
    all: cbn [parse_members]; rewrite_scrutinees; try reflexivity; try assumption.
Qed.

(** More fuel than [json_loads] gives never changes the outcome. *)
Lemma json_loads_fuel (s : string) (f : nat) :
  (2 * String.length s + 2 <= f)%nat ->
  parse_value f (skip_ws s) = parse_value (2 * String.length s + 2) (skip_ws s).
Proof.
  intros Hf. pose proof (skip_ws_length s) as Hl.
  destruct (parse_value (2 * String.length s + 2) (skip_ws s)) as [r|] eqn:E.
  - now apply (proj1 (parse_fuel_up _) _ _ E).
  - destruct (parse_value f (skip_ws s)) as [r|] eqn:E'; [|reflexivity].
    apply (fun H => proj1 (parse_fuel_down f) _ _ H (2 * String.length s + 2)%nat) in E';
      [congruence|lia].
Qed.

(** ** Extraction of JSON from the reply *)

Lemma append_cons (x : ascii) (a b : string) : String x a +:+ b = String x (a +:+ b).
Proof. reflexivity. Qed.

Lemma append_empty_l (b : string) : EmptyString +:+ b = b.
Proof. reflexivity. Qed.

Lemma str_len_append (a b : string) : str_len (a +:+ b) = str_len a + str_len b.
Proof.
  unfold str_len. induction a as [|c a IH]; rewrite ?append_cons, ?append_empty_l;
    simpl; [reflexivity|]. lia.
Qed.

Lemma str_len_nonneg (s : string) : 0 <= str_len s.
Proof. unfold str_len. lia. Qed.

Lemma str_append_assoc (a b c : string) : (a +:+ b) +:+ c = a +:+ (b +:+ c).
Proof.
  induction a as [|x a IH]; rewrite ?append_cons, ?append_empty_l; [reflexivity|].
  now rewrite IH.
Qed.

Lemma str_append_nil (a : string) : a +:+ EmptyString = a.
Proof.
  induction a as [|x a IH]; rewrite ?append_cons, ?append_empty_l; [reflexivity|].
  now rewrite IH.
Qed.

Lemma find_from_notin (c : ascii) (s : string) (i : Z) :
  ~ occurs c s -> find_from c s i = -1.
Proof.
  unfold occurs. revert i. induction s as [|a s IH]; intros i H; simpl in *; [reflexivity|].
  destruct (Ascii.eqb_spec a c) as [->|Hne].
  - exfalso. apply H. now left.
  - apply IH. intros Hin. apply H. now right.
Qed.

Lemma find_from_first (c : ascii) (pre rest : string) (i : Z) :
  ~ occurs c pre -> find_from c (pre +:+ String c rest) i = i + str_len pre.
Proof.
  unfold occurs, str_len. revert i.
  induction pre as [|a pre IH]; intros i H; simpl in *.
  - rewrite Ascii.eqb_refl. lia.
  - destruct (Ascii.eqb_spec a c) as [->|Hne].
    + exfalso. apply H. now left.
    + rewrite IH by (intros Hin; apply H; now right). lia.
Qed.

Lemma find_from_inv (c : ascii) (s : string) (i : Z) :
  (find_from c s i = -1 /\ ~ occurs c s) \/
  (exists pre rest, s = pre +:+ String c rest /\ ~ occurs c pre /\
                    find_from c s i = i + str_len pre).
Proof.
  unfold occurs, str_len. revert i. induction s as [|a s IH]; intros i; simpl.
  - left. split; [reflexivity|intros []].
  - destruct (Ascii.eqb_spec a c) as [->|Hne].
    + right. exists EmptyString, s. simpl. split; [reflexivity|]. split; [intros []|lia].
    + destruct (IH (i + 1)) as [[Hf Hn]|(pre & rest & -> & Hn & Hf)].
      * left. split; [exact Hf|]. intros [Heq|Hin]; [congruence|contradiction].
      * right. exists (String a pre), rest. simpl. split; [reflexivity|].
        split; [intros [Heq|Hin]; [congruence|contradiction]|]. rewrite Hf. lia.
Qed.

Lemma rfind_from_notin (c : ascii) (s : string) (i last : Z) :
  ~ occurs c s -> rfind_from c s i last = last.
Proof.
  unfold occurs. revert i last.
  induction s as [|a s IH]; intros i last H; simpl in *; [reflexivity|].
  destruct (Ascii.eqb_spec a c) as [->|Hne].
  - exfalso. apply H. now left.
  - apply IH. intros Hin. apply H. now right.
Qed.

Lemma rfind_from_last (c : ascii) (s1 post : string) (i last : Z) :
  ~ occurs c post -> rfind_from c (s1 +:+ String c post) i last = i + str_len s1.
Proof.
  intros H. unfold str_len. revert i last.
  induction s1 as [|a s1 IH]; intros i last; simpl.
  - rewrite Ascii.eqb_refl, rfind_from_notin by exact H. lia.
  - rewrite IH. lia.
Qed.

Lemma rfind_from_inv (c : ascii) (s : string) (i last : Z) :
  (rfind_from c s i last = last /\ ~ occurs c s) \/
  (exists s1 post, s = s1 +:+ String c post /\ ~ occurs c post /\
                   rfind_from c s i last = i + str_len s1).
Proof.
  unfold str_len. revert i last. induction s as [|a s IH]; intros i last; simpl.
  - left. split; [reflexivity|intros []].
  - destruct (IH (i + 1) (if Ascii.eqb a c then i else last))
      as [[Hf Hn]|(s1 & post & -> & Hn & Hf)].
    + destruct (Ascii.eqb_spec a c) as [->|Hne].
      * right. exists EmptyString, s. simpl. split; [reflexivity|]. split; [exact Hn|].
        rewrite Hf. lia.
      * left. split; [exact Hf|]. unfold occurs in *. simpl.
        intros [Heq|Hin]; [congruence|contradiction].
    + right. exists (String a s1), post. simpl. split; [reflexivity|].
      split; [exact Hn|]. rewrite Hf. lia.
Qed.

Lemma substring_zero (n : nat) (s : string) : substring n 0 s = EmptyString.
Proof.
  revert n. induction s as [|a s IH]; intros [|n]; simpl; try reflexivity. apply IH.
Qed.

Lemma substring_prefix (m post : string) :
  substring 0 (String.length m) (m +:+ post) = m.
Proof.
  induction m as [|a m IH]; rewrite ?append_cons, ?append_empty_l.
  - apply substring_zero.
  - cbn [String.length substring]. now rewrite IH.
Qed.

Lemma substring_middle (pre m post : string) :
  substring (String.length pre) (String.length m) (pre +:+ (m +:+ post)) = m.
Proof.
  induction pre as [|a pre IH]; rewrite ?append_cons, ?append_empty_l.
  - apply substring_prefix.
  - cbn [String.length substring]. exact IH.
Qed.

Lemma slice_bound_in_range (len i : Z) : 0 <= i <= len -> slice_bound len i = i.
Proof.
  intros H. unfold slice_bound. destruct (Z.ltb_spec i 0); lia.
Qed.

Lemma str_slice_middle (pre m post : string) :
  str_slice (pre +:+ (m +:+ post)) (str_len pre) (str_len pre + str_len m) = m.
Proof.
  unfold str_slice.
  pose proof (str_len_nonneg pre). pose proof (str_len_nonneg m).
  pose proof (str_len_nonneg post).
  rewrite !slice_bound_in_range by (rewrite !str_len_append; lia).
  replace (str_len pre + str_len m - str_len pre) with (str_len m) by lia.
  unfold str_len. rewrite !Nat2Z.id. apply substring_middle.
Qed.

Lemma str_slice_empty (s : string) (a b : Z) :
  slice_bound (str_len s) b <= slice_bound (str_len s) a -> str_slice s a b = EmptyString.
Proof.
  intros H. unfold str_slice.
  replace (Z.to_nat (slice_bound (str_len s) b - slice_bound (str_len s) a)) with 0%nat by lia.
  apply substring_zero.
Qed.

Lemma brackets_differ (sh : shape) : opening sh <> closing sh.
Proof. destruct sh; discriminate. Qed.

(** Where the two searches land on a text with a bracket pair. *)
Lemma bracketed_indices (sh : shape) (content pre mid post : string) :
  bracketed sh content pre mid post ->
  str_find content (opening sh) = str_len pre /\
  str_rfind content (closing sh) + 1 = str_len pre + str_len (String (opening sh) (mid +:+ String (closing sh) EmptyString)) /\
  str_slice content (str_len pre)
    (str_len pre + str_len (String (opening sh) (mid +:+ String (closing sh) EmptyString))) =
    String (opening sh) (mid +:+ String (closing sh) EmptyString).
Proof.
  intros (-> & Hpre & Hpost). split; [|split].
  - unfold str_find. now rewrite find_from_first.
  - unfold str_rfind.
    assert (pre +:+ String (opening sh) (mid +:+ String (closing sh) post) =
            (pre +:+ String (opening sh) mid) +:+ String (closing sh) post) as ->
      by (rewrite str_append_assoc; reflexivity).
    rewrite rfind_from_last by exact Hpost.
    rewrite str_len_append.
    change (String (opening sh) mid) with (String (opening sh) EmptyString +:+ mid).
    change (String (opening sh) (mid +:+ String (closing sh) EmptyString))
      with (String (opening sh) EmptyString +:+ (mid +:+ String (closing sh) EmptyString)).
    rewrite !str_len_append. unfold str_len. simpl. lia.
  - assert (pre +:+ String (opening sh) (mid +:+ String (closing sh) post) =
            pre +:+ (String (opening sh) (mid +:+ String (closing sh) EmptyString) +:+ post)) as ->.
    { rewrite append_cons, str_append_assoc. reflexivity. }
    apply str_slice_middle.
Qed.

(** Both files parse, of a text with a bracket pair, what lies from the
    first opening bracket through the last closing bracket. *)
Lemma extract_bracketed (sh : shape) (content pre mid post : string) :
  bracketed sh content pre mid post ->
  App2.extract_json sh content =
    json_loads (String (opening sh) (mid +:+ String (closing sh) EmptyString)) /\
  Remd.extract_json sh content =
    json_loads (String (opening sh) (mid +:+ String (closing sh) EmptyString)).
Proof.
  intros H. destruct (bracketed_indices sh content pre mid post H) as (Hf & Hr & Hs).
  unfold App2.extract_json, Remd.extract_json. rewrite Hf, Hr, Hs.
  split; [|reflexivity].
  pose proof (str_len_nonneg pre).
  assert (0 < str_len (String (opening sh) (mid +:+ String (closing sh) EmptyString)))
    by (unfold str_len; simpl; lia).
  destruct (Z.eqb_spec (str_len pre) (-1)); [lia|].
  destruct (Z.gtb_spec (str_len pre + str_len (String (opening sh) (mid +:+ String (closing sh) EmptyString)))
              (str_len pre)); [reflexivity|lia].
Qed.

Lemma append_split (pre x s1 y : string) :
  pre +:+ x = s1 +:+ y ->
  (String.length pre <= String.length s1)%nat ->
  exists m, s1 = pre +:+ m /\ x = m +:+ y.
Proof.
  revert s1. induction pre as [|a pre IH]; intros s1 Heq Hlen.
  - exists s1. split; [reflexivity|exact Heq].
  - destruct s1 as [|b s1]; [simpl in Hlen; lia|].
    rewrite !append_cons in Heq. injection Heq as -> Heq.
    destruct (IH s1 Heq) as (m & -> & ->); [simpl in Hlen; lia|].
    exists m. split; reflexivity.
Qed.

(** A closing bracket at or after the position of the first opening
    bracket makes a bracket pair. *)
Lemma pair_of_indices (sh : shape) (pre rest s1 post : string) :
  pre +:+ String (opening sh) rest = s1 +:+ String (closing sh) post ->
  str_len pre < str_len s1 + 1 ->
  exists mid, pre +:+ String (opening sh) rest =
              pre +:+ String (opening sh) (mid +:+ String (closing sh) post).
Proof.
  intros Heq Hlen.
  destruct (append_split pre _ s1 _ Heq) as (m & -> & Hm);
    [unfold str_len in Hlen; lia|].
  destruct m as [|a m].
  - rewrite append_empty_l in Hm. injection Hm as Hm _.
    now destruct (brackets_differ sh).
  - rewrite append_cons in Hm. injection Hm as <- ->. now exists m.
Qed.

Lemma App2_extract_no_pair (sh : shape) (content : string) :
  no_bracket_pair sh content ->
  App2.extract_json sh content = json_loads content.
Proof.
  intros Hno. unfold App2.extract_json, str_find, str_rfind.
  destruct (find_from_inv (opening sh) content 0) as [[Hf _]|(pre & rest & Hc & _ & Hf)].
  - now rewrite Hf.
  - rewrite Hf.
    destruct (rfind_from_inv (closing sh) content 0 (-1))
      as [[Hr _]|(s1 & post & Hc' & _ & Hr)]; rewrite Hr.
    + pose proof (str_len_nonneg pre).
      destruct (Z.gtb_spec (-1 + 1) (0 + str_len pre)); [lia|].
      now rewrite andb_false_r.
    + destruct (Z.gtb_spec (0 + str_len s1 + 1) (0 + str_len pre)) as [Hgt|_];
        [|now rewrite andb_false_r].
      exfalso. rewrite Hc in Hc'.
      destruct (pair_of_indices sh pre rest s1 post Hc') as [mid Hmid]; [lia|].
      apply (Hno pre mid post). now rewrite Hc.
Qed.

Lemma json_loads_closing (sh : shape) :
  json_loads EmptyString = Raise JSONDecodeError /\
  json_loads (String (closing sh) EmptyString) = Raise JSONDecodeError.
Proof. destruct sh; split; reflexivity. Qed.

Lemma slice_bound_mono (len a b : Z) :
  0 <= a -> a <= b -> slice_bound len a <= slice_bound len b.
Proof.
  intros Ha Hab. unfold slice_bound.
  destruct (Z.ltb_spec a 0), (Z.ltb_spec b 0); lia.
Qed.

Lemma slice_bound_minus_one (len : Z) :
  0 <= len -> slice_bound len (-1) = Z.max 0 (len - 1).
Proof.
  intros H. unfold slice_bound. destruct (Z.ltb_spec (-1) 0); lia.
Qed.

Lemma Remd_extract_no_pair (sh : shape) (content : string) :
  no_bracket_pair sh content ->
  Remd.extract_json sh content = Raise JSONDecodeError.
Proof.
  intros Hno. destruct (json_loads_closing sh) as [Hempty Hclose].
  pose proof (str_len_nonneg content) as Hlen.
  unfold Remd.extract_json, str_find, str_rfind.
  destruct (find_from_inv (opening sh) content 0) as [[Hf _]|(pre & rest & Hc & _ & Hf)];
    rewrite Hf;
    (destruct (rfind_from_inv (closing sh) content 0 (-1))
       as [[Hr _]|(s1 & post & Hc' & _ & Hr)]; rewrite Hr).
  - rewrite str_slice_empty; [exact Hempty|].
    rewrite slice_bound_minus_one by exact Hlen.
    rewrite slice_bound_in_range by lia. lia.
  - pose proof (str_len_nonneg s1) as Hs1. pose proof (str_len_nonneg post) as Hpost.
    assert (str_len content = str_len s1 + 1 + str_len post) as Hcl.
    { rewrite Hc', str_len_append.
      change (String (closing sh) post) with (String (closing sh) EmptyString +:+ post).
      rewrite str_len_append. unfold str_len at 2. simpl. lia. }
    destruct post as [|p post].
    + unfold str_slice.
      rewrite slice_bound_minus_one by exact Hlen.
      rewrite slice_bound_in_range by (unfold str_len in *; simpl in *; lia).
      replace (Z.max 0 (str_len content - 1)) with (str_len s1)
        by (unfold str_len in *; simpl in *; lia).
      replace (0 + str_len s1 + 1 - str_len s1) with 1 by lia.
      rewrite Hc'. unfold str_len. rewrite Nat2Z.id.
      change (Z.to_nat 1) with (String.length (String (closing sh) EmptyString)).
      rewrite <- (str_append_nil (String (closing sh) EmptyString)) at 2.
      rewrite substring_middle. exact Hclose.
    + rewrite str_slice_empty; [exact Hempty|].
      rewrite slice_bound_minus_one by exact Hlen.
      assert (1 <= str_len (String p post)) by (unfold str_len; simpl; lia).
      rewrite slice_bound_in_range by lia. lia.
  - rewrite str_slice_empty; [exact Hempty|].
    pose proof (str_len_nonneg pre).
    assert (str_len pre <= str_len content)
      by (rewrite Hc, str_len_append; pose proof (str_len_nonneg (String (opening sh) rest)); lia).
    rewrite !slice_bound_in_range by lia. lia.
  - destruct (Z.lt_ge_cases (0 + str_len pre) (0 + str_len s1 + 1)) as [Hlt|Hge].
    + exfalso. rewrite Hc in Hc'.
      destruct (pair_of_indices sh pre rest s1 post Hc') as [mid Hmid]; [lia|].
      apply (Hno pre mid post). now rewrite Hc.
    + rewrite str_slice_empty; [exact Hempty|].
      apply slice_bound_mono; [|exact Hge].
      pose proof (str_len_nonneg s1). lia.
Qed.

Lemma occurs_cons (c x : ascii) (s : string) :
  occurs c (String x s) <-> x = c \/ occurs c s.
Proof. reflexivity. Qed.

Lemma occurs_append (c : ascii) (a b : string) :
  occurs c (a +:+ b) <-> occurs c a \/ occurs c b.
Proof.
  induction a as [|x a IH]; rewrite ?append_cons, ?append_empty_l.
  - unfold occurs at 2. simpl. tauto.
  - rewrite !occurs_cons, IH. tauto.
Qed.

Lemma no_pair_without_opening (sh : shape) (content : string) :
  ~ occurs (opening sh) content -> no_bracket_pair sh content.
Proof.
  intros H pre mid post ->. apply H.
  apply occurs_append. right. apply occurs_cons. now left.
Qed.

(** Every text either holds a bracket pair or holds none. *)
Lemma bracketed_or_not (sh : shape) (content : string) :
  (exists pre mid post, bracketed sh content pre mid post) \/
  no_bracket_pair sh content.
Proof.
  destruct (find_from_inv (opening sh) content 0) as [[_ Hn]|(pre & rest & Hc & Hpre & _)].
  - right. now apply no_pair_without_opening.
  - destruct (rfind_from_inv (closing sh) rest 0 (-1))
      as [[_ Hn]|(s1 & post & -> & Hpost & _)].
    + right. intros pre' mid' post' Hc'. rewrite Hc in Hc'.
      assert (String.length pre <= String.length pre')%nat as Hle.
      { destruct (Nat.le_gt_cases (String.length pre) (String.length pre')) as [|Hgt];
          [assumption|exfalso].
        symmetry in Hc'.
        destruct (append_split pre' _ pre _ Hc') as (m & -> & Hm); [lia|].
        destruct m as [|a m].
        - rewrite str_append_nil in Hgt. lia.
        - rewrite append_cons in Hm. injection Hm as <- _.
          apply Hpre. apply occurs_append. right. apply occurs_cons. now left. }
      destruct (append_split pre _ pre' _ Hc' Hle) as (m & _ & Hm).
      assert (occurs (closing sh) (String (opening sh) rest)) as Hocc.
      { rewrite Hm. apply occurs_append. right. apply occurs_cons. right.
        apply occurs_append. right. apply occurs_cons. now left. }
      apply occurs_cons in Hocc as [Heq|Hocc]; [|contradiction].
      now destruct (brackets_differ sh).
    + left. exists pre, s1, post. now repeat split.
Qed.

(** C1, as the specification has it, fails in [src/remd.py]: a text
    without a brace is never parsed as a whole there.  On the reply 123,
    which holds no bracket pair and is valid JSON, the extraction of
    [remd.py] fails and its profile builder returns the fallback profile,
    while [app2.py] parses the whole text (and then raises on the number it
    gets).  And it fails in [src/app2.py] for a failure of [json.loads]
    that is not a decoding error: on a reply that is an integer literal of
    4301 digits [json.loads] raises [ValueError], which the [except] clause
    of [app2.py] does not catch, and the profile builder raises it. *)
Lemma C1_remd_has_no_whole_text_parse :
  no_bracket_pair ObjectShape "123" /\
  json_loads "123" = Ok (JNum (PInt 123)) /\
  Remd.extract_json ObjectShape "123" = Raise JSONDecodeError /\
  Remd.extract_json ObjectShape "123" <> json_loads "123" /\
  App2.extract_json ObjectShape "123" = Ok (JNum (PInt 123)) /\
  fst (Remd.analyze_reading_taste (backend_says "123") some_taste_prompt [book_1984] []) =
    Remd._create_basic_profile [book_1984] /\
  fst (App2.analyze_reading_taste (backend_says "123") some_taste_prompt [book_1984] []) =
    Raise AttributeError /\
  json_loads long_integer = Raise long_integer_error /\
  App2.extract_json ObjectShape long_integer = Raise long_integer_error /\
  App2.analyze_reading_taste (backend_says long_integer) some_taste_prompt [book_1984] [] =
    (Raise long_integer_error, ["analyze"]) /\
  App2.score_unread_books (backend_says long_integer_array) some_scoring_prompt
      empty_profile abc_books [] = (Raise long_integer_error, ["score"]).
Proof.
  split.
  { apply no_pair_without_opening. unfold occurs. simpl.
    intros [H|[H|[H|[]]]]; discriminate. }
  repeat split; try (vm_compute; reflexivity). discriminate.
Qed.

(** C1, amended.  Every text either holds a bracket pair of the expected
    shape or holds none.  When it holds one, both files parse the substring
    from the first opening bracket through the last closing bracket.  When
    it holds none, [app2.py] parses the entire text, whereas [remd.py]
    makes no second attempt: the slice it parses is empty or a lone closing
    bracket, and decoding fails.  A JSON decoding error of the extraction
    is caught by the enclosing method of either file: the profile builder
    then returns the fallback profile and the scorer the empty list.  Any
    other exception of the extraction is caught likewise in [remd.py] and
    raised to the caller in [app2.py].  The reply that wraps the object
    with key a and value 1 in prose yields that object, the reply "not json
    at all" fails to decode, and an integer literal of 4301 digits makes
    [json.loads] raise [ValueError]. *)
Theorem C1_json_extraction :
  (forall sh content,
     (exists pre mid post, bracketed sh content pre mid post) \/
     no_bracket_pair sh content) /\
  (forall sh content pre mid post,
     bracketed sh content pre mid post ->
     App2.extract_json sh content =
       json_loads (String (opening sh) (mid +:+ String (closing sh) EmptyString)) /\
     Remd.extract_json sh content =
       json_loads (String (opening sh) (mid +:+ String (closing sh) EmptyString))) /\
  (forall sh content,
     no_bracket_pair sh content ->
     App2.extract_json sh content = json_loads content /\
     Remd.extract_json sh content = Raise JSONDecodeError) /\
  (forall be tp (books : list Book) log content e,
     books <> [] ->
     be log (tp books) = Ok content ->
     (App2.extract_json ObjectShape content = Raise e ->
      if is_JSONDecodeError e then
        exists p, App2._create_basic_profile books = Ok p /\
          App2.analyze_reading_taste be tp books log = (Ok p, log ++ [tp books])
      else
        App2.analyze_reading_taste be tp books log = (Raise e, log ++ [tp books])) /\
     (Remd.extract_json ObjectShape content = Raise e ->
      exists p, Remd._create_basic_profile books = Ok p /\
        Remd.analyze_reading_taste be tp books log = (Ok p, log ++ [tp books]))) /\
  (forall be sp profile (books : list Book) log content e,
     books <> [] ->
     be log (sp profile books) = Ok content ->
     (has_dict_fields profile = true ->
      App2.extract_json ArrayShape content = Raise e ->
      App2.score_unread_books be sp profile books log =
        (if is_JSONDecodeError e then Ok [] else Raise e, log ++ [sp profile books])) /\
     (Remd.extract_json ArrayShape content = Raise e ->
      Remd.score_unread_books be sp profile books log =
        (Ok [], log ++ [sp profile books]))) /\
  App2.extract_json ObjectShape wrapped_reply = Ok (JObj [("a", JNum (PInt 1))]) /\
  Remd.extract_json ObjectShape wrapped_reply = Ok (JObj [("a", JNum (PInt 1))]) /\
  App2.extract_json ObjectShape prose_reply = Raise JSONDecodeError /\
  Remd.extract_json ObjectShape prose_reply = Raise JSONDecodeError /\
  App2.extract_json ObjectShape long_integer = Raise long_integer_error /\
  Remd.extract_json ArrayShape long_integer_array = Raise long_integer_error.
Proof.
  split; [exact bracketed_or_not|].
  split; [exact extract_bracketed|].
  split; [intros sh content H; split;
          [now apply App2_extract_no_pair|now apply Remd_extract_no_pair]|].
  split; [|split; [|repeat split; vm_compute; reflexivity]].
  - intros be tp books log content e Hne Hbe. split; intros Hx.
    + rewrite App2_analyze_nonempty by assumption. rewrite Hbe, Hx.
      cbn [rbind try_except].
      destruct (is_JSONDecodeError e); [|reflexivity].
      destruct (App2_basic_profile_ok books) as [p Hp]. exists p.
      split; [exact Hp|]. now rewrite Hp.
    + destruct (Remd_basic_profile_ok books Hne) as [p Hp]. exists p.
      split; [exact Hp|].
      rewrite Remd_analyze_nonempty by assumption. rewrite Hbe, Hx. now rewrite Hp.
  - intros be sp profile books log content e Hne Hbe. split.
    + intros Hd Hx. rewrite App2_score_rank by assumption. now rewrite Hbe, Hx.
    + intros Hx. rewrite Remd_score_rank by assumption. now rewrite Hbe, Hx.
Qed.

Lemma C1_json_extraction_witness :
  bracketed ObjectShape wrapped_reply
    ("Here is the result:" +:+ nl) (quoted "a" +:+ ":1") (nl +:+ "Thanks!") /\
  App2.extract_json ObjectShape wrapped_reply =
    json_loads (String (opening ObjectShape)
                  ((quoted "a" +:+ ":1") +:+ String (closing ObjectShape) EmptyString)) /\
  no_bracket_pair ObjectShape prose_reply /\
  App2.extract_json ObjectShape prose_reply = json_loads prose_reply /\
  Remd.extract_json ObjectShape prose_reply = Raise JSONDecodeError /\
  App2.extract_json ArrayShape long_integer_array = Raise long_integer_error /\
  App2.score_unread_books (backend_says long_integer_array) some_scoring_prompt
      empty_profile abc_books [] =
    (Raise long_integer_error, [] ++ [some_scoring_prompt empty_profile abc_books]) /\
  Remd.score_unread_books (backend_says long_integer_array) some_scoring_prompt
      empty_profile abc_books [] =
    (Ok [], [] ++ [some_scoring_prompt empty_profile abc_books]).
Proof.
  assert (Hb : bracketed ObjectShape wrapped_reply
                 ("Here is the result:" +:+ nl) (quoted "a" +:+ ":1") (nl +:+ "Thanks!")).
  { split; [reflexivity|]. split; unfold occurs; simpl; intuition discriminate. }
  assert (Hn : no_bracket_pair ObjectShape prose_reply).
  { apply no_pair_without_opening. unfold occurs. simpl. intuition discriminate. }
  assert (Ha : App2.extract_json ArrayShape long_integer_array = Raise long_integer_error)
    by (vm_compute; reflexivity).
  assert (Hr : Remd.extract_json ArrayShape long_integer_array = Raise long_integer_error)
    by (vm_compute; reflexivity).
  split; [exact Hb|].
  split; [exact (proj1 (proj1 (proj2 C1_json_extraction) _ _ _ _ _ Hb))|].
  split; [exact Hn|].
  split; [exact (proj1 (proj1 (proj2 (proj2 C1_json_extraction)) _ _ Hn))|].
  split; [exact (proj2 (proj1 (proj2 (proj2 C1_json_extraction)) _ _ Hn))|].
  split; [exact Ha|].
  pose proof (proj1 (proj2 (proj2 (proj2 (proj2 C1_json_extraction))))
                (backend_says long_integer_array) some_scoring_prompt empty_profile
                abc_books [] long_integer_array long_integer_error
                ltac:(discriminate) eq_refl) as [H1 H2].
  split; [exact (H1 eq_refl Ha)|exact (H2 Hr)].
Defined.

(** * Further properties *)

(** ** The shape of what the extraction returns *)

Lemma parse_containers_shape (f : nat) :
  (forall s acc v rest, parse_items f s acc = Some (Ok v, rest) -> exists l, v = JArr l) /\
  (forall s acc v rest, parse_members f s acc = Some (Ok v, rest) -> exists d, v = JObj d).
Proof.
  induction f as [|f [IHi IHm]]; [split; discriminate|]. split.
  - intros s acc v rest H. cbn [parse_items] in H. break_hyp H.
    + injection H as <- _. eauto.
    + now apply IHi in H.
  - intros s acc v rest H. cbn [parse_members] in H. break_hyp H.
    + injection H as <- _. eauto.
    + now apply IHm in H.
Qed.

Lemma parse_value_shape (sh : shape) (f : nat) (s : string) (v : json) (rest : string) :
  parse_value f (String (opening sh) s) = Some (Ok v, rest) -> has_shape sh v.
Proof.
  destruct f as [|f]; [discriminate|]. intros H.
  destruct sh; cbn [parse_value opening] in H;
    change (is_chr "{" 34) with false in H; change (is_chr "{" 123) with true in H;
    change (is_chr "[" 34) with false in H; change (is_chr "[" 123) with false in H;
    change (is_chr "[" 91) with true in H; cbv iota in H.
  - break_hyp H.
    + now injection H as <- _.
    + apply (proj2 (parse_containers_shape f)) in H as [d ->]. exact I.
  - break_hyp H.
    + now injection H as <- _.
    + apply (proj1 (parse_containers_shape f)) in H as [l ->]. exact I.
Qed.

Lemma json_loads_shape (sh : shape) (s : string) (v : json) :
  json_loads (String (opening sh) s) = Ok v -> has_shape sh v.
Proof.
  unfold json_loads.
  assert (skip_ws (String (opening sh) s) = String (opening sh) s) as ->
    by (destruct sh; reflexivity).
  destruct (parse_value _ _) as [[[v'|e] rest]|] eqn:E; try discriminate.
  destruct (skip_ws rest); [|discriminate].
  intros [= <-]. now apply parse_value_shape in E.
Qed.

Lemma Remd_extract_shape (sh : shape) (content : string) (v : json) :
  Remd.extract_json sh content = Ok v -> has_shape sh v.
Proof.
  intros H.
  destruct (bracketed_or_not sh content) as [(pre & mid & post & Hb)|Hn].
  - rewrite (proj2 (extract_bracketed _ _ _ _ _ Hb)) in H.
    now apply json_loads_shape in H.
  - rewrite (Remd_extract_no_pair _ _ Hn) in H. discriminate.
Qed.

Lemma App2_extract_shape (sh : shape) (content : string) (v : json) :
  App2.extract_json sh content = Ok v ->
  has_shape sh v \/ (no_bracket_pair sh content /\ json_loads content = Ok v).
Proof.
  intros H.
  destruct (bracketed_or_not sh content) as [(pre & mid & post & Hb)|Hn].
  - left. rewrite (proj1 (extract_bracketed _ _ _ _ _ Hb)) in H.
    now apply json_loads_shape in H.
  - right. split; [exact Hn|]. now rewrite (App2_extract_no_pair _ _ Hn) in H.
Qed.

(** X1. What [remd.py] extracts has the expected shape: an object when it
    looks for braces, an array when it looks for square brackets.  What
    [app2.py] extracts has the expected shape too, unless the text holds no
    bracket pair and is itself valid JSON, in which case it is the value of
    the whole text. *)
Theorem X1_extracted_value_has_shape :
  (forall sh content v,
     Remd.extract_json sh content = Ok v -> has_shape sh v) /\
  (forall sh content v,
     App2.extract_json sh content = Ok v ->
     has_shape sh v \/ (no_bracket_pair sh content /\ json_loads content = Ok v)).
Proof.
  split; intros sh content v H.
  - exact (Remd_extract_shape sh content v H).
  - exact (App2_extract_shape sh content v H).
Qed.

Lemma X1_extracted_value_has_shape_witness :
  Remd.extract_json ArrayShape abc_reply = Ok (JArr abc_items) /\
  has_shape ArrayShape (JArr abc_items).
Proof.
  assert (H : Remd.extract_json ArrayShape abc_reply = Ok (JArr abc_items))
    by (vm_compute; reflexivity).
  split; [exact H|].
  exact (proj1 X1_extracted_value_has_shape ArrayShape abc_reply (JArr abc_items) H).
Defined.

(** ** What the profile builders raise and return *)

Lemma profile_of_data_obj (d : list (string * json)) :
  profile_of_data (JObj d) = Ok (profile_of_fields d).
Proof. reflexivity. Qed.

Lemma profile_of_data_other (v : json) :
  (forall d, v <> JObj d) -> profile_of_data v = Raise AttributeError.
Proof.
  intros H. destruct v; try reflexivity. now destruct (H d).
Qed.

Lemma has_shape_object (v : json) :
  has_shape ObjectShape v -> exists d, v = JObj d.
Proof. destruct v; simpl; try contradiction. eauto. Qed.

Lemma has_shape_array (v : json) :
  has_shape ArrayShape v -> exists l, v = JArr l.
Proof. destruct v; simpl; try contradiction. eauto. Qed.

Lemma Remd_builder_raises be tp (read_books : list Book) log e log' :
  Remd.analyze_reading_taste be tp read_books log = (Raise e, log') ->
  read_books <> [] /\
  be log (tp read_books) = Raise e /\
  log' = log ++ [tp read_books].
Proof.
  intros H.
  destruct read_books as [|b r]; [discriminate|].
  split; [discriminate|].
  rewrite Remd_analyze_nonempty in H by discriminate.
  destruct (be log (tp (b :: r))) as [content|e0]; [|now inversion H].
  exfalso.
  destruct (Remd.extract_json ObjectShape content) as [data|e0] eqn:Ex.
  - apply Remd_extract_shape in Ex.
    apply has_shape_object in Ex as [d ->].
    rewrite profile_of_data_obj in H. discriminate.
  - destruct (Remd_basic_profile_ok (b :: r)) as [p Hp]; [discriminate|].
    rewrite Hp in H. discriminate.
Qed.

(** X2. The profile builder of [remd.py] raises nothing of its own: when
    it raises, [read_books] is not empty and the exception is the one the
    backend raised on the one request.  Whatever text the backend returns,
    a profile comes back. *)
Theorem X2_remd_builder_raises_only_backend_errors :
  forall be tp (read_books : list Book) log e log',
    Remd.analyze_reading_taste be tp read_books log = (Raise e, log') ->
    read_books <> [] /\
    be log (tp read_books) = Raise e /\
    log' = log ++ [tp read_books].
Proof.
  intros be tp read_books log e log'. apply Remd_builder_raises.
Qed.

Lemma X2_remd_builder_raises_only_backend_errors_witness :
  Remd.analyze_reading_taste backend_down some_taste_prompt [book_1984] [] =
    (Raise (GenerationError "connection refused"), ["analyze"]) /\
  backend_down [] (some_taste_prompt [book_1984]) =
    Raise (GenerationError "connection refused").
Proof.
  assert (H : Remd.analyze_reading_taste backend_down some_taste_prompt [book_1984] [] =
              (Raise (GenerationError "connection refused"), ["analyze"]))
    by reflexivity.
  split; [exact H|].
  exact (proj1 (proj2 (X2_remd_builder_raises_only_backend_errors
                         backend_down some_taste_prompt [book_1984] [] _ _ H))).
Defined.

Lemma App2_builder_raises be tp (read_books : list Book) log e log' :
  App2.analyze_reading_taste be tp read_books log = (Raise e, log') ->
  be log (tp read_books) = Raise e \/
  (exists content,
     be log (tp read_books) = Ok content /\
     App2.extract_json ObjectShape content = Raise e /\
     is_JSONDecodeError e = false) \/
  (e = AttributeError /\
   exists content v,
     be log (tp read_books) = Ok content /\
     no_bracket_pair ObjectShape content /\
     json_loads content = Ok v /\
     forall d, v <> JObj d).
Proof.
  intros H.
  destruct read_books as [|b r]; [discriminate|].
  rewrite App2_analyze_nonempty in H by discriminate.
  destruct (be log (tp (b :: r))) as [content|e0]; [|left; now inversion H].
  right.
  destruct (App2.extract_json ObjectShape content) as [data|e0] eqn:Ex; cbn [rbind try_except] in H.
  - right. destruct (App2_extract_shape _ _ _ Ex) as [Hs|[Hn Hl]].
    + apply has_shape_object in Hs as [d ->].
      rewrite profile_of_data_obj in H. discriminate.
    + destruct data; cbn in H; try discriminate;
        (split; [now inversion H|]; exists content; eexists;
         repeat split; [exact Hn|exact Hl|discriminate]).
  - left. destruct (is_JSONDecodeError e0) eqn:Hj.
    + destruct (App2_basic_profile_ok (b :: r)) as [p Hp].
      rewrite Hp in H. discriminate.
    + inversion H; subst. exists content. auto.
Qed.

Lemma App2_builder_attribute_error be tp (read_books : list Book) log content v :
  read_books <> [] ->
  be log (tp read_books) = Ok content ->
  no_bracket_pair ObjectShape content ->
  json_loads content = Ok v ->
  (forall d, v <> JObj d) ->
  App2.analyze_reading_taste be tp read_books log =
    (Raise AttributeError, log ++ [tp read_books]).
Proof.
  intros Hne Hbe Hn Hl Hv.
  rewrite App2_analyze_nonempty, Hbe by exact Hne.
  rewrite (App2_extract_no_pair _ _ Hn), Hl. cbn [rbind].
  rewrite (profile_of_data_other v Hv). reflexivity.
Qed.

Lemma App2_builder_extract_error be tp (read_books : list Book) log content e :
  read_books <> [] ->
  be log (tp read_books) = Ok content ->
  App2.extract_json ObjectShape content = Raise e ->
  is_JSONDecodeError e = false ->
  App2.analyze_reading_taste be tp read_books log = (Raise e, log ++ [tp read_books]).
Proof.
  intros Hne Hbe Hx Hj.
  rewrite App2_analyze_nonempty, Hbe, Hx by exact Hne.
  cbn [rbind try_except]. now rewrite Hj.
Qed.

(** X3. The profile builder of [app2.py] raises what the backend raised,
    or an exception of [json.loads] that is not a decoding error (the
    [ValueError] for an integer literal of more than 4300 digits), or
    [AttributeError]; the latter when the reply holds no [{ ... }] pair
    and, read as a whole, is JSON that is not an object (a number, a
    string, a list, [null], ...): [data.get] then fails outside the reach
    of [except json.JSONDecodeError].  In each of the last two cases it
    does raise, after the one request. *)
Theorem X3_app2_builder_exceptions :
  forall be tp (read_books : list Book) log,
    (forall e log',
       App2.analyze_reading_taste be tp read_books log = (Raise e, log') ->
       be log (tp read_books) = Raise e \/
       (exists content,
          be log (tp read_books) = Ok content /\
          App2.extract_json ObjectShape content = Raise e /\
          is_JSONDecodeError e = false) \/
       (e = AttributeError /\
        exists content v,
          be log (tp read_books) = Ok content /\
          no_bracket_pair ObjectShape content /\
          json_loads content = Ok v /\
          forall d, v <> JObj d)) /\
    (forall content v,
       read_books <> [] ->
       be log (tp read_books) = Ok content ->
       no_bracket_pair ObjectShape content ->
       json_loads content = Ok v ->
       (forall d, v <> JObj d) ->
       App2.analyze_reading_taste be tp read_books log =
         (Raise AttributeError, log ++ [tp read_books])) /\
    (forall content e,
       read_books <> [] ->
       be log (tp read_books) = Ok content ->
       App2.extract_json ObjectShape content = Raise e ->
       is_JSONDecodeError e = false ->
       App2.analyze_reading_taste be tp read_books log =
         (Raise e, log ++ [tp read_books])).
Proof.
  intros be tp read_books log. split; [|split].
  - intros e log'. apply App2_builder_raises.
  - intros content v. apply App2_builder_attribute_error.
  - intros content e. apply App2_builder_extract_error.
Qed.

Lemma X3_app2_builder_exceptions_witness :
  [book_1984] <> [] /\
  backend_says "[1, 2]" [] (some_taste_prompt [book_1984]) = Ok "[1, 2]" /\
  no_bracket_pair ObjectShape "[1, 2]" /\
  json_loads "[1, 2]" = Ok (JArr [JNum (PInt 1); JNum (PInt 2)]) /\
  (forall d, JArr [JNum (PInt 1); JNum (PInt 2)] <> JObj d) /\
  App2.analyze_reading_taste (backend_says "[1, 2]") some_taste_prompt [book_1984] [] =
    (Raise AttributeError, [] ++ [some_taste_prompt [book_1984]]) /\
  App2.extract_json ObjectShape long_integer = Raise long_integer_error /\
  is_JSONDecodeError long_integer_error = false /\
  App2.analyze_reading_taste (backend_says long_integer) some_taste_prompt [book_1984] [] =
    (Raise long_integer_error, [] ++ [some_taste_prompt [book_1984]]).
Proof.
  assert (Hne : [book_1984] <> []) by discriminate.
  assert (Hn : no_bracket_pair ObjectShape "[1, 2]").
  { apply no_pair_without_opening. unfold occurs. simpl. intuition discriminate. }
  assert (Hl : json_loads "[1, 2]" = Ok (JArr [JNum (PInt 1); JNum (PInt 2)]))
    by (vm_compute; reflexivity).
  assert (Hv : forall d, JArr [JNum (PInt 1); JNum (PInt 2)] <> JObj d) by discriminate.
  assert (Hx : App2.extract_json ObjectShape long_integer = Raise long_integer_error)
    by (vm_compute; reflexivity).
  split; [exact Hne|]. split; [reflexivity|]. split; [exact Hn|].
  split; [exact Hl|]. split; [exact Hv|].
  split; [exact (proj1 (proj2 (X3_app2_builder_exceptions (backend_says "[1, 2]")
                                 some_taste_prompt [book_1984] []))
                   "[1, 2]" _ Hne eq_refl Hn Hl Hv)|].
  split; [exact Hx|]. split; [reflexivity|].
  exact (proj2 (proj2 (X3_app2_builder_exceptions (backend_says long_integer)
                         some_taste_prompt [book_1984] []))
           long_integer _ Hne eq_refl Hx eq_refl).
Defined.

(** X4. When the reply holds a [{ ... }] pair whose text decodes, what it
    decodes to is an object, and both files return the same profile: each
    of the seven fields is the object's value under the field's name, or
    the default of the code when the name is missing.  One request is
    made. *)
Theorem X4_profile_from_reply :
  forall be tp (read_books : list Book) log content pre mid post v,
    read_books <> [] ->
    be log (tp read_books) = Ok content ->
    bracketed ObjectShape content pre mid post ->
    json_loads (String (opening ObjectShape)
                  (mid +:+ String (closing ObjectShape) EmptyString)) = Ok v ->
    exists d,
      v = JObj d /\
      App2.analyze_reading_taste be tp read_books log =
        (Ok (profile_of_fields d), log ++ [tp read_books]) /\
      Remd.analyze_reading_taste be tp read_books log =
        (Ok (profile_of_fields d), log ++ [tp read_books]).
Proof.
  intros be tp read_books log content pre mid post v Hne Hbe Hb Hl.
  destruct (extract_bracketed _ _ _ _ _ Hb) as [Ha Hr].
  rewrite Hl in Ha, Hr.
  destruct (has_shape_object v (json_loads_shape ObjectShape _ _ Hl)) as [d ->].
  exists d. split; [reflexivity|].
  rewrite App2_analyze_nonempty, Remd_analyze_nonempty, Hbe, Ha, Hr by exact Hne.
  split; reflexivity.
Qed.

Lemma X4_profile_from_reply_witness :
  [book_1984] <> [] /\
  backend_says wrapped_reply [] (some_taste_prompt [book_1984]) = Ok wrapped_reply /\
  bracketed ObjectShape wrapped_reply
    ("Here is the result:" +:+ nl) (quoted "a" +:+ ":1") (nl +:+ "Thanks!") /\
  json_loads (String (opening ObjectShape)
                ((quoted "a" +:+ ":1") +:+ String (closing ObjectShape) EmptyString)) =
    Ok (JObj [("a", JNum (PInt 1))]) /\
  exists d,
    JObj [("a", JNum (PInt 1))] = JObj d /\
    App2.analyze_reading_taste (backend_says wrapped_reply) some_taste_prompt
        [book_1984] [] =
      (Ok (profile_of_fields d), [] ++ [some_taste_prompt [book_1984]]) /\
    Remd.analyze_reading_taste (backend_says wrapped_reply) some_taste_prompt
        [book_1984] [] =
      (Ok (profile_of_fields d), [] ++ [some_taste_prompt [book_1984]]).
Proof.
  assert (Hne : [book_1984] <> []) by discriminate.
  assert (Hb : bracketed ObjectShape wrapped_reply
                 ("Here is the result:" +:+ nl) (quoted "a" +:+ ":1") (nl +:+ "Thanks!")).
  { split; [reflexivity|]. split; unfold occurs; simpl; intuition discriminate. }
  assert (Hl : json_loads (String (opening ObjectShape)
                ((quoted "a" +:+ ":1") +:+ String (closing ObjectShape) EmptyString)) =
               Ok (JObj [("a", JNum (PInt 1))])) by (vm_compute; reflexivity).
  split; [exact Hne|]. split; [reflexivity|]. split; [exact Hb|]. split; [exact Hl|].
  exact (X4_profile_from_reply (backend_says wrapped_reply) some_taste_prompt
           [book_1984] [] wrapped_reply _ _ _ _ Hne eq_refl Hb Hl).
Defined.

(** ** The fallback profile *)

Lemma App2_basic_profile_eq (read_books : list Book) :
  read_books <> [] ->
  let gc := counter_update [] (all_genres read_books) in
  let ac := counter_update [] (all_authors read_books) in
  let tc := counter_update [] (all_themes read_books) in
  let fg := foldl (fun d gc0 => dict_set (fst gc0)
                     (weight_of (int_or (counter_total gc) 1) (snd gc0)) d)
                  [] (most_common 5 gc) in
  App2._create_basic_profile read_books =
  Ok (mkTasteProfile (JObj fg)
        (counts_dict (most_common 5 ac))
        (counts_dict (most_common 5 tc))
        (JObj [])
        (JStr "mixed")
        (JNum (PFloat (Qred (inject_Z (Z.of_nat (length gc)) /
                             inject_Z (Z.of_nat (length read_books))))))
        (JStr ("Enjoys " +:+ str_join ", " (take 3 (dict_keys fg))
               +:+ " with favorite authors including "
               +:+ str_join ", " (take 2 (dict_keys ac))))).
Proof.
  intros Hne gc ac tc fg.
  pose proof (total_genres_nonzero read_books) as Ht.
  rewrite count_books_counters in Ht. cbn [fst] in Ht.
  unfold App2._create_basic_profile. rewrite count_books_counters.
  rewrite (genre_weights_ok _ _ Ht). cbn [rbind].
  subst gc ac tc fg.
  destruct read_books as [|b r]; [congruence|].
  rewrite py_truediv_ok by (simpl; lia). reflexivity.
Qed.

Lemma Remd_basic_profile_eq (read_books : list Book) :
  read_books <> [] ->
  let gc := counter_update [] (all_genres read_books) in
  let ac := counter_update [] (all_authors read_books) in
  let tc := counter_update [] (all_themes read_books) in
  let fg := foldl (fun d gc0 => dict_set (fst gc0)
                     (weight_of (int_or (counter_total gc) 1) (snd gc0)) d)
                  [] (most_common 5 gc) in
  Remd._create_basic_profile read_books =
  Ok (mkTasteProfile (JObj fg)
        (counts_dict (most_common 5 ac))
        (counts_dict (most_common 5 tc))
        (JObj [])
        (JStr "mixed")
        (JNum (PFloat (Qred (inject_Z (Z.of_nat (length gc)) /
                             inject_Z (Z.of_nat (length read_books))))))
        (JStr ("Enjoys " +:+ str_join ", " (take 3 (dict_keys fg))))).
Proof.
  intros Hne gc ac tc fg.
  pose proof (total_genres_nonzero read_books) as Ht.
  rewrite count_books_counters in Ht. cbn [fst] in Ht.
  unfold Remd._create_basic_profile. rewrite count_books_counters.
  rewrite (genre_weights_ok _ _ Ht). cbn [rbind].
  rewrite py_truediv_ok by (destruct read_books; [congruence|simpl; lia]).
  reflexivity.
Qed.

(** X5. Called with no books, the fallback of [remd.py] raises
    [ZeroDivisionError] (the diversity score divides by [len(read_books)]),
    and that is the only way it raises; the fallback of [app2.py] guards
    the division and returns a profile for every list, with diversity
    score [0] for the empty one. *)
Theorem X5_fallback_on_no_books :
  (forall read_books e,
     Remd._create_basic_profile read_books = Raise e <->
     read_books = [] /\ e = ZeroDivisionError) /\
  (forall read_books,
     exists p, App2._create_basic_profile read_books = Ok p /\
       (read_books = [] -> diversity_score p = JNum (PInt 0) /\
                           favorite_genres p = JObj [])).
Proof.
  split.
  - intros read_books e. split.
    + intros H. destruct read_books as [|b r].
      * split; [reflexivity|]. vm_compute in H. now inversion H.
      * rewrite Remd_basic_profile_eq in H by discriminate. discriminate.
    + intros [-> ->]. reflexivity.
  - intros read_books. destruct read_books as [|b r].
    + eexists. split; [reflexivity|]. intros _. split; reflexivity.
    + rewrite App2_basic_profile_eq by discriminate.
      eexists. split; [reflexivity|]. discriminate.
Qed.

Lemma X5_fallback_on_no_books_witness :
  Remd._create_basic_profile [] = Raise ZeroDivisionError /\
  exists p, App2._create_basic_profile [] = Ok p /\
    (@nil Book = [] -> diversity_score p = JNum (PInt 0) /\ favorite_genres p = JObj []).
Proof.
  split.
  - exact (proj2 (proj1 X5_fallback_on_no_books [] ZeroDivisionError)
             (conj eq_refl eq_refl)).
  - exact (proj2 X5_fallback_on_no_books []).
Defined.

(** X6. For one list of books the fallbacks of the two files return
    profiles that agree in every field but the summary, and the summary
    of [app2.py] is that of [remd.py] followed by the clause on the first
    two authors. *)
Theorem X6_fallbacks_agree :
  forall read_books, read_books <> [] ->
    exists p q s,
      App2._create_basic_profile read_books = Ok p /\
      Remd._create_basic_profile read_books = Ok q /\
      favorite_genres p = favorite_genres q /\
      favorite_authors p = favorite_authors q /\
      common_themes p = common_themes q /\
      era_preferences p = era_preferences q /\
      reading_level p = reading_level q /\
      diversity_score p = diversity_score q /\
      summary q = JStr s /\
      summary p =
        JStr (s +:+ " with favorite authors including "
                +:+ str_join ", "
                      (take 2 (dict_keys (counter_update [] (all_authors read_books))))).
Proof.
  intros read_books Hne.
  rewrite App2_basic_profile_eq, Remd_basic_profile_eq by exact Hne.
  do 3 eexists. do 2 (split; [reflexivity|]).
  cbn [favorite_genres favorite_authors common_themes era_preferences reading_level
       diversity_score summary].
  do 7 (split; [reflexivity|]).
  reflexivity.
Qed.

Lemma X6_fallbacks_agree_witness :
  three_books <> [] /\
  exists p q s,
    App2._create_basic_profile three_books = Ok p /\
    Remd._create_basic_profile three_books = Ok q /\
    favorite_genres p = favorite_genres q /\
    favorite_authors p = favorite_authors q /\
    common_themes p = common_themes q /\
    era_preferences p = era_preferences q /\
    reading_level p = reading_level q /\
    diversity_score p = diversity_score q /\
    summary q = JStr s /\
    summary p =
      JStr (s +:+ " with favorite authors including "
              +:+ str_join ", "
                    (take 2 (dict_keys (counter_update [] (all_authors three_books))))).
Proof.
  assert (Hne : three_books <> []) by discriminate.
  split; [exact Hne|].
  exact (X6_fallbacks_agree three_books Hne).
Defined.


Lemma Qdiv_le_1 (a b : Z) :
  0 < b -> ((inject_Z a / inject_Z b <= 1)%Q <-> a <= b).
Proof.
  intros Hb. destruct b as [|b|b]; try lia.
  unfold Qle, Qdiv, Qmult, Qinv, inject_Z. simpl. lia.
Qed.

Lemma Qdiv_nonneg (a b : Z) :
  0 <= a -> 0 <= b -> (0 <= inject_Z a / inject_Z b)%Q.
Proof.
  intros Ha Hb. destruct b as [|b|b]; try lia;
    unfold Qle, Qdiv, Qmult, Qinv, inject_Z; simpl; lia.
Qed.

Lemma fallback_diversity (read_books : list Book) (p : TasteProfile) :
  read_books <> [] ->
  App2._create_basic_profile read_books = Ok p \/
  Remd._create_basic_profile read_books = Ok p ->
  diversity_score p =
  JNum (PFloat (Qred (inject_Z (distinct (all_genres read_books)) /
                      inject_Z (Z.of_nat (length read_books))))).
Proof.
  intros Hne H.
  assert (Hgc : counts (counter_update [] (all_genres read_books)) (all_genres read_books))
    by apply (counts_update _ [] []), counts_nil.
  unfold distinct. rewrite <- (counts_length _ _ Hgc).
  rewrite App2_basic_profile_eq, Remd_basic_profile_eq in H by exact Hne.
  destruct H as [H|H]; inversion H; reflexivity.
Qed.

(** X8. The diversity score of the fallback is the number of distinct
    genres over the number of books and is not capped: it is at most 1
    exactly when the books name no more distinct genres than there are
    books, and exceeds 1 otherwise. *)
Theorem X8_diversity_score_not_capped :
  forall read_books p,
    read_books <> [] ->
    App2._create_basic_profile read_books = Ok p \/
    Remd._create_basic_profile read_books = Ok p ->
    exists q,
      diversity_score p = JNum (PFloat q) /\
      (0 <= q)%Q /\
      ((q <= 1)%Q <-> distinct (all_genres read_books) <= Z.of_nat (length read_books)).
Proof.
  intros read_books p Hne H.
  rewrite (fallback_diversity read_books p Hne H).
  assert (0 < Z.of_nat (length read_books)) by (destruct read_books; [congruence|simpl; lia]).
  assert (0 <= distinct (all_genres read_books)) by (unfold distinct; lia).
  eexists. split; [reflexivity|]. rewrite Qred_correct. split.
  - apply Qdiv_nonneg; lia.
  - now apply Qdiv_le_1.
Qed.

Lemma X8_diversity_score_not_capped_witness :
  three_books <> [] /\
  App2._create_basic_profile three_books = Ok three_books_profile /\
  exists q,
    diversity_score three_books_profile = JNum (PFloat q) /\
    (0 <= q)%Q /\
    ((q <= 1)%Q <-> distinct (all_genres three_books) <= Z.of_nat (length three_books)).
Proof.
  assert (Hne : three_books <> []) by discriminate.
  assert (H1 : App2._create_basic_profile three_books = Ok three_books_profile)
    by (vm_compute; reflexivity).
  split; [exact Hne|]. split; [exact H1|].
  exact (X8_diversity_score_not_capped three_books _ Hne (or_introl H1)).
Defined.

(** ** What the scorers return, whatever the reply *)

(** X9. Whatever the backend replies, a list the scorer of either file
    returns is empty or a rearrangement of the records matched from the
    array the reply was decoded to: one record per element whose title is
    the title of an unread book.  In particular it is never longer than
    that array. *)
Theorem X9_scorer_returns_matched_records :
  forall be sp profile (unread_books : list Book) log out log',
    (App2.score_unread_books be sp profile unread_books log = (Ok out, log') ->
     out = [] \/
     exists content items,
       be log (sp profile unread_books) = Ok content /\
       App2.extract_json ArrayShape content = Ok (JArr items) /\
       Permutation out (matched_scores unread_books items) /\
       (length out <= length items)%nat) /\
    (Remd.score_unread_books be sp profile unread_books log = (Ok out, log') ->
     out = [] \/
     exists content items,
       be log (sp profile unread_books) = Ok content /\
       Remd.extract_json ArrayShape content = Ok (JArr items) /\
       Permutation out (matched_scores unread_books items) /\
       (length out <= length items)%nat).
Proof.
  intros be sp profile unread_books log out log'.
  assert (Hlen : forall items,
            Permutation out (matched_scores unread_books items) ->
            (length out <= length items)%nat).
  { intros items Hp. rewrite (Permutation_length Hp).
    apply matched_scores_length. }
  split; intros H.
  - destruct (App2_score_returns_any _ _ _ _ _ _ _ H)
      as [->|(content & items & Hbe & Hx & _ & Hs)]; [now left|].
    apply sort_scores_perm in Hs.
    right. exists content, items. auto.
  - destruct (Remd_score_returns_any _ _ _ _ _ _ _ H)
      as [->|(content & items & Hbe & Hx & _ & Hs)]; [now left|].
    apply sort_scores_perm in Hs.
    right. exists content, items. auto.
Qed.

Lemma X9_scorer_returns_matched_records_witness :
  exists out,
    App2.score_unread_books (backend_says stray_reply) some_scoring_prompt
        empty_profile abc_books [] = (Ok out, ["score"]) /\
    (out = [] \/
     exists content items,
       backend_says stray_reply [] (some_scoring_prompt empty_profile abc_books) =
         Ok content /\
       App2.extract_json ArrayShape content = Ok (JArr items) /\
       Permutation out (matched_scores abc_books items) /\
       (length out <= length items)%nat).
Proof.
  eexists. split; [vm_compute; reflexivity|].
  refine (proj1 (X9_scorer_returns_matched_records (backend_says stray_reply)
                   some_scoring_prompt empty_profile abc_books [] _ ["score"]) _).
  vm_compute. reflexivity.
Defined.

(** X10. The scorer never invents a book: whatever the backend replies,
    every record of a returned list carries one of the unread books, the
    last one of the list with that title. *)
Theorem X10_scored_books_are_unread :
  forall be sp profile (unread_books : list Book) log out log',
    App2.score_unread_books be sp profile unread_books log = (Ok out, log') \/
    Remd.score_unread_books be sp profile unread_books log = (Ok out, log') ->
    Forall (fun s => In (book s) unread_books /\
                     find_book unread_books (title (book s)) = Some (book s)) out.
Proof.
  intros be sp profile unread_books log out log' H.
  assert (Hout : out = [] \/ exists items,
                   Permutation out (matched_scores unread_books items)).
  { destruct H as [H|H].
    - destruct (App2_score_returns_any _ _ _ _ _ _ _ H)
        as [->|(content & items & _ & _ & _ & Hs)]; [now left|].
      apply sort_scores_perm in Hs. eauto.
    - destruct (Remd_score_returns_any _ _ _ _ _ _ _ H)
        as [->|(content & items & _ & _ & _ & Hs)]; [now left|].
      apply sort_scores_perm in Hs. eauto. }
  destruct Hout as [->|[items Hp]]; [constructor|].
  apply List.Forall_forall. intros s Hs.
  pose proof (matched_scores_books unread_books items) as Hall.
  rewrite List.Forall_forall in Hall. apply Hall.
  eapply Permutation_in; [exact Hp|exact Hs].
Qed.

Lemma X10_scored_books_are_unread_witness :
  exists out,
    App2.score_unread_books (backend_says stray_reply) some_scoring_prompt
        empty_profile abc_books [] = (Ok out, ["score"]) /\
    Forall (fun s => In (book s) abc_books /\
                     find_book abc_books (title (book s)) = Some (book s)) out.
Proof.
  eexists. split; [vm_compute; reflexivity|].
  refine (X10_scored_books_are_unread (backend_says stray_reply)
            some_scoring_prompt empty_profile abc_books [] _ ["score"] (or_introl _)).
  vm_compute. reflexivity.
Defined.

(** ** What the scorers raise *)

Lemma Remd_score_raises_any be sp profile (unread_books : list Book) log e log' :
  Remd.score_unread_books be sp profile unread_books log = (Raise e, log') ->
  unread_books <> [] /\ log' = log ++ [sp profile unread_books] /\
  (be log (sp profile unread_books) = Raise e \/
   (exists content, be log (sp profile unread_books) = Ok content) /\
   (e = AttributeError \/ e = TypeError)).
Proof.
  intros H. destruct unread_books as [|b r]; [discriminate|].
  split; [discriminate|].
  rewrite Remd_score_rank in H by discriminate.
  apply request_raises in H as (Hl & [Hbe|(content & Hbe & [[_ Hc]|[_ He]])]).
  - auto.
  - discriminate.
  - split; [exact Hl|]. right. eauto.
Qed.

Lemma App2_score_raises_any be sp profile (unread_books : list Book) log e log' :
  App2.score_unread_books be sp profile unread_books log = (Raise e, log') ->
  unread_books <> [] /\
  ((has_dict_fields profile = false /\ e = AttributeError /\ log' = log) \/
   (has_dict_fields profile = true /\ log' = log ++ [sp profile unread_books] /\
    (be log (sp profile unread_books) = Raise e \/
     exists content,
       be log (sp profile unread_books) = Ok content /\
       ((App2.extract_json ArrayShape content = Raise e /\
         is_JSONDecodeError e = false) \/
        (exists data, App2.extract_json ArrayShape content = Ok data) /\
        (e = AttributeError \/ e = TypeError))))).
Proof.
  intros H. destruct unread_books as [|b r]; [discriminate|].
  split; [discriminate|].
  destruct (has_dict_fields profile) eqn:Hd.
  - right. split; [reflexivity|].
    rewrite App2_score_rank in H by (discriminate || assumption).
    now apply request_raises in H.
  - left. rewrite App2_score_no_request in H by (discriminate || assumption).
    inversion H. auto.
Qed.

(** X11. When the scorer of [remd.py] raises, one request has been made,
    and the exception is the one the backend raised or, the backend having
    answered, [AttributeError] or [TypeError] from an element that is not
    an object or whose title or score cannot be used; never an exception
    of [json.loads].  When the scorer of [app2.py] raises, either the
    profile's authors or themes are not a mapping, the exception is
    [AttributeError] and no request has been made; or one request has been
    made and the exception is the backend's, or one of [json.loads] that is
    not a decoding error, or [AttributeError] or [TypeError] as in
    [remd.py]. *)
Theorem X11_scorer_exceptions :
  forall be sp profile (unread_books : list Book) log e log',
    (Remd.score_unread_books be sp profile unread_books log = (Raise e, log') ->
     unread_books <> [] /\ log' = log ++ [sp profile unread_books] /\
     (be log (sp profile unread_books) = Raise e \/
      (exists content, be log (sp profile unread_books) = Ok content) /\
      (e = AttributeError \/ e = TypeError))) /\
    (App2.score_unread_books be sp profile unread_books log = (Raise e, log') ->
     unread_books <> [] /\
     ((has_dict_fields profile = false /\ e = AttributeError /\ log' = log) \/
      (has_dict_fields profile = true /\ log' = log ++ [sp profile unread_books] /\
       (be log (sp profile unread_books) = Raise e \/
        exists content,
          be log (sp profile unread_books) = Ok content /\
          ((App2.extract_json ArrayShape content = Raise e /\
            is_JSONDecodeError e = false) \/
           (exists data, App2.extract_json ArrayShape content = Ok data) /\
           (e = AttributeError \/ e = TypeError)))))).
Proof.
  intros be sp profile unread_books log e log'. split.
  - apply Remd_score_raises_any.
  - apply App2_score_raises_any.
Qed.

Lemma X11_scorer_exceptions_witness :
  Remd.score_unread_books (backend_says bare_number_reply) some_scoring_prompt
      empty_profile abc_books [] = (Raise AttributeError, ["score"]) /\
  abc_books <> [] /\
  ["score"] = [] ++ [some_scoring_prompt empty_profile abc_books] /\
  (backend_says bare_number_reply [] (some_scoring_prompt empty_profile abc_books) =
     Raise AttributeError \/
   (exists content,
      backend_says bare_number_reply [] (some_scoring_prompt empty_profile abc_books) =
        Ok content) /\
   (AttributeError = AttributeError \/ AttributeError = TypeError)).
Proof.
  assert (H : Remd.score_unread_books (backend_says bare_number_reply)
                some_scoring_prompt empty_profile abc_books [] =
              (Raise AttributeError, ["score"])) by (vm_compute; reflexivity).
  split; [exact H|].
  exact (proj1 (X11_scorer_exceptions (backend_says bare_number_reply)
                  some_scoring_prompt empty_profile abc_books [] _ _) H).
Defined.

(** X12. On a reply that holds a [[ ... ]] pair the scorers of the two
    files return the same list or raise the same exception, each having
    sent its own prompt, provided the profile's authors and themes are
    mappings, so that [app2.py] gets to send its request, and the text from
    the first bracket to the last makes [json.loads] return or raise a
    decoding error, the one exception of [json.loads] that [app2.py]
    catches.  (The two files differ on a reply without such a pair, which
    [app2.py] decodes as a whole.) *)
Theorem X12_scorers_agree_on_bracketed_replies :
  forall be_a be_r sp_a sp_r profile (unread_books : list Book) log_a log_r
         content pre mid post,
    has_dict_fields profile = true ->
    be_a log_a (sp_a profile unread_books) = Ok content ->
    be_r log_r (sp_r profile unread_books) = Ok content ->
    bracketed ArrayShape content pre mid post ->
    (exists v, json_loads (String (opening ArrayShape)
                             (mid +:+ String (closing ArrayShape) EmptyString)) = Ok v) \/
    json_loads (String (opening ArrayShape)
                  (mid +:+ String (closing ArrayShape) EmptyString)) =
      Raise JSONDecodeError ->
    fst (App2.score_unread_books be_a sp_a profile unread_books log_a) =
    fst (Remd.score_unread_books be_r sp_r profile unread_books log_r).
Proof.
  intros be_a be_r sp_a sp_r profile unread_books log_a log_r content pre mid post
    Hd Ha Hr Hb Hl.
  destruct unread_books as [|b r]; [reflexivity|].
  rewrite App2_score_rank, Remd_score_rank by (discriminate || assumption).
  rewrite Ha, Hr.
  destruct (extract_bracketed _ _ _ _ _ Hb) as [-> ->].
  destruct Hl as [[v ->]| ->]; reflexivity.
Qed.

Lemma X12_scorers_agree_on_bracketed_replies_witness :
  has_dict_fields empty_profile = true /\
  bracketed ArrayShape abc_reply EmptyString
    (str_join ", " [reply_entry "A" "40"; reply_entry "B" "95"; reply_entry "C" "70"])
    EmptyString /\
  fst (App2.score_unread_books (backend_says abc_reply) some_scoring_prompt
         empty_profile abc_books []) =
  fst (Remd.score_unread_books (backend_says abc_reply) some_scoring_prompt
         empty_profile abc_books []).
Proof.
  assert (Hb : bracketed ArrayShape abc_reply EmptyString
                 (str_join ", " [reply_entry "A" "40"; reply_entry "B" "95";
                                 reply_entry "C" "70"])
                 EmptyString).
  { split; [reflexivity|]. split; unfold occurs; vm_compute; intuition discriminate. }
  split; [reflexivity|]. split; [exact Hb|].
  refine (X12_scorers_agree_on_bracketed_replies (backend_says abc_reply)
            (backend_says abc_reply) some_scoring_prompt some_scoring_prompt
            empty_profile abc_books [] [] abc_reply _ _ _ eq_refl eq_refl eq_refl Hb
            (or_introl _)).
  eexists. vm_compute. reflexivity.
Defined.

(** ** The pipeline of [get_recommendations] *)

Lemma App2_analyze_log be tp (read_books : list Book) log :
  snd (App2.analyze_reading_taste be tp read_books log) =
  log ++ profile_prompts tp read_books.
Proof.
  destruct read_books as [|b r]; [symmetry; apply app_nil_r|].
  rewrite App2_analyze_nonempty by discriminate.
  destruct (be log _); reflexivity.
Qed.

Lemma Remd_analyze_log be tp (read_books : list Book) log :
  snd (Remd.analyze_reading_taste be tp read_books log) =
  log ++ profile_prompts tp read_books.
Proof.
  destruct read_books as [|b r]; [symmetry; apply app_nil_r|].
  rewrite Remd_analyze_nonempty by discriminate.
  destruct (be log _); reflexivity.
Qed.

Lemma App2_score_log be sp profile (unread_books : list Book) log :
  snd (App2.score_unread_books be sp profile unread_books log) =
  log ++ App2_scoring_prompts sp profile unread_books.
Proof.
  unfold App2_scoring_prompts.
  destruct unread_books as [|b r].
  - destruct (has_dict_fields profile); symmetry; apply app_nil_r.
  - destruct (has_dict_fields profile) eqn:Hd.
    + rewrite App2_score_nonempty by (discriminate || assumption).
      destruct (be log _); reflexivity.
    + rewrite App2_score_no_request by (discriminate || assumption).
      symmetry; apply app_nil_r.
Qed.

Lemma Remd_score_log be sp profile (unread_books : list Book) log :
  snd (Remd.score_unread_books be sp profile unread_books log) =
  log ++ scoring_prompts sp profile unread_books.
Proof.
  destruct unread_books as [|b r]; [symmetry; apply app_nil_r|].
  rewrite Remd_score_nonempty by discriminate.
  destruct (be log _); reflexivity.
Qed.

Lemma App2_pipeline_requests be tp sp (read_books unread_books : list Book) top_n log :
  snd (App2.get_recommendations be tp sp read_books unread_books top_n log) =
  log ++ profile_prompts tp read_books ++
    match fst (App2.analyze_reading_taste be tp read_books log) with
    | Ok p => App2_scoring_prompts sp p unread_books
    | Raise _ => []
    end.
Proof.
  rewrite App2_get_recommendations_unfold.
  pose proof (App2_analyze_log be tp read_books log) as Ha.
  destruct (App2.analyze_reading_taste be tp read_books log) as [[p|e] log1];
    cbn [fst snd] in *; subst log1.
  - pose proof (App2_score_log be sp p unread_books (log ++ profile_prompts tp read_books))
      as Hs.
    destruct (App2.score_unread_books be sp p unread_books _) as [[scored|e] log2];
      cbn [fst snd] in *; subst log2; now rewrite app_assoc.
  - now rewrite app_nil_r.
Qed.

Lemma Remd_pipeline_requests be tp sp (read_books unread_books : list Book) top_n log :
  snd (Remd.get_recommendations be tp sp read_books unread_books top_n log) =
  log ++ profile_prompts tp read_books ++
    match fst (Remd.analyze_reading_taste be tp read_books log) with
    | Ok p => scoring_prompts sp p unread_books
    | Raise _ => []
    end.
Proof.
  rewrite Remd_get_recommendations_unfold.
  pose proof (Remd_analyze_log be tp read_books log) as Ha.
  destruct (Remd.analyze_reading_taste be tp read_books log) as [[p|e] log1];
    cbn [fst snd] in *; subst log1.
  - pose proof (Remd_score_log be sp p unread_books (log ++ profile_prompts tp read_books))
      as Hs.
    destruct (Remd.score_unread_books be sp p unread_books _) as [[scored|e] log2];
      cbn [fst snd] in *; subst log2; now rewrite app_assoc.
  - now rewrite app_nil_r.
Qed.

(** X13. The requests [get_recommendations] makes, in either file and for
    every [top_n]: the profile prompt when [read_books] is not empty, then
    the scoring prompt when the profile was obtained and [unread_books] is
    not empty, and in [app2.py] only when moreover the authors and themes
    of the profile are mappings, without which the prompt cannot be built;
    nothing else.  So at most two requests, none when both lists are
    empty, and no scoring request after the profile step raised.  After a
    profile reply whose favorite authors are a list, [app2.py] raises
    having made one request, and [remd.py] makes two. *)
Theorem X13_pipeline_requests :
  (forall be tp sp (read_books unread_books : list Book) top_n log,
     snd (App2.get_recommendations be tp sp read_books unread_books top_n log) =
       log ++ profile_prompts tp read_books ++
         match fst (App2.analyze_reading_taste be tp read_books log) with
         | Ok p => App2_scoring_prompts sp p unread_books
         | Raise _ => []
         end /\
     snd (Remd.get_recommendations be tp sp read_books unread_books top_n log) =
       log ++ profile_prompts tp read_books ++
         match fst (Remd.analyze_reading_taste be tp read_books log) with
         | Ok p => scoring_prompts sp p unread_books
         | Raise _ => []
         end /\
     (length (snd (App2.get_recommendations be tp sp read_books unread_books top_n log))
        <= length log + 2)%nat /\
     (length (snd (Remd.get_recommendations be tp sp read_books unread_books top_n log))
        <= length log + 2)%nat) /\
  App2.get_recommendations (backend_says authors_list_reply) some_taste_prompt
      some_scoring_prompt [book_1984] abc_books Omitted [] =
    (Raise AttributeError, ["analyze"]) /\
  snd (Remd.get_recommendations (backend_says authors_list_reply) some_taste_prompt
         some_scoring_prompt [book_1984] abc_books Omitted []) = ["analyze"; "score"].
Proof.
  split; [|split; vm_compute; reflexivity].
  intros be tp sp read_books unread_books top_n log.
  rewrite App2_pipeline_requests, Remd_pipeline_requests.
  split; [reflexivity|]. split; [reflexivity|].
  assert (Hp : (length (profile_prompts tp read_books) <= 1)%nat)
    by (destruct read_books; simpl; lia).
  assert (Hs : forall p, (length (scoring_prompts sp p unread_books) <= 1)%nat)
    by (intros p; destruct unread_books; simpl; lia).
  assert (Ha : forall p, (length (App2_scoring_prompts sp p unread_books) <= 1)%nat).
  { intros p. unfold App2_scoring_prompts.
    destruct (has_dict_fields p); [apply Hs|simpl; lia]. }
  split; rewrite !length_app.
  - destruct (fst (App2.analyze_reading_taste be tp read_books log)) as [p|e];
      [specialize (Ha p)|]; simpl; lia.
  - destruct (fst (Remd.analyze_reading_taste be tp read_books log)) as [p|e];
      [specialize (Hs p)|]; simpl; lia.
Qed.

Lemma list_slice_to_take {A} (l : list A) (n : Z) :
  exists k, list_slice_to l n = take k l.
Proof. unfold list_slice_to. eauto. Qed.

Lemma descending_split (l : list BookScore) (k : nat) :
  descending l ->
  descending (take k l) /\
  forall r d, In r (take k l) -> In d (drop k l) -> (score_q d <= score_q r)%Q.
Proof.
  unfold descending. intros H.
  rewrite <- (take_drop k l) in H.
  apply StronglySorted_app in H as (H1 & H2 & H3).
  split; [exact H2|].
  intros r d Hr Hd. apply (H1 r d); now apply list_elem_of_In.
Qed.

Lemma score_descending be sp profile (unread_books : list Book) log scored log' :
  App2.score_unread_books be sp profile unread_books log = (Ok scored, log') \/
  Remd.score_unread_books be sp profile unread_books log = (Ok scored, log') ->
  Forall has_real_score scored -> descending scored.
Proof.
  intros [H|H] Hreal.
  - destruct (App2_score_returns _ _ _ _ _ _ _ H) as [->|[bs Hs]]; [constructor|].
    now apply (sort_scores_descending bs).
  - destruct (Remd_score_returns _ _ _ _ _ _ _ H) as [->|[bs Hs]]; [constructor|].
    now apply (sort_scores_descending bs).
Qed.

Lemma pipeline_top (scored : list BookScore) (top_n : option Z) :
  exists rest,
    scored = match top_n with
             | Some n => list_slice_to scored n
             | None => scored
             end ++ rest /\
    (descending scored ->
     descending match top_n with
                | Some n => list_slice_to scored n
                | None => scored
                end /\
     forall r d,
       In r match top_n with
            | Some n => list_slice_to scored n
            | None => scored
            end ->
       In d rest -> (score_q d <= score_q r)%Q).
Proof.
  destruct top_n as [n|].
  - destruct (list_slice_to_take scored n) as [k ->].
    exists (drop k scored). split; [symmetry; apply take_drop|].
    apply descending_split.
  - exists []. split; [symmetry; apply app_nil_r|].
    intros H. split; [exact H|]. intros r d _ [].
Qed.

(** X14. What [get_recommendations] returns, in either file and for every
    [top_n] (omitted, [None], positive, zero or negative), is a leading
    part of the list the scorer returned for the profile: nothing is
    reordered or added.  The scores being real numbers, the part returned
    is in descending order and no record left out has a higher overall
    score than a record returned. *)
Theorem X14_recommendations_are_the_top :
  forall be tp sp (read_books unread_books : list Book) top_n log p recs log',
    App2.get_recommendations be tp sp read_books unread_books top_n log =
      (Ok (p, recs), log') \/
    Remd.get_recommendations be tp sp read_books unread_books top_n log =
      (Ok (p, recs), log') ->
    exists scored rest log1,
      (App2.score_unread_books be sp p unread_books log1 = (Ok scored, log') \/
       Remd.score_unread_books be sp p unread_books log1 = (Ok scored, log')) /\
      scored = recs ++ rest /\
      (Forall has_real_score scored ->
       descending recs /\
       forall r d, In r recs -> In d rest -> (score_q d <= score_q r)%Q).
Proof.
  intros be tp sp read_books unread_books top_n log p recs log' [H|H].
  - rewrite App2_get_recommendations_unfold in H.
    destruct (App2.analyze_reading_taste be tp read_books log) as [[p0|e] log1];
      [|discriminate].
    destruct (App2.score_unread_books be sp p0 unread_books log1)
      as [[scored|e] log2] eqn:Es; [|discriminate].
    inversion H; subst p0 log2. clear H.
    destruct (pipeline_top scored (arg_value (Some 5) top_n)) as (rest & Hsplit & Hd).
    exists scored, rest, log1. split; [now left|]. split; [exact Hsplit|].
    intros Hreal. apply Hd.
    apply (score_descending be sp p unread_books log1 scored log'); auto.
  - rewrite Remd_get_recommendations_unfold in H.
    destruct (Remd.analyze_reading_taste be tp read_books log) as [[p0|e] log1];
      [|discriminate].
    destruct (Remd.score_unread_books be sp p0 unread_books log1)
      as [[scored|e] log2] eqn:Es; [|discriminate].
    inversion H; subst p0 log2. clear H.
    destruct (pipeline_top scored (arg_value (Some 5) top_n)) as (rest & Hsplit & Hd).
    exists scored, rest, log1. split; [now right|]. split; [exact Hsplit|].
    intros Hreal. apply Hd.
    apply (score_descending be sp p unread_books log1 scored log'); auto.
Qed.

Lemma X14_recommendations_are_the_top_witness :
  exists recs,
    App2.get_recommendations (backend_says five_reply) some_taste_prompt
        some_scoring_prompt [] five_books (Passed (Some 2)) [] =
      (Ok (empty_profile, recs), ["score"]) /\
    scored_titles recs = ["B"; "D"] /\
    exists scored rest log1,
      (App2.score_unread_books (backend_says five_reply) some_scoring_prompt
           empty_profile five_books log1 = (Ok scored, ["score"]) \/
       Remd.score_unread_books (backend_says five_reply) some_scoring_prompt
           empty_profile five_books log1 = (Ok scored, ["score"])) /\
      scored = recs ++ rest /\
      (Forall has_real_score scored ->
       descending recs /\
       forall r d, In r recs -> In d rest -> (score_q d <= score_q r)%Q).
Proof.
  eexists. split; [vm_compute; reflexivity|]. split; [reflexivity|].
  refine (X14_recommendations_are_the_top (backend_says five_reply) some_taste_prompt
            some_scoring_prompt [] five_books (Passed (Some 2)) [] _ _ _ (or_introl _)).
  vm_compute. reflexivity.
Defined.

Lemma App2_extract_json_loads (sh : shape) (content : string) :
  exists text, App2.extract_json sh content = json_loads text.
Proof.
  unfold App2.extract_json.
  destruct (negb _ && _); eauto.
Qed.

(** X15. Whatever the backend replies, an exception that leaves
    [get_recommendations] of [remd.py] is one the backend raised on a
    request, or [AttributeError] or [TypeError]: no exception of
    [json.loads] and no division by zero gets out.  One that leaves
    [get_recommendations] of [app2.py] is one of these or an exception of
    [json.loads] that is not a decoding error. *)
Theorem X15_pipeline_exceptions :
  forall be tp sp (read_books unread_books : list Book) top_n log e log',
    (Remd.get_recommendations be tp sp read_books unread_books top_n log =
       (Raise e, log') ->
     (exists sent prompt, be sent prompt = Raise e) \/
     e = AttributeError \/ e = TypeError) /\
    (App2.get_recommendations be tp sp read_books unread_books top_n log =
       (Raise e, log') ->
     (exists sent prompt, be sent prompt = Raise e) \/
     e = AttributeError \/ e = TypeError \/
     (exists text, json_loads text = Raise e /\ is_JSONDecodeError e = false)).
Proof.
  intros be tp sp read_books unread_books top_n log e log'. split; intros H.
  - rewrite Remd_get_recommendations_unfold in H.
    destruct (Remd.analyze_reading_taste be tp read_books log) as [[p|e0] log1] eqn:Ea.
    + destruct (Remd.score_unread_books be sp p unread_books log1)
        as [[scored|e1] log2] eqn:Es; [discriminate|].
      inversion H; subst e1 log2.
      destruct (Remd_score_raises_any _ _ _ _ _ _ _ Es) as (_ & _ & [Hb|[_ He]]); eauto.
    + inversion H; subst e0 log1.
      destruct (Remd_builder_raises _ _ _ _ _ _ Ea) as (_ & Hb & _). eauto.
  - rewrite App2_get_recommendations_unfold in H.
    destruct (App2.analyze_reading_taste be tp read_books log) as [[p|e0] log1] eqn:Ea.
    + destruct (App2.score_unread_books be sp p unread_books log1)
        as [[scored|e1] log2] eqn:Es; [discriminate|].
      inversion H; subst e1 log2.
      destruct (App2_score_raises_any _ _ _ _ _ _ _ Es)
        as (_ & [(_ & -> & _)|(_ & _ & [Hb|(content & _ & [[Hx Hj]|[_ He]])])]).
      * auto.
      * eauto.
      * destruct (App2_extract_json_loads ArrayShape content) as [text Ht].
        rewrite Ht in Hx. right; right; right. eauto.
      * destruct He as [-> | ->]; auto.
    + inversion H; subst e0 log1.
      destruct (App2_builder_raises _ _ _ _ _ _ Ea)
        as [Hb|[(content & _ & Hx & Hj)|[-> _]]].
      * eauto.
      * destruct (App2_extract_json_loads ObjectShape content) as [text Ht].
        rewrite Ht in Hx. right; right; right. eauto.
      * auto.
Qed.

Lemma X15_pipeline_exceptions_witness :
  Remd.get_recommendations (backend_says bare_number_reply) some_taste_prompt
      some_scoring_prompt [] abc_books Omitted [] = (Raise AttributeError, ["score"]) /\
  ((exists sent prompt, backend_says bare_number_reply sent prompt = Raise AttributeError) \/
   AttributeError = AttributeError \/ AttributeError = TypeError) /\
  App2.get_recommendations (backend_says long_integer) some_taste_prompt
      some_scoring_prompt [book_1984] abc_books Omitted [] =
    (Raise long_integer_error, ["analyze"]) /\
  ((exists sent prompt, backend_says long_integer sent prompt = Raise long_integer_error) \/
   long_integer_error = AttributeError \/ long_integer_error = TypeError \/
   (exists text, json_loads text = Raise long_integer_error /\
                 is_JSONDecodeError long_integer_error = false)).
Proof.
  assert (H : Remd.get_recommendations (backend_says bare_number_reply) some_taste_prompt
                some_scoring_prompt [] abc_books Omitted [] =
              (Raise AttributeError, ["score"])) by (vm_compute; reflexivity).
  assert (H' : App2.get_recommendations (backend_says long_integer) some_taste_prompt
                 some_scoring_prompt [book_1984] abc_books Omitted [] =
               (Raise long_integer_error, ["analyze"])) by (vm_compute; reflexivity).
  split; [exact H|].
  split; [exact (proj1 (X15_pipeline_exceptions (backend_says bare_number_reply)
                          some_taste_prompt some_scoring_prompt [] abc_books Omitted []
                          _ _) H)|].
  split; [exact H'|].
  exact (proj2 (X15_pipeline_exceptions (backend_says long_integer)
                  some_taste_prompt some_scoring_prompt [book_1984] abc_books Omitted []
                  _ _) H').
Defined.

(** ** [format_ocr_text] of [src/formatInput.py] *)

Lemma no_pair_without_closing (sh : shape) (content : string) :
  ~ occurs (closing sh) content -> no_bracket_pair sh content.
Proof.
  intros H pre mid post ->. apply H.
  apply occurs_append. right. apply occurs_cons. right.
  apply occurs_append. right. apply occurs_cons. now left.
Qed.

Lemma str_find_minus_one (s : string) (c : ascii) :
  str_find s c = -1 -> ~ occurs c s.
Proof.
  unfold str_find.
  destruct (find_from_inv c s 0) as [[_ H]|(pre & rest & _ & _ & H)]; [auto|].
  pose proof (str_len_nonneg pre). lia.
Qed.

Lemma str_rfind_minus_one (s : string) (c : ascii) :
  str_rfind s c = -1 -> ~ occurs c s.
Proof.
  unfold str_rfind.
  destruct (rfind_from_inv c s 0 (-1)) as [[_ H]|(s1 & post & _ & _ & H)]; [auto|].
  pose proof (str_len_nonneg s1). lia.
Qed.

(** The guard of [format_ocr_text] changes nothing: its [try] body yields
    a value exactly when the extraction of [remd.py] does, and the same
    one. *)
Lemma find_json_extract (content : string) (v : json) :
  FormatInput.find_json content = Returns v <->
  Remd.extract_json ObjectShape content = Ok v.
Proof.
  unfold FormatInput.find_json.
  change "{"%char with (opening ObjectShape). change "}"%char with (closing ObjectShape).
  destruct ((str_find content (opening ObjectShape) =? -1) ||
            (str_rfind content (closing ObjectShape) + 1 =? 0)) eqn:G.
  - assert (Hn : no_bracket_pair ObjectShape content).
    { apply orb_true_iff in G as [G|G].
      - apply no_pair_without_opening, str_find_minus_one. lia.
      - apply no_pair_without_closing, str_rfind_minus_one. lia. }
    rewrite (Remd_extract_no_pair _ _ Hn). split; discriminate.
  - unfold Remd.extract_json.
    destruct (json_loads _) as [w|e]; simpl; split; intros H; inversion H; reflexivity.
Qed.

Lemma format_ocr_text_unfold be op (ocr_text : string) log :
  FormatInput.format_ocr_text be op ocr_text log =
  match be log (op ocr_text) with
  | Ok content =>
      (Ok match Remd.extract_json ObjectShape content with
          | Ok (JObj d) => ocr_of_fields d
          | _ => FormatInput.OCRBookData_default
          end, log ++ [op ocr_text])
  | Raise e => (Raise e, log ++ [op ocr_text])
  end.
Proof.
  unfold FormatInput.format_ocr_text, bind, call, lift.
  destruct (be log (op ocr_text)) as [content|e]; [|reflexivity]. f_equal.
  destruct (FormatInput.find_json content) as [data|e] eqn:E.
  - apply find_json_extract in E. rewrite E.
    destruct (has_shape_object data (Remd_extract_shape _ _ _ E)) as [d ->].
    reflexivity.
  - destruct (Remd.extract_json ObjectShape content) as [v|e'] eqn:E'; [|reflexivity].
    apply find_json_extract in E'. congruence.
Qed.

(** X16. [format_ocr_text] makes one request whatever the text (the empty
    text included) and raises nothing of its own: when it raises, the
    exception is the one the backend raised.  In particular the lookups
    [data.get(...)], which stand outside the [try], never fail. *)
Theorem X16_format_ocr_text_raises_only_backend_errors :
  forall be op (ocr_text : string) log r log',
    FormatInput.format_ocr_text be op ocr_text log = (r, log') ->
    log' = log ++ [op ocr_text] /\
    (forall e, r = Raise e -> be log (op ocr_text) = Raise e).
Proof.
  intros be op ocr_text log r log'. rewrite format_ocr_text_unfold.
  destruct (be log (op ocr_text)) as [content|e0]; intros H; inversion H; subst.
  - split; [reflexivity|]. discriminate.
  - split; [reflexivity|]. now intros e [= ->].
Qed.

Lemma X16_format_ocr_text_raises_only_backend_errors_witness :
  FormatInput.format_ocr_text backend_down (fun t => t) EmptyString [] =
    (Raise (GenerationError "connection refused"), [EmptyString]) /\
  [EmptyString] = [] ++ [EmptyString] /\
  (forall e, @Raise FormatInput.OCRBookData (GenerationError "connection refused") =
               Raise e ->
             backend_down [] EmptyString = Raise e).
Proof.
  assert (H : FormatInput.format_ocr_text backend_down (fun t => t) EmptyString [] =
              (Raise (GenerationError "connection refused"), [EmptyString]))
    by reflexivity.
  split; [exact H|].
  exact (X16_format_ocr_text_raises_only_backend_errors backend_down (fun t => t)
           EmptyString [] _ _ H).
Defined.

(** X17. What [format_ocr_text] returns once the backend has answered.
    When the reply holds a [{ ... }] pair whose text decodes, the record
    holds the decoded object's values, [None] for an absent title, author,
    year or description and the empty list for absent genres or themes.
    When the reply holds no such pair, or the text of the pair does not
    decode, the record is [OCRBookData()], all of whose fields, genres and
    themes included, are [None]. *)
Theorem X17_format_ocr_text_result :
  forall be op (ocr_text : string) log content,
    be log (op ocr_text) = Ok content ->
    (forall pre mid post v,
       bracketed ObjectShape content pre mid post ->
       json_loads (String (opening ObjectShape)
                     (mid +:+ String (closing ObjectShape) EmptyString)) = Ok v ->
       exists d, v = JObj d /\
         FormatInput.format_ocr_text be op ocr_text log =
           (Ok (ocr_of_fields d), log ++ [op ocr_text])) /\
    (forall pre mid post e,
       bracketed ObjectShape content pre mid post ->
       json_loads (String (opening ObjectShape)
                     (mid +:+ String (closing ObjectShape) EmptyString)) = Raise e ->
       FormatInput.format_ocr_text be op ocr_text log =
         (Ok FormatInput.OCRBookData_default, log ++ [op ocr_text])) /\
    (no_bracket_pair ObjectShape content ->
     FormatInput.format_ocr_text be op ocr_text log =
       (Ok FormatInput.OCRBookData_default, log ++ [op ocr_text])).
Proof.
  intros be op ocr_text log content Hbe.
  rewrite format_ocr_text_unfold, Hbe.
  split; [|split].
  - intros pre mid post v Hb Hl.
    rewrite (proj2 (extract_bracketed _ _ _ _ _ Hb)), Hl.
    destruct (has_shape_object v (json_loads_shape ObjectShape _ _ Hl)) as [d ->].
    now exists d.
  - intros pre mid post e Hb Hl.
    now rewrite (proj2 (extract_bracketed _ _ _ _ _ Hb)), Hl.
  - intros Hn. now rewrite (Remd_extract_no_pair _ _ Hn).
Qed.

Lemma X17_format_ocr_text_result_witness :
  backend_says wrapped_reply [] EmptyString = Ok wrapped_reply /\
  bracketed ObjectShape wrapped_reply
    ("Here is the result:" +:+ nl) (quoted "a" +:+ ":1") (nl +:+ "Thanks!") /\
  json_loads (String (opening ObjectShape)
                ((quoted "a" +:+ ":1") +:+ String (closing ObjectShape) EmptyString)) =
    Ok (JObj [("a", JNum (PInt 1))]) /\
  exists d, JObj [("a", JNum (PInt 1))] = JObj d /\
    FormatInput.format_ocr_text (backend_says wrapped_reply) (fun t => t) EmptyString [] =
      (Ok (ocr_of_fields d), [] ++ [EmptyString]).
Proof.
  assert (Hb : bracketed ObjectShape wrapped_reply
                 ("Here is the result:" +:+ nl) (quoted "a" +:+ ":1") (nl +:+ "Thanks!")).
  { split; [reflexivity|]. split; unfold occurs; simpl; intuition discriminate. }
  assert (Hl : json_loads (String (opening ObjectShape)
                ((quoted "a" +:+ ":1") +:+ String (closing ObjectShape) EmptyString)) =
               Ok (JObj [("a", JNum (PInt 1))])) by (vm_compute; reflexivity).
  split; [reflexivity|]. split; [exact Hb|]. split; [exact Hl|].
  exact (proj1 (X17_format_ocr_text_result (backend_says wrapped_reply) (fun t => t)
                  EmptyString [] wrapped_reply eq_refl) _ _ _ _ Hb Hl).
Defined.

(** ** [BookTasteAnalyzer.__init__] of [src/app2.py] *)

(** X18. The analyzer of [app2.py] is built only with a non-empty key:
    the argument when it is a non-empty string, otherwise the value of
    the environment variable; an empty-string argument counts as no
    argument.  Without a non-empty key from either, [ValueError] is
    raised. *)
Theorem X18_api_key_required :
  forall api_key environ_key : option string,
    (str_truthy api_key = false -> str_truthy environ_key = false ->
     BookTasteAnalyzer_init api_key environ_key =
       Raises (Std (ValueError
                      "API key required. Set ANTHROPIC_API_KEY env var or pass api_key."))) /\
    (forall k, BookTasteAnalyzer_init api_key environ_key = Returns k ->
       k <> EmptyString /\
       (api_key = Some k \/ (str_truthy api_key = false /\ environ_key = Some k))).
Proof.
  intros api_key environ_key. unfold BookTasteAnalyzer_init, str_or. split.
  - intros Ha He. now rewrite Ha, He.
  - intros k. destruct (str_truthy api_key) eqn:Ha.
    + rewrite Ha. destruct api_key as [[|c s]|]; try discriminate.
      intros [= <-]. split; [discriminate|now left].
    + destruct (str_truthy environ_key) eqn:He; [|discriminate].
      destruct environ_key as [[|c s]|]; try discriminate.
      intros [= <-]. split; [discriminate|now right].
Qed.

Lemma X18_api_key_required_witness :
  BookTasteAnalyzer_init (Some EmptyString) (Some "sk-1") = Returns "sk-1" /\
  "sk-1" <> EmptyString /\
  (Some EmptyString = Some "sk-1" \/
   (str_truthy (Some EmptyString) = false /\ Some "sk-1" = Some "sk-1")).
Proof.
  assert (H : BookTasteAnalyzer_init (Some EmptyString) (Some "sk-1") = Returns "sk-1")
    by reflexivity.
  split; [exact H|].
  exact (proj2 (X18_api_key_required (Some EmptyString) (Some "sk-1")) "sk-1" H).
Defined.

(** ** [update_user_profile] of [src/test_auth.py] *)

Lemma is_allowed_updated_at : TestAuth.is_allowed "updated_at" = false.
Proof. reflexivity. Qed.

Lemma foldl_allowed (items acc : list (string * json)) :
  List.NoDup (map fst items) ->
  (forall k, In k (map fst items) -> ~ In k (map fst acc)) ->
  foldl (fun d kv => if TestAuth.is_allowed (fst kv) then dict_set (fst kv) (snd kv) d else d)
        acc items =
  acc ++ List.filter (fun kv => TestAuth.is_allowed (fst kv)) items.
Proof.
  revert acc. induction items as [|[k v] items IH]; intros acc Hnd Hfresh.
  - simpl. now rewrite app_nil_r.
  - inversion Hnd as [|? ? Hk Hnd']; subst.
    cbn [foldl List.filter fst snd].
    destruct (TestAuth.is_allowed k) eqn:Ek.
    + rewrite dict_set_fresh by (apply Hfresh; now left).
      rewrite IH; [now rewrite <- app_assoc|exact Hnd'|].
      intros k' Hk' Hin. rewrite map_app, in_app_iff in Hin.
      destruct Hin as [Hin|[<-|[]]].
      * apply (Hfresh k'); [now right|exact Hin].
      * contradiction.
    + apply IH; [exact Hnd'|]. intros k' Hk'. apply Hfresh. now right.
Qed.

Lemma update_data_of_filter (now : string) (items : list (string * json)) :
  List.NoDup (map fst items) ->
  TestAuth.update_data_of now items =
  List.filter (fun kv => TestAuth.is_allowed (fst kv)) items ++ [("updated_at", JStr now)].
Proof.
  intros Hnd. unfold TestAuth.update_data_of.
  rewrite (foldl_allowed items [] Hnd) by (intros k _ []). cbn [app].
  apply dict_set_fresh. intros Hin.
  apply in_map_iff in Hin as ([k v] & Hk & Hin). simpl in Hk. subst k.
  apply filter_In in Hin as [_ Ha]. simpl in Ha.
  rewrite is_allowed_updated_at in Ha. discriminate.
Qed.

(** X19. [update_user_profile] sends the table one update, for the row of
    [user_id]: the entries of the payload whose key is one of [full_name],
    [avatar_url], [bio] and [phone], in the payload's order, followed by
    [updated_at] with the server's time.  Any other key of the payload,
    [id], [email] or an [updated_at] of the client's among them, is left
    out.  It returns the first row of the response, or [None] when there
    is none, and passes on what the update raises.  A payload that is not
    an object raises [AttributeError] before anything is sent. *)
Theorem X19_update_sends_allowed_fields_only :
  forall (now : string) (users_update : string -> list (string * json) -> outcome (list json))
         (user_id : string) (profile_data : json) (writes : list TestAuth.db_write),
    (forall items,
       profile_data = JObj items ->
       List.NoDup (map fst items) ->
       TestAuth.update_user_profile now users_update user_id profile_data writes =
         (match users_update user_id
                  (List.filter (fun kv => TestAuth.is_allowed (fst kv)) items
                     ++ [("updated_at", JStr now)]) with
          | Raises e => Raises e
          | Returns [] => Returns JNull
          | Returns (first :: _) => Returns first
          end,
          writes ++ [(user_id,
                      List.filter (fun kv => TestAuth.is_allowed (fst kv)) items
                        ++ [("updated_at", JStr now)])])) /\
    ((forall items, profile_data <> JObj items) ->
     TestAuth.update_user_profile now users_update user_id profile_data writes =
       (Raises (Std AttributeError), writes)).
Proof.
  intros now users_update user_id profile_data writes. split.
  - intros items -> Hnd. unfold TestAuth.update_user_profile. cbn [TestAuth.py_items].
    rewrite (update_data_of_filter now items Hnd).
    destruct (users_update user_id _) as [[|first rest]|e]; reflexivity.
  - intros Hn. unfold TestAuth.update_user_profile.
    destruct profile_data; try reflexivity. now destruct (Hn d).
Qed.

Lemma X19_update_sends_allowed_fields_only_witness :
  List.NoDup (map fst [("id", JStr "7"); ("bio", JStr "reader");
                       ("updated_at", JStr "never"); ("phone", JNull)]) /\
  TestAuth.update_user_profile "2024-01-01T00:00:00" (fun _ d => Returns [JObj d]) "42"
      (JObj [("id", JStr "7"); ("bio", JStr "reader");
             ("updated_at", JStr "never"); ("phone", JNull)]) [] =
    (Returns (JObj [("bio", JStr "reader"); ("phone", JNull);
                    ("updated_at", JStr "2024-01-01T00:00:00")]),
     [("42", [("bio", JStr "reader"); ("phone", JNull);
              ("updated_at", JStr "2024-01-01T00:00:00")])]).
Proof.
  assert (Hnd : List.NoDup (map fst [("id", JStr "7"); ("bio", JStr "reader");
                                     ("updated_at", JStr "never"); ("phone", JNull)])).
  { cbn [map fst]. repeat constructor; cbn [In]; intuition discriminate. }
  split; [exact Hnd|].
  exact (proj1 (X19_update_sends_allowed_fields_only "2024-01-01T00:00:00"
                  (fun _ d => Returns [JObj d]) "42" _ []) _ eq_refl Hnd).
Defined.

(** ** A negative [top_n] *)

(** X20. A negative [top_n] is taken as a slice bound counted from the
    end: in either file [get_recommendations] then returns the scored
    list without its last [- top_n] records (nothing when there are no
    more than that), not an error and not the whole list. *)
Theorem X20_negative_top_n :
  forall be tp sp (read_books unread_books : list Book) log p log1 scored log2 n,
    n < 0 ->
    (App2.analyze_reading_taste be tp read_books log = (Ok p, log1) ->
     App2.score_unread_books be sp p unread_books log1 = (Ok scored, log2) ->
     App2.get_recommendations be tp sp read_books unread_books (Passed (Some n)) log =
       (Ok (p, take (length scored - Z.to_nat (- n)) scored), log2)) /\
    (Remd.analyze_reading_taste be tp read_books log = (Ok p, log1) ->
     Remd.score_unread_books be sp p unread_books log1 = (Ok scored, log2) ->
     Remd.get_recommendations be tp sp read_books unread_books (Passed (Some n)) log =
       (Ok (p, take (length scored - Z.to_nat (- n)) scored), log2)).
Proof.
  intros be tp sp read_books unread_books log p log1 scored log2 n Hn.
  split; intros Ha Hs.
  - rewrite App2_get_recommendations_unfold, Ha, Hs. cbn [arg_value].
    now rewrite negative_top_n_drops_last.
  - rewrite Remd_get_recommendations_unfold, Ha, Hs. cbn [arg_value].
    now rewrite negative_top_n_drops_last.
Qed.

Lemma X20_negative_top_n_witness :
  exists scored,
    -2 < 0 /\
    App2.analyze_reading_taste (backend_says five_reply) some_taste_prompt [] [] =
      (Ok empty_profile, []) /\
    App2.score_unread_books (backend_says five_reply) some_scoring_prompt
        empty_profile five_books [] = (Ok scored, ["score"]) /\
    scored_titles scored = ["B"; "D"; "C"; "A"; "E"] /\
    App2.get_recommendations (backend_says five_reply) some_taste_prompt
        some_scoring_prompt [] five_books (Passed (Some (-2))) [] =
      (Ok (empty_profile, take (length scored - Z.to_nat (- -2)) scored), ["score"]).
Proof.
  eexists. split; [reflexivity|]. split; [reflexivity|].
  split; [vm_compute; reflexivity|]. split; [reflexivity|].
  refine (proj1 (X20_negative_top_n (backend_says five_reply) some_taste_prompt
                   some_scoring_prompt [] five_books [] empty_profile [] _ ["score"] (-2) _)
            eq_refl _).
  - reflexivity.
  - vm_compute. reflexivity.
Defined.
